(** * Power management core: device registry, broadcast with veto and undo
      (kernel/pm.c) and the APM front end's client queues and pending
      counters (arch/i386/kernel/apm.c).

    The development is a shallow embedding: every C function that matters
    is a Rocq function over explicit state.  What the code does outside
    that state (device callbacks, BIOS calls, console messages) is kept in
    a trace of effects, newest first, and what the outside answers is read
    from a [World]; the other BIOS calls are answered by an [apm_bios],
    and a [user_buf] tells where [copy_to_user] succeeds.

    Left out, because they touch none of the modelled state: the upkeep of
    the clock ([get_time_diff], [set_time], [reinit_timer]), the masking of
    interrupts, the wake-ups of the wait queues, and the messages printed
    under [debug].  The counters are C [int]s; they are integers here, and
    signed overflow (undefined in C) is out of reach of the model. *)

From stdpp Require Import base numbers list option sets.

Local Open Scope Z_scope.

(** ** Effects and the outside world *)

(** [pm_request_t] (linux/pm.h).  pm.c names two requests and sends every
    other one through the [default:] branch of [pm_send]. *)
Inductive pm_request_t :=
| PM_SUSPEND
| PM_RESUME
| PM_REQUEST (code : Z).

#[global] Instance pm_request_t_eq_dec : EqDecision pm_request_t.
Proof. solve_decision. Defined.

(** The power states handed to [apm_set_power_state] (linux/apm_bios.h). *)
Inductive apm_power_state :=
| APM_STATE_READY
| APM_STATE_STANDBY
| APM_STATE_SUSPEND
| APM_STATE_OFF
| APM_STATE_BUSY
| APM_STATE_REJECT.

#[global] Instance apm_power_state_eq_dec : EqDecision apm_power_state.
Proof. solve_decision. Defined.

(** The messages the modelled functions print. *)
Inductive log_msg :=
| MsgQueueOverflow                 (* "apm: an event queue overflowed" *)
| MsgVetoed                        (* "apm: suspend was vetoed." *)
| MsgVetoedAnyway                  (* "apm: suspend was vetoed, but suspending anyway." *)
| MsgSuspendError (err : Z)        (* apm_error("suspend", err) *)
| MsgStandbyError (err : Z)        (* apm_error("standby", err) *)
| MsgBadFilp                       (* "apm: %s passed bad filp" *)
| MsgCannotAllocate.               (* "apm: cannot allocate struct of size %d bytes" *)

#[global] Instance log_msg_eq_dec : EqDecision log_msg.
Proof. solve_decision. Defined.

(** A device is named by the address of its [struct pm_dev], a callback by
    the address of its code. *)
Definition pm_handle := nat.
Definition pm_callback := nat.

Bind Scope nat_scope with pm_handle pm_callback.

Inductive effect :=
| EvCallback (dev : pm_handle) (rqst : pm_request_t) (data : Z)
| EvSetPowerState (state : apm_power_state)
| EvPrintk (msg : log_msg).

#[global] Instance effect_eq_dec : EqDecision effect.
Proof. solve_decision. Defined.

Definition trace := list effect.

(** [struct pm_dev] (linux/pm.h): the fields pm.c reads and writes.
    [entry] stands for the list node, that is for the address of the
    record; [callback] is [None] for a NULL pointer. *)
Record pm_dev := Build_pm_dev {
  entry : pm_handle;
  type : Z;
  id : Z;
  callback : option pm_callback;
  state : Z;
  prev_state : Z
}.

#[global] Instance pm_dev_eq_dec : EqDecision pm_dev.
Proof. solve_decision. Defined.

(** What the outside answers.  A callback sees the device record and its
    two arguments, and may depend on everything that happened before (the
    trace); so may the BIOS.  [apm_bios_call_simple] gives the error flag
    and [eax] of the APM "set power state" call. *)
Record World := Build_World {
  call_callback : pm_callback -> trace -> pm_dev -> pm_request_t -> Z -> Z;
  apm_bios_call_simple : trace -> apm_power_state -> bool * Z;
  CONFIG_APM_IGNORE_USER_SUSPEND : bool
}.

(** ** kernel/pm.c *)

Definition set_state (s : Z) (dev : pm_dev) : pm_dev :=
  Build_pm_dev (entry dev) (type dev) (id dev) (callback dev) s (prev_state dev).

Definition set_prev_state (s : Z) (dev : pm_dev) : pm_dev :=
  Build_pm_dev (entry dev) (type dev) (id dev) (callback dev) (state dev) s.

(** The registry: [pm_devs] in list order ([pm_devs.next] first), and the
    next address [kmalloc] hands out (addresses are not reused). *)
Record pm_state := Build_pm_state {
  pm_devs : list pm_dev;
  pm_brk : pm_handle
}.

Definition pm_init : pm_state := Build_pm_state [] 0%nat.

(** [list_add(new, head)] of linux/list.h links [new] right after [head]:
    the new entry becomes the first one of the list. *)
Definition list_add (new : pm_dev) (head : list pm_dev) : list pm_dev :=
  new :: head.

(** [list_del(entry)] unlinks the entry with that address. *)
Definition list_del (e : pm_handle) (head : list pm_dev) : list pm_dev :=
  filter (fun d => entry d ≠ e) head.

(** [pm_register]: [kmalloc_ok = false] is the case of [kmalloc]
    returning NULL.  The record is zeroed ([memset]) before [type], [id]
    and [callback] are set. *)
Definition pm_register (kmalloc_ok : bool) (ty : Z) (i : Z)
    (cb : option pm_callback) (st : pm_state) : option pm_handle * pm_state :=
  if kmalloc_ok then
    let dev := Build_pm_dev (pm_brk st) ty i cb 0 0 in
    (Some (pm_brk st), Build_pm_state (list_add dev (pm_devs st)) (S (pm_brk st)))
  else (None, st).

(** [pm_unregister]: [None] is the NULL pointer. *)
Definition pm_unregister (dev : option pm_handle) (st : pm_state) : pm_state :=
  match dev with
  | Some e => Build_pm_state (list_del e (pm_devs st)) (pm_brk st)
  | None => st
  end.

(** [pm_unregister_all]: every device whose callback is the given one. *)
Definition pm_unregister_all (cb : option pm_callback) (st : pm_state) : pm_state :=
  match cb with
  | None => st
  | Some f =>
      Build_pm_state (filter (fun d => callback d ≠ Some f) (pm_devs st)) (pm_brk st)
  end.

Section pm_c.
Variable W : World.

(** Calling the device's callback when it has one; the status stays 0
    when it has none. *)
Definition invoke (dev : pm_dev) (rqst : pm_request_t) (data : Z) (tr : trace)
    : Z * trace :=
  match callback dev with
  | Some f => (call_callback W f tr dev rqst data, EvCallback (entry dev) rqst data :: tr)
  | None => (0, tr)
  end.

Definition pm_send (dev : pm_dev) (rqst : pm_request_t) (data : Z) (tr : trace)
    : Z * pm_dev * trace :=
  match rqst with
  | PM_SUSPEND | PM_RESUME =>
      let prev := state dev in
      let next := data in
      if decide (prev ≠ next) then
        let '(status, tr') := invoke dev rqst data tr in
        if decide (status = 0)
        then (status, set_prev_state prev (set_state next dev), tr')
        else (status, dev, tr')
      else (0, set_prev_state prev dev, tr)
  | PM_REQUEST _ =>
      let '(status, tr') := invoke dev rqst data tr in
      (status, dev, tr')
  end.

(** [pm_undo_all(last)]: the argument is the part of the list before
    [last], nearest entry first (the walk along [entry.prev]).  The status
    of the compensating [pm_send] is dropped. *)
Fixpoint pm_undo_all (before : list pm_dev) (tr : trace) : list pm_dev * trace :=
  match before with
  | [] => ([], tr)
  | dev :: more =>
      let '(dev', tr') :=
        if decide (state dev ≠ prev_state dev) then
          let undo := if decide (prev_state dev ≠ 0) then PM_SUSPEND else PM_RESUME in
          let '(_, dev', tr') := pm_send dev undo (prev_state dev) tr in
          (dev', tr')
        else (dev, tr) in
      let '(more', tr'') := pm_undo_all more tr' in
      (dev' :: more', tr'')
  end.

(** The loop of [pm_send_all]: [before] holds the entries already passed,
    nearest first, [todo] the entries from the current one on. *)
Fixpoint pm_send_all_from (rqst : pm_request_t) (data : Z)
    (before todo : list pm_dev) (tr : trace) : Z * list pm_dev * trace :=
  match todo with
  | [] => (0, reverse before, tr)
  | dev :: rest =>
      match callback dev with
      | Some _ =>
          let '(status, dev', tr') := pm_send dev rqst data tr in
          if decide (status ≠ 0) then
            let '(before', tr'') :=
              if decide (rqst = PM_SUSPEND) then pm_undo_all before tr'
              else (before, tr') in
            (status, reverse before' ++ dev' :: rest, tr'')
          else pm_send_all_from rqst data (dev' :: before) rest tr'
      | None => pm_send_all_from rqst data (dev :: before) rest tr
      end
  end.

Definition pm_send_all (rqst : pm_request_t) (data : Z) (devs : list pm_dev)
    (tr : trace) : Z * list pm_dev * trace :=
  pm_send_all_from rqst data [] devs tr.

End pm_c.

(** ** arch/i386/kernel/apm.c *)

(** [apm_event_t] (linux/apm_bios.h): the twelve events apm.c names, and
    any other code the BIOS may report. *)
Inductive apm_event_t :=
| APM_SYS_STANDBY
| APM_SYS_SUSPEND
| APM_NORMAL_RESUME
| APM_CRITICAL_RESUME
| APM_LOW_BATTERY
| APM_POWER_STATUS_CHANGE
| APM_UPDATE_TIME
| APM_CRITICAL_SUSPEND
| APM_USER_STANDBY
| APM_USER_SUSPEND
| APM_STANDBY_RESUME
| APM_CAPABILITY_CHANGE
| APM_EVENT (code : Z).

#[global] Instance apm_event_t_eq_dec : EqDecision apm_event_t.
Proof. solve_decision. Defined.

Definition APM_MAX_EVENTS : Z := 20.

(** Constants of the headers apm.c includes (linux/apm_bios.h,
    asm/errno.h). *)
Definition APM_SUCCESS : Z := 0.
Definition APM_NO_ERROR : Z := 83.
Definition EPERM : Z := 1.
Definition EIO : Z := 5.
Definition EAGAIN : Z := 11.
Definition EFAULT : Z := 14.
Definition ENOMEM : Z := 12.
Definition EBUSY : Z := 16.
Definition EINVAL : Z := 22.
Definition ERESTARTSYS : Z := 512.

(** [sizeof(apm_event_t)], an [unsigned short]. *)
Definition sizeof_event : Z := 2.

Definition apm_handle := nat.

Bind Scope nat_scope with apm_handle.

(** [struct apm_user].  [as_self] is the address of the record, which is
    what [filp->private_data] holds; the one-bit fields are booleans. *)
Record apm_user := Build_apm_user {
  as_self : apm_handle;
  as_suser : bool;
  as_writer : bool;
  as_reader : bool;
  as_suspend_wait : bool;
  as_suspend_result : Z;
  as_suspends_pending : Z;
  as_standbys_pending : Z;
  as_suspends_read : Z;
  as_standbys_read : Z;
  as_event_head : Z;
  as_event_tail : Z;
  as_events : list apm_event_t
}.

Definition set_as_suspend (w : bool) (r : Z) (a : apm_user) : apm_user :=
  Build_apm_user (as_self a) (as_suser a) (as_writer a) (as_reader a)
    w r (as_suspends_pending a) (as_standbys_pending a)
    (as_suspends_read a) (as_standbys_read a)
    (as_event_head a) (as_event_tail a) (as_events a).

Definition set_as_suspend_wait (w : bool) (a : apm_user) : apm_user :=
  set_as_suspend w (as_suspend_result a) a.

Definition set_as_suspends (pending read : Z) (a : apm_user) : apm_user :=
  Build_apm_user (as_self a) (as_suser a) (as_writer a) (as_reader a)
    (as_suspend_wait a) (as_suspend_result a) pending (as_standbys_pending a)
    read (as_standbys_read a)
    (as_event_head a) (as_event_tail a) (as_events a).

Definition set_as_standbys (pending read : Z) (a : apm_user) : apm_user :=
  Build_apm_user (as_self a) (as_suser a) (as_writer a) (as_reader a)
    (as_suspend_wait a) (as_suspend_result a) (as_suspends_pending a) pending
    (as_suspends_read a) read
    (as_event_head a) (as_event_tail a) (as_events a).

Definition set_as_queue (head tail : Z) (evs : list apm_event_t) (a : apm_user)
    : apm_user :=
  Build_apm_user (as_self a) (as_suser a) (as_writer a) (as_reader a)
    (as_suspend_wait a) (as_suspend_result a)
    (as_suspends_pending a) (as_standbys_pending a)
    (as_suspends_read a) (as_standbys_read a) head tail evs.

(** The static variables of apm.c that the modelled functions use, the
    device list of pm.c, and the trace.  [notified] is the static of
    [queue_event]; [last_resume] and [ignore_bounce] are the statics of
    [check_events]; [connection_version] is [apm_info.connection_version];
    [brk] is the next address [kmalloc] hands out.  The flags only ever
    hold 0 or 1. *)
Record apm_state := Build_apm_state {
  devs : list pm_dev;
  user_list : list apm_user;
  brk : apm_handle;
  suspends_pending : Z;
  standbys_pending : Z;
  waiting_for_resume : bool;
  ignore_normal_resume : bool;
  bounce_interval : Z;
  last_resume : Z;
  ignore_bounce : bool;
  notified : Z;
  connection_version : Z;
  log : trace
}.

Definition set_pm (ds : list pm_dev) (tr : trace) (st : apm_state) : apm_state :=
  Build_apm_state ds (user_list st) (brk st)
    (suspends_pending st) (standbys_pending st)
    (waiting_for_resume st) (ignore_normal_resume st) (bounce_interval st)
    (last_resume st) (ignore_bounce st) (notified st) (connection_version st) tr.

Definition set_log (tr : trace) (st : apm_state) : apm_state :=
  set_pm (devs st) tr st.

Definition set_users (us : list apm_user) (b : apm_handle) (st : apm_state)
    : apm_state :=
  Build_apm_state (devs st) us b
    (suspends_pending st) (standbys_pending st)
    (waiting_for_resume st) (ignore_normal_resume st) (bounce_interval st)
    (last_resume st) (ignore_bounce st) (notified st) (connection_version st)
    (log st).

Definition set_user_list (us : list apm_user) (st : apm_state) : apm_state :=
  set_users us (brk st) st.

Definition set_pending (sus sby : Z) (st : apm_state) : apm_state :=
  Build_apm_state (devs st) (user_list st) (brk st) sus sby
    (waiting_for_resume st) (ignore_normal_resume st) (bounce_interval st)
    (last_resume st) (ignore_bounce st) (notified st) (connection_version st)
    (log st).

Definition set_resume_flags (waiting ignore_normal : bool) (st : apm_state)
    : apm_state :=
  Build_apm_state (devs st) (user_list st) (brk st)
    (suspends_pending st) (standbys_pending st)
    waiting ignore_normal (bounce_interval st)
    (last_resume st) (ignore_bounce st) (notified st) (connection_version st)
    (log st).

Definition set_waiting_for_resume (b : bool) (st : apm_state) : apm_state :=
  set_resume_flags b (ignore_normal_resume st) st.

Definition set_ignore_normal_resume (b : bool) (st : apm_state) : apm_state :=
  set_resume_flags (waiting_for_resume st) b st.

Definition set_bounce (last : Z) (ignore : bool) (st : apm_state) : apm_state :=
  Build_apm_state (devs st) (user_list st) (brk st)
    (suspends_pending st) (standbys_pending st)
    (waiting_for_resume st) (ignore_normal_resume st) (bounce_interval st)
    last ignore (notified st) (connection_version st) (log st).

Definition set_notified (n : Z) (st : apm_state) : apm_state :=
  Build_apm_state (devs st) (user_list st) (brk st)
    (suspends_pending st) (standbys_pending st)
    (waiting_for_resume st) (ignore_normal_resume st) (bounce_interval st)
    (last_resume st) (ignore_bounce st) n (connection_version st) (log st).

Definition printk (m : log_msg) (st : apm_state) : apm_state :=
  set_log (EvPrintk m :: log st) st.

(** *** The event queue of one client *)

Definition queue_empty (a : apm_user) : bool :=
  bool_decide (as_event_head a = as_event_tail a).

(** [as->events[i]]; the index is always within the array. *)
Definition event_at (i : Z) (a : apm_user) : apm_event_t :=
  default (APM_EVENT 0) (as_events a !! Z.to_nat i).

Definition get_queued_event (a : apm_user) : apm_event_t * apm_user :=
  let tail := Z.rem (as_event_tail a + 1) APM_MAX_EVENTS in
  let a := set_as_queue (as_event_head a) tail (as_events a) a in
  (event_at (as_event_tail a) a, a).

(** The body of the [for] loop of [queue_event], for one client. *)
Definition queue_event_user (event : apm_event_t) (sender : option apm_handle)
    (a : apm_user) (st : apm_state) : apm_user * apm_state :=
  if bool_decide (sender = Some (as_self a)) || negb (as_reader a) then (a, st)
  else
    let a := set_as_queue (Z.rem (as_event_head a + 1) APM_MAX_EVENTS)
               (as_event_tail a) (as_events a) a in
    let '(a, st) :=
      if bool_decide (as_event_head a = as_event_tail a) then
        let st := if bool_decide (notified st = 0)
                  then printk MsgQueueOverflow st else st in
        let st := set_notified (notified st + 1) st in
        (set_as_queue (as_event_head a)
           (Z.rem (as_event_tail a + 1) APM_MAX_EVENTS) (as_events a) a, st)
      else (a, st) in
    let a := set_as_queue (as_event_head a) (as_event_tail a)
               (<[Z.to_nat (as_event_head a) := event]> (as_events a)) a in
    if negb (as_suser a) || negb (as_writer a) then (a, st)
    else
      match event with
      | APM_SYS_SUSPEND | APM_USER_SUSPEND =>
          (set_as_suspends (as_suspends_pending a + 1) (as_suspends_read a) a,
           set_pending (suspends_pending st + 1) (standbys_pending st) st)
      | APM_SYS_STANDBY | APM_USER_STANDBY =>
          (set_as_standbys (as_standbys_pending a + 1) (as_standbys_read a) a,
           set_pending (suspends_pending st) (standbys_pending st + 1) st)
      | _ => (a, st)
      end.

Fixpoint queue_event_loop (event : apm_event_t) (sender : option apm_handle)
    (users : list apm_user) (st : apm_state) : list apm_user * apm_state :=
  match users with
  | [] => ([], st)
  | a :: rest =>
      let '(a', st') := queue_event_user event sender a st in
      let '(rest', st'') := queue_event_loop event sender rest st' in
      (a' :: rest', st'')
  end.

(** [queue_event(event, sender)]; [sender = None] is the NULL pointer. *)
Definition queue_event (event : apm_event_t) (sender : option apm_handle)
    (st : apm_state) : apm_state :=
  let '(users, st') := queue_event_loop event sender (user_list st) st in
  set_user_list users st'.

Section apm_c.
Variable W : World.

Definition set_power_state (state : apm_power_state) (st : apm_state)
    : Z * apm_state :=
  let '(failed, eax) := apm_bios_call_simple W (log st) state in
  let st := set_log (EvSetPowerState state :: log st) st in
  if failed then (Z.land (Z.shiftr eax 8) 255, st) else (APM_SUCCESS, st).

Definition apm_set_power_state := set_power_state.

(** The [out:] part of [suspend]. *)
Definition suspend_out (err : Z) (st : apm_state) : Z * apm_state :=
  let st := set_user_list (set_as_suspend false err <$> user_list st) st in
  (err, set_ignore_normal_resume true st).

Definition suspend (vetoable : bool) (st : apm_state) : Z * apm_state :=
  let '(status, ds, tr) := pm_send_all W PM_SUSPEND 3 (devs st) (log st) in
  let st := set_pm ds tr st in
  if bool_decide (status ≠ 0) && vetoable then
    let st := if bool_decide (256 < connection_version st)
              then (apm_set_power_state APM_STATE_REJECT st).2 else st in
    let err := - EBUSY in
    let st := set_waiting_for_resume false st in
    let st := printk MsgVetoed st in
    suspend_out err st
  else
    let st := if bool_decide (status ≠ 0) then printk MsgVetoedAnyway st else st in
    let '(err, st) := apm_set_power_state APM_STATE_SUSPEND st in
    let err := if bool_decide (err = APM_NO_ERROR) then APM_SUCCESS else err in
    let st := if bool_decide (err ≠ APM_SUCCESS)
              then printk (MsgSuspendError err) st else st in
    let err := if bool_decide (err = APM_SUCCESS) then 0 else - EIO in
    let '(_, ds, tr) := pm_send_all W PM_RESUME 0 (devs st) (log st) in
    let st := set_pm ds tr st in
    let st := queue_event APM_NORMAL_RESUME None st in
    let st := set_ignore_normal_resume true st in
    suspend_out err st.

Definition standby (st : apm_state) : apm_state :=
  let '(err, st) := apm_set_power_state APM_STATE_STANDBY st in
  if bool_decide (err ≠ APM_SUCCESS) && bool_decide (err ≠ APM_NO_ERROR)
  then printk (MsgStandbyError err) st else st.

(** [unsigned long] on i386. *)
Definition ulong (x : Z) : Z := x `mod` 2 ^ 32.

(** One turn of the [while] loop of [check_events], for the event
    [get_event] returned, [jiffies] being the clock at that moment.  The
    boolean is [false] when the function returns from inside the loop. *)
Definition check_event (jiffies : Z) (event : apm_event_t) (st : apm_state)
    : bool * apm_state :=
  let st :=
    if ignore_bounce st
       && bool_decide (ulong (bounce_interval st) < ulong (jiffies - last_resume st))
    then set_bounce (last_resume st) false st else st in
  let st :=
    if ignore_normal_resume st && bool_decide (event ≠ APM_NORMAL_RESUME)
    then set_ignore_normal_resume false st else st in
  let reject st :=
    if bool_decide (256 < connection_version st)
    then (apm_set_power_state APM_STATE_REJECT st).2 else st in
  let sys_suspend st :=
    if ignore_bounce st then (true, reject st)
    else if waiting_for_resume st then (false, st)
    else
      let st := set_waiting_for_resume true st in
      let st := queue_event event None st in
      (true, if bool_decide (suspends_pending st ≤ 0)
             then (suspend true st).2 else st) in
  match event with
  | APM_SYS_STANDBY | APM_USER_STANDBY =>
      let st := queue_event event None st in
      (true, if bool_decide (standbys_pending st ≤ 0) then standby st else st)
  | APM_USER_SUSPEND =>
      if CONFIG_APM_IGNORE_USER_SUSPEND W then (true, reject st)
      else sys_suspend st
  | APM_SYS_SUSPEND => sys_suspend st
  | APM_NORMAL_RESUME | APM_CRITICAL_RESUME | APM_STANDBY_RESUME =>
      let st := set_waiting_for_resume false st in
      let st := set_bounce (ulong jiffies) true st in
      let st :=
        if bool_decide (event ≠ APM_NORMAL_RESUME) || negb (ignore_normal_resume st)
        then
          let '(_, ds, tr) := pm_send_all W PM_RESUME 0 (devs st) (log st) in
          queue_event event None (set_pm ds tr st)
        else st in
      (true, set_ignore_normal_resume false st)
  | APM_CAPABILITY_CHANGE | APM_LOW_BATTERY | APM_POWER_STATUS_CHANGE =>
      (true, queue_event event None st)
  | APM_UPDATE_TIME => (true, st)
  | APM_CRITICAL_SUSPEND => (true, (suspend false st).2)
  | APM_EVENT _ => (true, st)
  end.

(** [check_events]: the events [get_event] reports one after the other
    (it returns 0 when the list is used up), each with the clock at the
    time it is handled. *)
Fixpoint check_events (reported : list (Z * apm_event_t)) (st : apm_state)
    : apm_state :=
  match reported with
  | [] => st
  | (jiffies, event) :: rest =>
      let '(continue, st) := check_event jiffies event st in
      if continue then check_events rest st else st
  end.

(** *** The character device *)

(** [check_apm_user]: the handle is that of a connected client. *)
Definition lookup_user (filp : apm_handle) (st : apm_state) : option apm_user :=
  find (fun a => bool_decide (as_self a = filp)) (user_list st).

(** Writing through the pointer [as]. *)
Definition update_user (filp : apm_handle) (f : apm_user -> apm_user)
    (st : apm_state) : apm_state :=
  set_user_list
    ((fun a => if bool_decide (as_self a = filp) then f a else a)
       <$> user_list st) st.

(** [do_open]: the new record goes to the front of [user_list].  The
    fields [do_open] leaves as [kmalloc] gave them ([suspend_wait],
    [suspend_result], [events]) are written before they are ever read;
    they start zeroed here.  The second component is what
    [filp->private_data] is set to. *)
Definition do_open (kmalloc_ok capable fmode_read fmode_write : bool)
    (st : apm_state) : Z * option apm_handle * apm_state :=
  if kmalloc_ok then
    let a := Build_apm_user (brk st) capable fmode_write fmode_read
               false 0 0 0 0 0 0 0
               (replicate (Z.to_nat APM_MAX_EVENTS) (APM_EVENT 0)) in
    (0, Some (brk st), set_users (a :: user_list st) (S (brk st)) st)
  else (- ENOMEM, None, printk MsgCannotAllocate st).

(** The user's buffer, as far as [do_read] can tell: [buf k] says
    whether [copy_to_user] succeeds for the event that goes to
    [buf + k * sizeof(event)]. *)
Definition user_buf := nat -> bool.

(** A buffer that can be written everywhere. *)
Definition valid_buf : user_buf := fun _ => true.

(** The [while] loop of [do_read]; [k] events have been copied so far
    ([i < count] when [k] is not 0), and [n] is how many events still fit
    in the buffer ([i >= sizeof(event)]).  When [copy_to_user] fails the
    event has been taken out of the queue already; the loop is left with
    [break], or the function with [-EFAULT], which the boolean tells. *)
Fixpoint do_read_loop (buf : user_buf) (k n : nat) (a : apm_user)
    : bool * list apm_event_t * apm_user :=
  match n with
  | O => (false, [], a)
  | S n' =>
      if queue_empty a then (false, [], a)
      else
        let '(event, a) := get_queued_event a in
        if buf k then
          let a :=
            match event with
            | APM_SYS_SUSPEND | APM_USER_SUSPEND =>
                set_as_suspends (as_suspends_pending a) (as_suspends_read a + 1) a
            | APM_SYS_STANDBY | APM_USER_STANDBY =>
                set_as_standbys (as_standbys_pending a) (as_standbys_read a + 1) a
            | _ => a
            end in
          let '(fault, evs, a) := do_read_loop buf (S k) n' a in
          (fault, event :: evs, a)
        else (bool_decide (k = 0%nat), [], a)
  end.

(** How many of the [n] slots of the buffer from slot [k] on can be
    written before the first one that cannot. *)
Fixpoint writable (buf : user_buf) (k n : nat) : nat :=
  match n with
  | O => O
  | S n' => if buf k then S (writable buf (S k) n') else O
  end.

(** What [do_read] gives back: a return value and the events copied to
    the buffer, or the caller asleep on [apm_waitqueue] (empty queue,
    blocking read; nothing changes until someone else queues an event or
    a signal ends the wait). *)
Inductive read_ret :=
| ReadReturned (v : Z) (buf : list apm_event_t)
| ReadSleeping.

(** [do_read].  A [copy_to_user] that fails on the first event gives
    [-EFAULT]; one that fails later ends the read with the events copied
    before. *)

Definition do_read (filp : apm_handle) (buf : user_buf) (count : Z)
    (nonblock : bool) (st : apm_state) : read_ret * apm_state :=
  match lookup_user filp st with
  | None => (ReadReturned (- EIO) [], printk MsgBadFilp st)
  | Some a =>
      if bool_decide (count < sizeof_event) then (ReadReturned (- EINVAL) [], st)
      else if queue_empty a then
        if nonblock then (ReadReturned (- EAGAIN) [], st) else (ReadSleeping, st)
      else
        let '(fault, evs, a') :=
          do_read_loop buf 0 (Z.to_nat (count `div` sizeof_event)) a in
        let st := update_user filp (fun _ => a') st in
        if fault then (ReadReturned (- EFAULT) [], st)
        else (ReadReturned (sizeof_event * Z.of_nat (length evs)) evs, st)
  end.

Inductive ioctl_cmd :=
| APM_IOC_STANDBY
| APM_IOC_SUSPEND
| APM_IOC_OTHER (cmd : Z).

(** What [do_ioctl] gives back: a return value, or the caller asleep on
    [apm_suspend_waitqueue] until [suspend_wait] is cleared (it then
    returns [suspend_result]). *)
Inductive ioctl_ret :=
| IoctlReturned (v : Z)
| IoctlSleeping.

Definition do_ioctl (filp : apm_handle) (cmd : ioctl_cmd) (st : apm_state)
    : ioctl_ret * apm_state :=
  match lookup_user filp st with
  | None => (IoctlReturned (- EIO), printk MsgBadFilp st)
  | Some a =>
      if negb (as_suser a) || negb (as_writer a) then (IoctlReturned (- EPERM), st)
      else
        match cmd with
        | APM_IOC_STANDBY =>
            let st :=
              if bool_decide (0 < as_standbys_read a) then
                let st :=
                  update_user filp
                    (set_as_standbys (as_standbys_pending a - 1)
                       (as_standbys_read a - 1)) st in
                set_pending (suspends_pending st) (standbys_pending st - 1) st
              else queue_event APM_USER_STANDBY (Some filp) st in
            let st := if bool_decide (standbys_pending st ≤ 0)
                      then standby st else st in
            (IoctlReturned 0, st)
        | APM_IOC_SUSPEND =>
            let st :=
              if bool_decide (0 < as_suspends_read a) then
                let st :=
                  update_user filp
                    (set_as_suspends (as_suspends_pending a - 1)
                       (as_suspends_read a - 1)) st in
                set_pending (suspends_pending st - 1) (standbys_pending st) st
              else queue_event APM_USER_SUSPEND (Some filp) st in
            if bool_decide (suspends_pending st ≤ 0) then
              let '(err, st) := suspend true st in
              (IoctlReturned err, st)
            else (IoctlSleeping, update_user filp (set_as_suspend_wait true) st)
        | APM_IOC_OTHER _ => (IoctlReturned (- EINVAL), st)
        end
  end.

(** Taking the record out of [user_list]. *)
Fixpoint unlink (filp : apm_handle) (users : list apm_user) : list apm_user :=
  match users with
  | [] => []
  | a :: rest =>
      if bool_decide (as_self a = filp) then rest else a :: unlink filp rest
  end.

Definition do_release (filp : apm_handle) (st : apm_state) : Z * apm_state :=
  match lookup_user filp st with
  | None => (0, printk MsgBadFilp st)
  | Some a =>
      let st :=
        if bool_decide (0 < as_standbys_pending a) then
          let st := set_pending (suspends_pending st)
                      (standbys_pending st - as_standbys_pending a) st in
          if bool_decide (standbys_pending st ≤ 0) then standby st else st
        else st in
      let st :=
        if bool_decide (0 < as_suspends_pending a) then
          let st := set_pending (suspends_pending st - as_suspends_pending a)
                      (standbys_pending st) st in
          if bool_decide (suspends_pending st ≤ 0) then (suspend true st).2 else st
        else st in
      (0, set_user_list (unlink filp (user_list st)) st)
  end.

End apm_c.


(** ** Runs of the two interfaces *)

(** What the callers of pm.c do to the registry. *)
Inductive pm_op :=
| OpRegister (kmalloc_ok : bool) (ty i : Z) (cb : option pm_callback)
| OpUnregister (dev : option pm_handle)
| OpUnregisterAll (cb : option pm_callback).

(** One operation; the second component collects the handles
    [pm_register] returned, oldest first (the order of arrival). *)
Definition pm_step (s : pm_state * list pm_handle) (op : pm_op)
    : pm_state * list pm_handle :=
  match op with
  | OpRegister ok ty i cb =>
      let '(r, st) := pm_register ok ty i cb s.1 in
      (st, s.2 ++ option_list r)
  | OpUnregister dev => (pm_unregister dev s.1, s.2)
  | OpUnregisterAll cb => (pm_unregister_all cb s.1, s.2)
  end.

Definition pm_run (ops : list pm_op) : pm_state * list pm_handle :=
  foldl pm_step (pm_init, []) ops.

(** The order [pm_send_all] walks the registry in. *)
Definition iteration_order (st : pm_state) : list pm_handle :=
  entry <$> pm_devs st.

(** The device [d] is still registered after the operations [ops]: one
    of them registered it, and none of the later ones is a
    [pm_unregister] of this device or a [pm_unregister_all] of its
    callback. *)
Definition still_registered (ops : list pm_op) (d : pm_dev) : Prop :=
  ∃ ops1 ty i cb ops2,
    ops = ops1 ++ OpRegister true ty i cb :: ops2 ∧
    d = Build_pm_dev (pm_brk (pm_run ops1).1) ty i cb 0 0 ∧
    (OpUnregister (Some (entry d)) ∉ ops2) ∧
    (∀ f, cb = Some f → OpUnregisterAll (Some f) ∉ ops2).

(** The callback invocations of a trace. *)
Definition callbacks (tr : trace) : list (pm_handle * pm_request_t * Z) :=
  omap (fun e => match e with
                 | EvCallback d r x => Some (d, r, x)
                 | _ => None
                 end) tr.

(** The BIOS calls of a trace. *)
Definition bios_calls (tr : trace) : list apm_power_state :=
  omap (fun e => match e with
                 | EvSetPowerState s => Some s
                 | _ => None
                 end) tr.

(** What the users of /dev/apm_bios, the BIOS and the drivers do to the
    APM state. *)
Inductive apm_op :=
| OpOpen (kmalloc_ok capable fmode_read fmode_write : bool)
| OpRelease (filp : apm_handle)
| OpRead (filp : apm_handle) (buf : user_buf) (count : Z) (nonblock : bool)
| OpIoctl (filp : apm_handle) (cmd : ioctl_cmd)
| OpCheckEvents (reported : list (Z * apm_event_t))
| OpQueueEvent (event : apm_event_t) (sender : option apm_handle)
| OpDevices (ds : list pm_dev).

Section runs.
Variable W : World.

Definition apm_step (st : apm_state) (op : apm_op) : apm_state :=
  match op with
  | OpOpen ok cap r w => (do_open ok cap r w st).2
  | OpRelease filp => (do_release W filp st).2
  | OpRead filp buf count nonblock => (do_read filp buf count nonblock st).2
  | OpIoctl filp cmd => (do_ioctl W filp cmd st).2
  | OpCheckEvents reported => check_events W reported st
  | OpQueueEvent event sender => queue_event event sender st
  | OpDevices ds => set_pm ds (log st) st
  end.

Definition apm_run (ops : list apm_op) (st : apm_state) : apm_state :=
  foldl apm_step st ops.

End runs.

(** The state apm.c starts from: no client, counters and flags zero; the
    device list, [bounce_interval] and the connection version are what
    the boot left. *)
Definition apm_boot (ds : list pm_dev) (bounce version : Z) : apm_state :=
  Build_apm_state ds [] 0%nat 0 0 false false bounce 0 false 0 version [].

(** ** The event queue, read as a list *)

(** The indices are within the ring. *)
Definition queue_wf (a : apm_user) : Prop :=
  0 ≤ as_event_head a < APM_MAX_EVENTS ∧
  0 ≤ as_event_tail a < APM_MAX_EVENTS ∧
  length (as_events a) = Z.to_nat APM_MAX_EVENTS.

(** How many events wait between [event_tail] and [event_head]. *)
Definition queue_occupied (a : apm_user) : Z :=
  (as_event_head a - as_event_tail a) `mod` APM_MAX_EVENTS.

(** The waiting events, oldest first: the slots after [event_tail] up to
    [event_head]. *)
Definition queue_contents (a : apm_user) : list apm_event_t :=
  (fun k => event_at ((as_event_tail a + k) `mod` APM_MAX_EVENTS) a)
    <$> seqZ 1 (queue_occupied a).

Definition is_suspend_event (e : apm_event_t) : bool :=
  match e with
  | APM_SYS_SUSPEND | APM_USER_SUSPEND => true
  | _ => false
  end.

Definition is_standby_event (e : apm_event_t) : bool :=
  match e with
  | APM_SYS_STANDBY | APM_USER_STANDBY => true
  | _ => false
  end.


(** A client [do_ioctl] serves: opened by a privileged user, for writing. *)
Definition privileged_writer (a : apm_user) : bool :=
  as_suser a && as_writer a.

(** Sums over the clients. *)
Definition sum_suspends_pending (us : list apm_user) : Z :=
  foldr (fun a n => as_suspends_pending a + n) 0 us.

Definition sum_standbys_pending (us : list apm_user) : Z :=
  foldr (fun a n => as_standbys_pending a + n) 0 us.

(** ** Sample worlds and devices *)

(** Callback 0 accepts every request, callback 1 rejects every request,
    callback 2 accepts [PM_SUSPEND] only; the BIOS always succeeds. *)
Definition sample_world : World :=
  Build_World
    (fun f _ _ rqst _ =>
       match f, rqst with
       | O, _ => 0
       | S O, _ => -16
       | _, PM_SUSPEND => 0
       | _, _ => -16
       end)
    (fun _ _ => (false, 0))
    false.

Definition sample_dev (e : pm_handle) (cb : option pm_callback) (s : Z) : pm_dev :=
  Build_pm_dev e 0 0 cb s s.

(** ** What a broadcast does to one device *)

(** A device after a [PM_SUSPEND] or [PM_RESUME] request for [data] that it
    did not refuse: untouched when it has no callback, else in state
    [data] with its old state saved. *)
Definition sent (data : Z) (p q : pm_dev) : Prop :=
  entry q = entry p ∧ callback q = callback p ∧
  (callback p = None → q = p) ∧
  (callback p ≠ None → state q = data ∧ prev_state q = state p).

(** The device [p] after a [PM_SUSPEND] for [data] that it did not
    refuse. *)
Definition suspended (data : Z) (p : pm_dev) : pm_dev :=
  match callback p with
  | Some _ => set_prev_state (state p) (set_state data p)
  | None => p
  end.

(** A broadcast of [PM_SUSPEND] for [data] calls the device: it has a
    callback and is not in state [data]. *)
Definition called (data : Z) (p : pm_dev) : Prop :=
  callback p ≠ None ∧ state p ≠ data.

#[global] Instance called_dec data p : Decision (called data p).
Proof. unfold called. apply _. Defined.

(** The request that takes a device back to state [s]. *)
Definition undo_request (s : Z) : pm_request_t :=
  if decide (s ≠ 0) then PM_SUSPEND else PM_RESUME.

(** The callback invocations of a broadcast of [PM_SUSPEND] for [data]
    that got through the devices [l], as they stand in the trace: the
    call of the last device of [l] is the newest. *)
Definition suspend_calls (data : Z) (l : list pm_dev) : list effect :=
  reverse ((fun p => EvCallback (entry p) PM_SUSPEND data) <$> filter (called data) l).

(** The callback invocations of the rollback over the devices [l], given
    as they were before the broadcast: every device the broadcast called
    is sent the request for the state it was in.  The walk goes backward,
    so the call of the first device of [l] is the newest. *)
Definition undo_calls (data : Z) (l : list pm_dev) : list effect :=
  (fun p => EvCallback (entry p) (undo_request (state p)) (state p))
    <$> filter (called data) l.

(** Every device of [l] the broadcast calls accepts, each at the trace
    of its turn. *)
Definition all_accept (W : World) (data : Z) (tr : trace) (l : list pm_dev) : Prop :=
  forall pre1 p pre2 g,
    l = pre1 ++ p :: pre2 -> callback p = Some g -> state p <> data ->
    call_callback W g (suspend_calls data pre1 ++ tr) p PM_SUSPEND data = 0.

(** One device after the rollback; [p] is the device before the
    broadcast, [tr_p] the trace when its turn comes.  A device the
    broadcast called is back in its old state when its callback accepts
    the request for that state, and stays in state [data] when it
    refuses.  A device without a callback, which the broadcast passed
    over, is switched to its [prev_state] if that differs from its
    state. *)
Definition rolled_back_dev (W : World) (data : Z) (tr_p : trace) (p : pm_dev)
    : pm_dev :=
  match callback p with
  | Some g =>
      if decide (state p ≠ data) then
        if decide (call_callback W g tr_p (suspended data p)
                     (undo_request (state p)) (state p) = 0)
        then set_prev_state data p
        else suspended data p
      else suspended data p
  | None =>
      if decide (state p ≠ prev_state p)
      then set_prev_state (state p) (set_state (prev_state p) p)
      else p
  end.

(** The devices [pre] that stood before the vetoing one, after the
    rollback; [tr1] is the trace when the rollback starts.  The devices
    behind a device have had their turn before it. *)
Fixpoint rolled_back (W : World) (data : Z) (tr1 : trace) (pre : list pm_dev)
    : list pm_dev :=
  match pre with
  | [] => []
  | p :: rest =>
      rolled_back_dev W data (undo_calls data rest ++ tr1) p
        :: rolled_back W data tr1 rest
  end.

(** What [pm_undo_all] does to one device ([p] before, [q] after). *)
Definition undone (W : World) (p q : pm_dev) : Prop :=
  entry q = entry p ∧ callback q = callback p ∧
  (state p = prev_state p → q = p) ∧
  (state q = prev_state p ∨ q = p) ∧
  ((∀ f tr d, callback p = Some f →
      call_callback W f tr d
        (if decide (prev_state p ≠ 0) then PM_SUSPEND else PM_RESUME)
        (prev_state p) = 0) →
   state q = prev_state p).

(** ** What [queue_event] does to one client *)

(** The client gets the event: it reads the device and is not the
    sender. *)
Definition receives (sender : option apm_handle) (a : apm_user) : bool :=
  negb (bool_decide (sender = Some (as_self a))) && as_reader a.

(** By how much a pending counter of kind [k] grows for client [a] when
    [e] is queued to it. *)
Definition pending_delta (k : apm_event_t → bool) (e : apm_event_t)
    (a : apm_user) : Z :=
  if privileged_writer a && k e then 1 else 0.

(** The queue holds as many events as the ring can tell apart. *)
Definition queue_full (a : apm_user) : bool :=
  bool_decide (queue_occupied a = APM_MAX_EVENTS - 1).

(** Nothing but the queue and the pending counters differs. *)
Definition same_user (a a' : apm_user) : Prop :=
  as_self a' = as_self a ∧ as_suser a' = as_suser a ∧
  as_writer a' = as_writer a ∧ as_reader a' = as_reader a ∧
  as_suspend_wait a' = as_suspend_wait a ∧
  as_suspend_result a' = as_suspend_result a ∧
  as_suspends_read a' = as_suspends_read a ∧
  as_standbys_read a' = as_standbys_read a.

(** Client [a] after [event] was queued to it. *)
Definition delivered (event : apm_event_t) (a a' : apm_user) : Prop :=
  queue_wf a' ∧
  queue_contents a'
    = (if queue_full a then drop 1 (queue_contents a) else queue_contents a)
      ++ [event] ∧
  as_suspends_pending a'
    = as_suspends_pending a + pending_delta is_suspend_event event a ∧
  as_standbys_pending a'
    = as_standbys_pending a + pending_delta is_standby_event event a ∧
  same_user a a'.

(** What [queue_event] adds to a global pending counter of kind [k]. *)
Definition receivers_delta (k : apm_event_t → bool) (e : apm_event_t)
    (sender : option apm_handle) (us : list apm_user) : Z :=
  foldr (fun a n => (if receives sender a then pending_delta k e a else 0) + n) 0 us.

(** How many queues overflow when an event is queued. *)
Definition overflows (sender : option apm_handle) (us : list apm_user) : Z :=
  foldr (fun a n => (if receives sender a && queue_full a then 1 else 0) + n) 0 us.

(** Nothing but the clients, the pending counters, [notified] and the
    trace differs. *)
Definition same_machine (st st' : apm_state) : Prop :=
  devs st' = devs st ∧ brk st' = brk st ∧
  waiting_for_resume st' = waiting_for_resume st ∧
  ignore_normal_resume st' = ignore_normal_resume st ∧
  bounce_interval st' = bounce_interval st ∧
  last_resume st' = last_resume st ∧
  ignore_bounce st' = ignore_bounce st ∧
  connection_version st' = connection_version st.

(** What [queue_event] makes of the clients [users] and of the rest of
    the state. *)
Definition queued (event : apm_event_t) (sender : option apm_handle)
    (users : list apm_user) (st : apm_state) (users' : list apm_user)
    (st' : apm_state) : Prop :=
  Forall2 (fun a a' => if receives sender a then delivered event a a' else a' = a)
    users users' ∧
  suspends_pending st'
    = suspends_pending st + receivers_delta is_suspend_event event sender users ∧
  standbys_pending st'
    = standbys_pending st + receivers_delta is_standby_event event sender users ∧
  notified st' = notified st + overflows sender users ∧
  (∃ msgs, log st' = msgs ++ log st ∧ callbacks msgs = [] ∧ bios_calls msgs = []) ∧
  same_machine st st'.

(** How many events of kind [k] a list holds. *)
Definition count_kind (k : apm_event_t → bool) (l : list apm_event_t) : Z :=
  foldr (fun e n => (if k e then 1 else 0) + n) 0 l.

(** The newest [n] elements of a list that grows at its end. *)
Definition newest {A} (n : nat) (l : list A) : list A :=
  drop (length l - n) l.

(** Queueing the events of a list one after the other, no sender. *)
Definition queue_events (l : list apm_event_t) (st : apm_state) : apm_state :=
  foldl (fun s e => queue_event e None s) st l.

(** ** The invariant of the pending counters *)

(** A client's own books: the ring is sound, nothing pending is negative,
    and for a client [do_ioctl] serves every suspend (standby) event it
    has read and not yet answered, or has still waiting in its queue, is
    counted in its pending counter. *)
Definition user_ok (a : apm_user) : Prop :=
  queue_wf a ∧ 0 ≤ as_suspends_pending a ∧ 0 ≤ as_standbys_pending a ∧
  (privileged_writer a = true →
     0 ≤ as_suspends_read a ∧
     as_suspends_read a + count_kind is_suspend_event (queue_contents a)
       ≤ as_suspends_pending a ∧
     0 ≤ as_standbys_read a ∧
     as_standbys_read a + count_kind is_standby_event (queue_contents a)
       ≤ as_standbys_pending a).

(** The global counters are the sums of the clients' counters; the
    clients have distinct addresses, all handed out already. *)
Definition apm_inv (st : apm_state) : Prop :=
  suspends_pending st = sum_suspends_pending (user_list st) ∧
  standbys_pending st = sum_standbys_pending (user_list st) ∧
  NoDup (as_self <$> user_list st) ∧
  (∀ a, a ∈ user_list st → (as_self a < brk st)%nat) ∧
  Forall user_ok (user_list st).

(** The clients and the counters are the same in both states. *)
Definition same_clients (st st' : apm_state) : Prop :=
  user_list st' = user_list st ∧ brk st' = brk st ∧
  suspends_pending st' = suspends_pending st ∧
  standbys_pending st' = standbys_pending st.

(** The same invariant with the global counters short of the sums by
    [ds] and [dy]: what holds inside [do_release], between the
    subtraction of the leaving client's counters and its unlinking. *)
Definition books (ds dy : Z) (st : apm_state) : Prop :=
  suspends_pending st + ds = sum_suspends_pending (user_list st) ∧
  standbys_pending st + dy = sum_standbys_pending (user_list st) ∧
  NoDup (as_self <$> user_list st) ∧
  (∀ a, a ∈ user_list st → (as_self a < brk st)%nat) ∧
  Forall user_ok (user_list st).

(** From [st] to [st'] no pending counter moved, globally or in any
    client, and no client came or went. *)
Definition quiet (st st' : apm_state) : Prop :=
  suspends_pending st' = suspends_pending st ∧
  standbys_pending st' = standbys_pending st ∧
  brk st' = brk st ∧
  Forall2 (fun a a' =>
             as_self a' = as_self a ∧
             as_suspends_pending a' = as_suspends_pending a ∧
             as_standbys_pending a' = as_standbys_pending a ∧
             (queue_wf a → queue_wf a') ∧ (user_ok a → user_ok a'))
    (user_list st) (user_list st').

(** ** What a broadcast leaves behind *)

(** The device list before ([ds]) and after ([ds']) [pm_send_all] of
    [PM_SUSPEND] or [PM_RESUME] for [data], rollback apart: when nobody
    refused, every device was sent the request; when one did, the devices
    before it were sent the request and the ones after it were not
    asked. *)
Definition broadcast_outcome (data status : Z) (ds ds' : list pm_dev) : Prop :=
  (status = 0 → Forall2 (sent data) ds ds') ∧
  (status ≠ 0 →
     ∃ pre d post pre',
       ds = pre ++ d :: post ∧ ds' = pre' ++ d :: post ∧
       Forall2 (sent data) pre pre' ∧ callback d ≠ None ∧ state d ≠ data).

(** The trace [tr'] is [tr] with messages put in front: no callback and
    no BIOS call in between. *)
Definition only_messages (tr tr' : trace) : Prop :=
  ∃ msgs, tr' = msgs ++ tr ∧ callbacks msgs = [] ∧ bios_calls msgs = [].

(** Client [a] before and [a'] after [event] was queued without sender:
    readers have it as their newest event, the others have no event
    more. *)
Definition notified_of (event : apm_event_t) (a a' : apm_user) : Prop :=
  queue_contents a'
  = if as_reader a
    then (if queue_full a then drop 1 (queue_contents a) else queue_contents a)
         ++ [event]
    else queue_contents a.

(** [tr'] is [tr] with callback invocations put in front. *)
Definition only_callbacks (tr tr' : trace) : Prop :=
  tr `suffix_of` tr' ∧ bios_calls tr' = bios_calls tr.

(** Twenty-one events of the kind [check_events] queues and does nothing
    else with. *)
Definition sample_events : list apm_event_t :=
  APM_LOW_BATTERY :: APM_CAPABILITY_CHANGE :: replicate 19 APM_POWER_STATUS_CHANGE.

(** A machine with two devices that accept everything, APM 1.2, and the
    default bounce interval of three seconds. *)
Definition sample_boot : apm_state :=
  apm_boot [sample_dev 0 (Some 0%nat) 0; sample_dev 1 (Some 0%nat) 0] 300 258.

(** A privileged client has opened the device for reading and writing,
    the BIOS has reported [APM_SYS_SUSPEND], and the client has read it. *)
Definition sample_reader_state : apm_state :=
  apm_run sample_world
    [OpOpen true true true true;
     OpCheckEvents [(0, APM_SYS_SUSPEND)];
     OpRead 0 valid_buf 2 true]
    sample_boot.

#[global] Instance queue_wf_dec (a : apm_user) : Decision (queue_wf a).
Proof. unfold queue_wf. apply _. Defined.

(** The registry holds the handles that arrived and are still there,
    newest first; the handles are fresh. *)
Definition pm_inv (s : pm_state * list pm_handle) : Prop :=
  NoDup s.2 /\
  (forall h, h ∈ s.2 -> (h < pm_brk s.1)%nat) /\
  iteration_order s.1
    = reverse (filter (fun h => h ∈ iteration_order s.1) s.2).

(** Arithmetic of ring-buffer indices. *)
Ltac zlia := unfold APM_MAX_EVENTS in *; Z.to_euclidean_division_equations; lia.

(** ** More of kernel/pm.c *)

(** [PM_UNKNOWN_DEV] (linux/pm.h): the type [pm_find] takes for any
    device. *)
Definition PM_UNKNOWN_DEV : Z := 0.

(** The entries behind the one at address [e] ([from->entry.next] and
    on). *)
Fixpoint entries_after (e : pm_handle) (l : list pm_dev) : list pm_dev :=
  match l with
  | [] => []
  | d :: rest => if bool_decide (entry d = e) then rest else entries_after e rest
  end.

(** The [while] loop of [pm_find]. *)
Fixpoint pm_find_from (ty : Z) (l : list pm_dev) : option pm_dev :=
  match l with
  | [] => None
  | dev :: rest =>
      if bool_decide (ty = PM_UNKNOWN_DEV) || bool_decide (type dev = ty)
      then Some dev else pm_find_from ty rest
  end.

(** [pm_find(type, from)]: [from = None] is the NULL pointer, and so is
    the result [None]; [from] is otherwise a device of the list. *)
Definition pm_find (ty : Z) (from : option pm_handle) (st : pm_state)
    : option pm_dev :=
  pm_find_from ty
    (match from with
     | Some e => entries_after e (pm_devs st)
     | None => pm_devs st
     end).

(** The loop the callers of [pm_find] run: [pm_find(type, NULL)], then
    [pm_find(type, dev)] with the device found last, until NULL comes
    back; [fuel] bounds the number of calls. *)
Fixpoint pm_find_all (fuel : nat) (ty : Z) (from : option pm_handle)
    (st : pm_state) : list pm_dev :=
  match fuel with
  | O => []
  | S n =>
      match pm_find ty from st with
      | None => []
      | Some d => d :: pm_find_all n ty (Some (entry d)) st
      end
  end.

Section pm_c_mizi.
Variable W : World.

(** The loop that [pm_send_all_tweak], [pm_send_all_type] and
    [pm_send_all_target] (CONFIG_MIZI) have in common: the loop of
    [pm_send_all], with [continue] for the devices [skip] holds of.
    [pm_undo_all] walks back over every entry passed, skipped or not. *)
Fixpoint pm_send_all_where (skip : pm_dev -> bool) (rqst : pm_request_t)
    (data : Z) (before todo : list pm_dev) (tr : trace)
    : Z * list pm_dev * trace :=
  match todo with
  | [] => (0, reverse before, tr)
  | dev :: rest =>
      if skip dev then pm_send_all_where skip rqst data (dev :: before) rest tr
      else
        match callback dev with
        | Some _ =>
            let '(status, dev', tr') := pm_send W dev rqst data tr in
            if decide (status ≠ 0) then
              let '(before', tr'') :=
                if decide (rqst = PM_SUSPEND) then pm_undo_all W before tr'
                else (before, tr') in
              (status, reverse before' ++ dev' :: rest, tr'')
            else pm_send_all_where skip rqst data (dev' :: before) rest tr'
        | None => pm_send_all_where skip rqst data (dev :: before) rest tr
        end
  end.

Definition pm_send_all_tweak (rqst : pm_request_t) (data : Z) (ty : Z)
    (devs : list pm_dev) (tr : trace) : Z * list pm_dev * trace :=
  pm_send_all_where (fun dev => bool_decide (type dev ≠ ty)) rqst data [] devs tr.

Definition pm_send_all_type (ty : Z) (rqst : pm_request_t) (data : Z)
    (devs : list pm_dev) (tr : trace) : Z * list pm_dev * trace :=
  pm_send_all_where (fun dev => bool_decide (type dev ≠ ty)) rqst data [] devs tr.

(** [pm_send_all_target]: [dev->id] is an [unsigned long] and the
    argument [id] an [int], which the comparison converts to [unsigned
    long]. *)
Definition pm_send_all_target (ty : Z) (i : Z) (rqst : pm_request_t) (data : Z)
    (devs : list pm_dev) (tr : trace) : Z * list pm_dev * trace :=
  pm_send_all_where
    (fun dev => bool_decide (type dev ≠ ty) || bool_decide (ulong (id dev) ≠ ulong i))
    rqst data [] devs tr.

End pm_c_mizi.

(** [pm_find] takes the device: any type is asked for, or its own. *)
Definition pm_find_takes (ty : Z) (d : pm_dev) : bool :=
  bool_decide (ty = PM_UNKNOWN_DEV) || bool_decide (type d = ty).

(** [pm_send] on [d] reaches the callback: there is one, and the request
    is not a [PM_SUSPEND] or [PM_RESUME] for the state [d] is in. *)
Definition asked (rqst : pm_request_t) (data : Z) (d : pm_dev) : bool :=
  bool_decide (callback d ≠ None) &&
  match rqst with
  | PM_SUSPEND | PM_RESUME => bool_decide (state d ≠ data)
  | PM_REQUEST _ => true
  end.

(** The effect is a callback invocation on a device of [ds] that has a
    callback. *)
Definition calls_one_of (ds : list pm_dev) (e : effect) : Prop :=
  ∃ d rqst data, e = EvCallback (entry d) rqst data ∧ d ∈ ds ∧ callback d ≠ None.

(** What [pm_send] and [pm_undo_all] never change of a device. *)
Definition pm_ident (d : pm_dev) : pm_handle * option pm_callback :=
  (entry d, callback d).


(** Three devices of type 1 around one of type 2 whose callback refuses
    everything; the second device has no callback, the third is in state 3
    already. *)
Definition sample_typed_devs : list pm_dev :=
  [Build_pm_dev 0 1 0 (Some 0%nat) 0 0;
   Build_pm_dev 1 1 1 None 0 0;
   Build_pm_dev 2 2 0 (Some 1%nat) 0 0;
   Build_pm_dev 3 1 2 (Some 0%nat) 3 3;
   Build_pm_dev 4 1 3 (Some 0%nat) 0 0].

(** ** More of arch/i386/kernel/apm.c *)

(** [POLLIN] and [POLLRDNORM] (asm-i386/poll.h). *)
Definition POLLIN : Z := 1.
Definition POLLRDNORM : Z := 64.

(** [do_poll]; the registration on [apm_waitqueue] ([poll_wait]) is left
    out. *)
Definition do_poll (filp : apm_handle) (st : apm_state) : Z * apm_state :=
  match lookup_user filp st with
  | None => (0, printk MsgBadFilp st)
  | Some a =>
      if negb (queue_empty a) then (Z.lor POLLIN POLLRDNORM, st) else (0, st)
  end.

(** The sample client has opened the device and the BIOS has reported
    [APM_SYS_SUSPEND]; the client has not read it yet. *)
Definition sample_queued_state : apm_state :=
  apm_run sample_world
    [OpOpen true true true true; OpCheckEvents [(0, APM_SYS_SUSPEND)]]
    sample_boot.

(** *** BIOS calls other than "set power state" of all devices *)

(** The APM functions apm.c calls (the [APM_FUNC_] codes of
    linux/apm_bios.h). *)
Inductive apm_func :=
| APM_FUNC_SET_STATE
| APM_FUNC_ENABLE_PM
| APM_FUNC_GET_STATUS
| APM_FUNC_GET_EVENT
| APM_FUNC_VERSION
| APM_FUNC_ENGAGE_PM.

(** What [apm_bios_call] and [apm_bios_call_simple] give back: the carry
    flag (the value they return is non-zero exactly when it is set) and
    the registers, 32-bit values. *)
Record apm_regs := Build_apm_regs {
  reg_error : bool;
  reg_eax : Z;
  reg_ebx : Z;
  reg_ecx : Z;
  reg_edx : Z
}.

(** The BIOS, asked for a function with [ebx] and [ecx]. *)
Definition apm_bios := apm_func -> Z -> Z -> apm_regs.

(** [(eax >> 8) & 0xff], the error code in AH. *)
Definition error_code (eax : Z) : Z := Z.land (Z.shiftr eax 8) 255.

(** Storing into an [unsigned short]. *)
Definition u_short (x : Z) : Z := Z.land x 65535.

(** Constants of linux/apm_bios.h.  The two flag bits are bits 3 and 4,
    as the comment in [apm_get_info] lists them. *)
Definition APM_DEVICE_ALL : Z := 1.
Definition APM_DEVICE_OLD_ALL : Z := 65535.
Definition APM_BIOS_DISABLED : Z := 8.
Definition APM_BIOS_DISENGAGED : Z := 16.
Definition APM_DISABLED : Z := 1.
Definition APM_32_UNSUPPORTED : Z := 8.
Definition APM_NOT_ENGAGED : Z := 11.
Definition APM_NO_EVENTS : Z := 128.

(** The fields of [apm_info] that the functions below read and write. *)
Record apm_info_t := Build_apm_info_t {
  bios_version : Z;
  bios_flags : Z;
  info_connection_version : Z;
  get_power_status_broken : bool;
  get_power_status_swabinminutes : bool
}.

Definition set_bios_flags (flags : Z) (info : apm_info_t) : apm_info_t :=
  Build_apm_info_t (bios_version info) flags (info_connection_version info)
    (get_power_status_broken info) (get_power_status_swabinminutes info).

Definition set_info_connection_version (v : Z) (info : apm_info_t) : apm_info_t :=
  Build_apm_info_t (bios_version info) (bios_flags info) v
    (get_power_status_broken info) (get_power_status_swabinminutes info).

(** The places [apm_error] is called from, for its first argument. *)
Inductive apm_error_at :=
| AtDriverVersion        (* "driver version" *)
| AtEnablePM             (* "enable power management" *)
| AtEngagePM             (* "engage power management" *)
| AtDisengagePM          (* "disengage power management" *)
| AtBusy                 (* "busy" *)
| AtGetEvent             (* "get_event" *)
| AtSetDisplay.          (* "set display" *)

(** One call of [apm_error(str, err)]. *)
Definition apm_error_call : Type := apm_error_at * Z.

Section apm_bios_calls.
Variable bios : apm_bios.

(** [apm_driver_version(&val)]: the error code, and [val] afterwards. *)
Definition apm_driver_version (val : Z) : Z * Z :=
  let r := bios APM_FUNC_VERSION 0 val in
  if reg_error r then (error_code (reg_eax r), val)
  else (APM_SUCCESS, u_short (reg_eax r)).

(** [APM_DEVICE_BALL] (linux/apm_bios.h). *)
Definition APM_DEVICE_BALL (info : apm_info_t) : Z :=
  if bool_decide (256 < info_connection_version info)
  then APM_DEVICE_ALL else APM_DEVICE_OLD_ALL.

(** [apm_enable_power_management(enable)] (CONFIG_APM_DO_ENABLE). *)
Definition apm_enable_power_management (enable : Z) (info : apm_info_t)
    : Z * apm_info_t :=
  if bool_decide (enable = 0)
     && bool_decide (Z.land (bios_flags info) APM_BIOS_DISENGAGED ≠ 0)
  then (APM_NOT_ENGAGED, info)
  else
    let r := bios APM_FUNC_ENABLE_PM (APM_DEVICE_BALL info) enable in
    if reg_error r then (error_code (reg_eax r), info)
    else
      (APM_SUCCESS,
       set_bios_flags
         (if bool_decide (enable ≠ 0)
          then Z.land (bios_flags info) (Z.lnot APM_BIOS_DISABLED)
          else Z.lor (bios_flags info) APM_BIOS_DISABLED) info).

(** [apm_engage_power_management(device, enable)]. *)
Definition apm_engage_power_management (device : Z) (enable : Z)
    (info : apm_info_t) : Z * apm_info_t :=
  if bool_decide (enable = 0) && bool_decide (device = APM_DEVICE_ALL)
     && bool_decide (Z.land (bios_flags info) APM_BIOS_DISABLED ≠ 0)
  then (APM_DISABLED, info)
  else
    let r := bios APM_FUNC_ENGAGE_PM device enable in
    if reg_error r then (error_code (reg_eax r), info)
    else
      (APM_SUCCESS,
       if bool_decide (device = APM_DEVICE_ALL) then
         set_bios_flags
           (if bool_decide (enable ≠ 0)
            then Z.land (bios_flags info) (Z.lnot APM_BIOS_DISENGAGED)
            else Z.lor (bios_flags info) APM_BIOS_DISENGAGED) info
       else info).

(** The start of [apm], the kernel thread, up to the installation of the
    power-off handler: the connection version is settled, and power
    management is enabled ([do_enable] is CONFIG_APM_DO_ENABLE) and
    engaged.  The result is [None] where [apm] returns -1; the second
    component lists the calls of [apm_error], oldest first.  The messages
    printed under [debug] are left out. *)
Definition apm_connect (do_enable : bool) (info : apm_info_t)
    : option apm_info_t * list apm_error_call :=
  let '(info, errs) :=
    if bool_decide (info_connection_version info = 0) then
      let info := set_info_connection_version (bios_version info) info in
      if bool_decide (256 < info_connection_version info) then
        let info :=
          if bool_decide (258 < info_connection_version info)
          then set_info_connection_version 258 info else info in
        let '(error, val) := apm_driver_version (info_connection_version info) in
        let info := set_info_connection_version val info in
        if bool_decide (error ≠ APM_SUCCESS)
        then (set_info_connection_version 256 info, [(AtDriverVersion, error)])
        else (info, [])
      else (info, [])
    else (info, []) in
  let enabled :=
    if do_enable && bool_decide (Z.land (bios_flags info) APM_BIOS_DISABLED ≠ 0) then
      let '(error, info') := apm_enable_power_management 1 info in
      if bool_decide (error ≠ 0) then inr (errs ++ [(AtEnablePM, error)])
      else inl info'
    else inl info in
  match enabled with
  | inr errs => (None, errs)
  | inl info =>
      if bool_decide (Z.land (bios_flags info) APM_BIOS_DISENGAGED ≠ 0)
         && bool_decide (256 < info_connection_version info) then
        let '(error, info') := apm_engage_power_management APM_DEVICE_ALL 1 info in
        if bool_decide (error ≠ 0) then (None, errs ++ [(AtEngagePM, error)])
        else (Some info', errs)
      else (Some info, errs)
  end.

(** The BIOS part of [apm_exit]: power management is disengaged again. *)
Definition apm_exit (info : apm_info_t) : apm_info_t * list apm_error_call :=
  if bool_decide (Z.land (bios_flags info) APM_BIOS_DISENGAGED = 0)
     && bool_decide (256 < info_connection_version info) then
    let '(error, info') := apm_engage_power_management APM_DEVICE_ALL 0 info in
    (info', if bool_decide (error ≠ 0) then [(AtDisengagePM, error)] else [])
  else (info, []).

(** [swab16] (linux/byteorder/swab.h) on a 16-bit value. *)
Definition swab16 (x : Z) : Z :=
  Z.lor (Z.shiftl (Z.land x 255) 8) (Z.land (Z.shiftr x 8) 255).

(** [apm_get_power_status(&status, &bat, &life)]: the error code, and
    the three values when they are written. *)
Definition apm_get_power_status (info : apm_info_t) : Z * option (Z * Z * Z) :=
  if get_power_status_broken info then (APM_32_UNSUPPORTED, None)
  else
    let r := bios APM_FUNC_GET_STATUS APM_DEVICE_ALL 0 in
    if reg_error r then (error_code (reg_eax r), None)
    else
      let life :=
        if get_power_status_swabinminutes info
        then Z.lor (swab16 (u_short (reg_edx r))) 32768
        else u_short (reg_edx r) in
      (APM_SUCCESS, Some (u_short (reg_ebx r), u_short (reg_ecx r), life)).

(** The unit [apm_get_info] prints the remaining time in. *)
Inductive time_unit := UnitUnknown | UnitMin | UnitSec.

(** What [apm_get_info] hands to [sprintf] after the driver version, the
    BIOS version and the flags. *)
Record apm_power_info := Build_apm_power_info {
  ac_line_status : Z;
  battery_status : Z;
  battery_flag : Z;
  percentage : Z;
  time_units : Z;
  units : time_unit
}.

(** [apm_get_info], up to the call of [sprintf].  [junk] is what the
    locals [bx], [cx] and [dx] (three [unsigned short]) hold when
    [apm_get_power_status] returns 0 without writing them: the BIOS has
    set the carry flag with error code 0. *)
Definition apm_get_info (smp_num_cpus : Z) (junk : Z * Z * Z) (info : apm_info_t)
    : apm_power_info :=
  let unknown := Build_apm_power_info 255 255 255 (-1) (-1) UnitUnknown in
  if bool_decide (smp_num_cpus = 1) then
    let '(error, written) := apm_get_power_status info in
    if bool_decide (error = 0) then
      let '(bx, cx, dx) :=
        default (u_short junk.1.1, u_short junk.1.2, u_short junk.2) written in
      let ac := Z.land (Z.shiftr bx 8) 255 in
      let bat := Z.land bx 255 in
      let pct := if bool_decide (Z.land cx 255 ≠ 255) then Z.land cx 255 else -1 in
      if bool_decide (256 < info_connection_version info) then
        let flag := Z.land (Z.shiftr cx 8) 255 in
        if bool_decide (dx ≠ 65535) then
          Build_apm_power_info ac bat flag pct (Z.land dx 32767)
            (if bool_decide (Z.land dx 32768 ≠ 0) then UnitMin else UnitSec)
        else Build_apm_power_info ac bat flag pct (-1) UnitUnknown
      else Build_apm_power_info ac bat 255 pct (-1) UnitUnknown
    else unknown
  else unknown.

(** [set_power_state(what, state)] for any device. *)
Definition set_power_state_of (what state : Z) : Z :=
  let r := bios APM_FUNC_SET_STATE what state in
  if reg_error r then error_code (reg_eax r) else APM_SUCCESS.

(** [apm_console_blank(blank)] (CONFIG_APM_DISPLAY_BLANK and CONFIG_VT):
    the value returned, the devices [set_power_state] was called for, in
    that order, and the call of [apm_error], if any.  The states are
    [APM_STATE_STANDBY] = 1 and [APM_STATE_READY] = 0. *)
Definition apm_console_blank (blank : Z)
    : Z * list Z * option apm_error_call :=
  let state := if bool_decide (blank ≠ 0) then 1 else 0 in
  let ok e := bool_decide (e = APM_SUCCESS) || bool_decide (e = APM_NO_ERROR) in
  let e1 := set_power_state_of 256 state in
  let '(error, tried) :=
    if negb (ok e1) then
      let e2 := set_power_state_of 511 state in
      if negb (ok e2) then (set_power_state_of 257 state, [256; 511; 257])
      else (e2, [256; 511])
    else (e1, [256]) in
  if ok error then (1, tried, None)
  else (0, tried, Some (AtSetDisplay, error)).

End apm_bios_calls.

(** The BIOS gives an error code other than 0 whenever it sets the carry
    flag, as the APM specification has it. *)
Definition reports_errors (bios : apm_bios) : Prop :=
  ∀ func ebx ecx,
    reg_error (bios func ebx ecx) = true →
    error_code (reg_eax (bios func ebx ecx)) ≠ 0.

(** Nothing but the flags differs. *)
Definition same_but_flags (info info' : apm_info_t) : Prop :=
  bios_version info' = bios_version info ∧
  info_connection_version info' = info_connection_version info ∧
  get_power_status_broken info' = get_power_status_broken info ∧
  get_power_status_swabinminutes info' = get_power_status_swabinminutes info.

(** A BIOS that refuses the version call with "function not supported"
    and accepts every other call, and one that accepts every call and
    returns 0x0102 in [eax]. *)
Definition picky_bios : apm_bios :=
  fun func _ _ =>
    match func with
    | APM_FUNC_VERSION => Build_apm_regs true 3072 0 0 0
    | _ => Build_apm_regs false 0 0 0 0
    end.

Definition accepting_bios : apm_bios :=
  fun _ _ _ => Build_apm_regs false 258 0 0 0.

(** An APM 1.2 BIOS found disabled and disengaged, not yet connected. *)
Definition sample_info : apm_info_t :=
  Build_apm_info_t 258 27 0 false false.

(** *** The APM thread: polling the BIOS for events *)

(** The event codes of linux/apm_bios.h, 1 to 12 in the order of
    [apm_event_name]; every other code is an event apm.c has no name
    for. *)
Definition event_of_code (code : Z) : apm_event_t :=
  if bool_decide (code = 1) then APM_SYS_STANDBY
  else if bool_decide (code = 2) then APM_SYS_SUSPEND
  else if bool_decide (code = 3) then APM_NORMAL_RESUME
  else if bool_decide (code = 4) then APM_CRITICAL_RESUME
  else if bool_decide (code = 5) then APM_LOW_BATTERY
  else if bool_decide (code = 6) then APM_POWER_STATUS_CHANGE
  else if bool_decide (code = 7) then APM_UPDATE_TIME
  else if bool_decide (code = 8) then APM_CRITICAL_SUSPEND
  else if bool_decide (code = 9) then APM_USER_STANDBY
  else if bool_decide (code = 10) then APM_USER_SUSPEND
  else if bool_decide (code = 11) then APM_STANDBY_RESUME
  else if bool_decide (code = 12) then APM_CAPABILITY_CHANGE
  else APM_EVENT code.

(** [apm_get_event(&event, &info)] on the registers the BIOS call gave:
    the error code, and the event when it is written.  The event
    information is not used by the callers and is left out. *)
Definition apm_get_event (r : apm_regs) : Z * option Z :=
  if reg_error r then (error_code (reg_eax r), None)
  else (APM_SUCCESS, Some (u_short (reg_ebx r))).

(** [get_event]: the event it returns, its static [notified]
    afterwards, and the call of [apm_error], if any.  [junk] is what the
    variable [event] holds when [apm_get_event] returns [APM_SUCCESS]
    without writing it (carry set with error code 0). *)
Definition get_event (r : apm_regs) (junk : Z) (notified : Z)
    : Z * Z * option apm_error_call :=
  let '(error, event) := apm_get_event r in
  if bool_decide (error = APM_SUCCESS) then (default junk event, notified, None)
  else if bool_decide (error ≠ APM_NO_EVENTS) then
    (0, notified + 1,
     if bool_decide (notified = 0) then Some (AtGetEvent, error) else None)
  else (0, notified, None).

(** The state of the APM thread: the state of the device, the statics
    [pending_count] of [apm_event_handler] and [notified] of
    [get_event], and the calls of [apm_error] those two made, newest
    first. *)
Record kapmd_state := Build_kapmd_state {
  ks_apm : apm_state;
  ks_pending_count : Z;
  ks_notified : Z;
  ks_errors : list apm_error_call
}.

Section apm_thread.
Variable W : World.

(** [check_events] with [get_event] in it: [answers] are the registers
    the BIOS gives at the successive calls of [get_event], each with the
    clock at that moment.  The loop ends when [get_event] returns 0 or
    [check_events] returns from inside the loop; it has not ended when
    the list is used up. *)
Fixpoint check_events_polled (answers : list (Z * apm_regs)) (junk : Z)
    (ks : kapmd_state) : kapmd_state :=
  match answers with
  | [] => ks
  | (jiffies, r) :: rest =>
      let '(code, notified, err) := get_event r junk (ks_notified ks) in
      let ks := Build_kapmd_state (ks_apm ks) (ks_pending_count ks) notified
                  (option_list err ++ ks_errors ks) in
      if bool_decide (code = 0) then ks
      else
        let '(continue, st) := check_event W jiffies (event_of_code code) (ks_apm ks) in
        let ks := Build_kapmd_state st (ks_pending_count ks) (ks_notified ks)
                    (ks_errors ks) in
        if continue then check_events_polled rest junk ks else ks
  end.

(** [apm_event_handler]. *)
Definition apm_event_handler (answers : list (Z * apm_regs)) (junk : Z)
    (ks : kapmd_state) : kapmd_state :=
  let st := ks_apm ks in
  let '(st, count, errs) :=
    if bool_decide (0 < standbys_pending st) || bool_decide (0 < suspends_pending st)
    then
      if bool_decide (256 < connection_version st) then
        if bool_decide (ks_pending_count ks ≤ 0) then
          let '(err, st) := apm_set_power_state W APM_STATE_BUSY st in
          (st, 4,
           if bool_decide (err ≠ 0) then (AtBusy, err) :: ks_errors ks
           else ks_errors ks)
        else (st, ks_pending_count ks - 1, ks_errors ks)
      else (st, ks_pending_count ks, ks_errors ks)
    else (st, 4, ks_errors ks) in
  check_events_polled answers junk (Build_kapmd_state st count (ks_notified ks) errs).

(** [apm_mainloop]: one call of [apm_event_handler] for every round the
    thread wakes up in before [exit_kapmd] is set; [rounds] holds the
    answers of the BIOS in each round. *)
Definition apm_mainloop (rounds : list (list (Z * apm_regs))) (junk : Z)
    (ks : kapmd_state) : kapmd_state :=
  foldl (fun ks answers => apm_event_handler answers junk ks) ks rounds.

End apm_thread.

(** The thread as [apm] starts it. *)
Definition kapmd_boot (st : apm_state) : kapmd_state :=
  Build_kapmd_state st 4 0 [].

(** A call of [get_event] that gives an event to handle. *)
Definition gives_event (r : apm_regs) : Prop :=
  reg_error r = false ∧ u_short (reg_ebx r) ≠ 0.

(** A call of [get_event] that ends the loop: an error, or event 0. *)
Definition gives_nothing (r : apm_regs) : Prop :=
  (reg_error r = true ∧ error_code (reg_eax r) ≠ 0)
  ∨ (reg_error r = false ∧ u_short (reg_ebx r) = 0).

(** The answer "no events pending". *)
Definition no_events : apm_regs := Build_apm_regs true 32768 0 0 0.

(** The answer with event [code]. *)
Definition event_answer (code : Z) : apm_regs := Build_apm_regs false 0 code 0 0.

#[global] Instance apm_error_at_eq_dec : EqDecision apm_error_at.
Proof. solve_decision. Defined.

(** How often [get_event] has called [apm_error]. *)
Definition get_event_errors (errs : list apm_error_call) : nat :=
  length (filter (fun e => e.1 = AtGetEvent) errs).

(** A round in which the first answer of the BIOS is not an event. *)
Definition quiet_round (answers : list (Z * apm_regs)) : Prop :=
  ∃ jiffies r more, answers = (jiffies, r) :: more ∧ gives_nothing r.

(** The static counter [notified] of [get_event] counts the calls of
    [apm_error] it has made, up to one. *)
Definition get_event_books (ks : kapmd_state) : Prop :=
  0 <= ks_notified ks /\
  get_event_errors (ks_errors ks)
  = if bool_decide (ks_notified ks = 0) then 0%nat else 1%nat.

(** *** The overflow message *)

(** How often "apm: an event queue overflowed" is in a trace. *)
Definition overflow_messages (tr : list effect) : nat :=
  length (filter (fun e => e = EvPrintk MsgQueueOverflow) tr).

(** The static counter [notified] of [queue_event] against the trace:
    the message is there once, from the first overflow on. *)
Definition overflow_books (st : apm_state) : Prop :=
  0 <= notified st /\
  overflow_messages (log st)
  = if bool_decide (notified st = 0) then 0%nat else 1%nat.

(** * Properties *)

(** ** [pm_send] *)

Section pm_properties.
Variable W : World.

Lemma invoke_callbacks dev rqst data tr status tr' :
  invoke W dev rqst data tr = (status, tr') ->
  (length (callbacks tr') <= S (length (callbacks tr)))%nat /\
  (callback dev = None -> status = 0 /\ tr' = tr).
Proof.
  unfold invoke. destruct (callback dev); intros [= <- <-]; simpl; split; try lia; try done.
Qed.

(** C9, as the code has it, for the two requests [pm_send] handles
    specially, [PM_SUSPEND] and [PM_RESUME].  On a device that is already
    in the target state, [pm_send] saves the state in [prev_state] and
    returns 0, and the callback is not invoked.  And when a first
    [pm_send] returns 0, it has invoked the callback at most once and has
    left the device in the target state, and a second [pm_send] with the
    same target returns 0 again, invokes nothing, and leaves the state as
    it is. *)
Theorem pm_send_idempotent dev rqst target tr :
  rqst = PM_SUSPEND \/ rqst = PM_RESUME ->
  (state dev = target ->
     pm_send W dev rqst target tr = (0, set_prev_state (state dev) dev, tr)) /\
  ((pm_send W dev rqst target tr).1.1 = 0 ->
     exists d1 t1 d2,
       pm_send W dev rqst target tr = (0, d1, t1) /\
       (length (callbacks t1) <= S (length (callbacks tr)))%nat /\
       pm_send W d1 rqst target t1 = (0, d2, t1) /\
       state d2 = state d1 /\ state d1 = target).
Proof.
  intros Hr. split.
  - intros Hs. unfold pm_send. destruct Hr as [-> | ->]; rewrite decide_False; auto.
  - unfold pm_send.
    assert (Hgen : (let '(s, d, t) :=
        (if decide (state dev ≠ target) then
           let '(status, tr') := invoke W dev rqst target tr in
           if decide (status = 0)
           then (status, set_prev_state (state dev) (set_state target dev), tr')
           else (status, dev, tr')
         else (0, set_prev_state (state dev) dev, tr)) in
        s = 0 -> state d = target /\ (length (callbacks t) <= S (length (callbacks tr)))%nat)).
    { destruct (decide (state dev ≠ target)) as [Hne | Heq].
      - destruct (invoke W dev rqst target tr) as [status tr'] eqn:Hi.
        apply invoke_callbacks in Hi as [Hi _].
        destruct (decide (status = 0)); simpl; intros; [done | congruence].
      - intros _. simpl. split; [ by apply dec_stable | lia ]. }
    destruct Hr as [-> | ->];
      match goal with |- context [if ?c then ?a else ?b] =>
        destruct (if c then a else b) as [[s d] t] eqn:E end;
      simpl; intros ->; destruct (Hgen eq_refl) as [Hd Hl];
      exists d, t, (set_prev_state (state d) d);
      (split; [done | split; [done | split; [ | done]]]);
      rewrite decide_False; auto.
Qed.

End pm_properties.

(** ** The registry *)

Section registry_order.

Lemma filter_iff_in {A} (P Q : A -> Prop) `{!∀ x, Decision (P x), !∀ x, Decision (Q x)}
    (l : list A) :
  (forall x, x ∈ l -> P x <-> Q x) -> filter P l = filter Q l.
Proof.
  induction l as [ | x l IH ]; intros Hiff; [done | ].
  rewrite !filter_cons. rewrite IH by (intros y Hy; apply Hiff; by right).
  pose proof (Hiff x (list_elem_of_here x l)) as Hx.
  destruct (decide (P x)), (decide (Q x)); tauto || done.
Qed.

Lemma filter_mem_sublist (l' l : list pm_handle) :
  NoDup l -> l' `sublist_of` l -> filter (fun h => h ∈ l') l = l'.
Proof.
  intros Hnd Hsub. induction Hsub as [ | x l1 l2 Hsub IH | x l1 l2 Hsub IH ].
  - done.
  - apply NoDup_cons in Hnd as [Hx Hnd].
    rewrite filter_cons_True by set_solver. f_equal.
    transitivity (filter (fun h => h ∈ l1) l2); [ | by apply IH ].
    apply filter_iff_in. intros y Hy. set_solver.
  - apply NoDup_cons in Hnd as [Hx Hnd].
    rewrite filter_cons_False; [ by apply IH | ].
    intros Hin. apply Hx. by apply (sublist_subseteq _ _ Hsub).
Qed.

Lemma pm_inv_shrink st arr ds :
  pm_inv (st, arr) ->
  (entry <$> ds) `sublist_of` (entry <$> pm_devs st) ->
  pm_inv (Build_pm_state ds (pm_brk st), arr).
Proof.
  intros (Hnd & Hlt & Hord) Hsub. unfold pm_inv, iteration_order in *. simpl in *.
  split; [done | split; [done | ]].
  set (L := entry <$> pm_devs st) in *. set (L' := entry <$> ds) in *.
  assert (HndL : NoDup L).
  { rewrite Hord, reverse_Permutation. by apply NoDup_filter. }
  assert (Hf : filter (fun h => h ∈ L') arr
               = filter (fun h => h ∈ L') (filter (fun h => h ∈ L) arr)).
  { rewrite list_filter_filter. apply filter_iff_in. intros h _.
    split; [ | tauto ]. intros Hh. split; [done | ]. by apply (sublist_subseteq _ _ Hsub). }
  rewrite Hf. rewrite <- (list.reverse_involutive (filter (fun h => h ∈ L) arr)).
  rewrite <- Hord. rewrite filter_reverse, list.reverse_involutive.
  symmetry. by apply filter_mem_sublist.
Qed.

Lemma pm_step_inv s op : pm_inv s -> pm_inv (pm_step s op).
Proof.
  destruct s as [st arr]. intros Hinv. destruct op as [ok ty i cb | dev | cb]; simpl.
  - unfold pm_register. destruct ok; simpl; [ | by rewrite app_nil_r ].
    destruct Hinv as (Hnd & Hlt & Hord). unfold pm_inv, iteration_order in *.
    simpl in *. split; [ | split ].
    + apply NoDup_app. split; [done | split; [ | apply NoDup_singleton ]].
      intros h Hh Hh'. apply list_elem_of_singleton in Hh'. subst.
      apply Hlt in Hh. lia.
    + intros h [Hh | Hh]%elem_of_app; [ apply Hlt in Hh; lia | ].
      apply list_elem_of_singleton in Hh. subst. lia.
    + rewrite filter_app, reverse_app. unfold list_add. simpl.
      rewrite filter_cons_True by set_solver. rewrite filter_nil. simpl. f_equal.
      rewrite Hord at 1. f_equal. apply filter_iff_in.
      intros h Hh. apply Hlt in Hh. set_solver by lia.
  - destruct dev as [e | ]; simpl; [ | done ].
    apply pm_inv_shrink; [done | ]. apply fmap_sublist, sublist_filter.
  - destruct cb as [f | ]; simpl; [ | by destruct st ].
    apply pm_inv_shrink; [done | ]. apply fmap_sublist, sublist_filter.
Qed.

Lemma pm_run_inv ops : pm_inv (pm_run ops).
Proof.
  unfold pm_run. induction ops as [ | op ops IH ] using rev_ind.
  - repeat split; simpl; [ constructor | set_solver ].
  - rewrite foldl_app. simpl. by apply pm_step_inv.
Qed.

Lemma snoc_split {A} (l : list A) x l1 y l2 :
  l ++ [x] = l1 ++ y :: l2 ->
  (l2 = [] /\ l = l1 /\ x = y) \/ (exists l2', l2 = l2' ++ [x] /\ l = l1 ++ y :: l2').
Proof.
  destruct l2 as [ | z l2' _ ] using rev_ind.
  - intros [-> ->]%app_inj_tail. by left.
  - rewrite app_comm_cons, app_assoc. intros [-> ->]%app_inj_tail. right. by exists l2'.
Qed.

Lemma pm_run_snoc ops op : pm_run (ops ++ [op]) = pm_step (pm_run ops) op.
Proof. unfold pm_run. by rewrite foldl_app. Qed.

(** What one more operation does to the devices still registered. *)
Lemma still_registered_snoc ops op d :
  still_registered (ops ++ [op]) d <->
  (exists ty i cb,
      op = OpRegister true ty i cb /\
      d = Build_pm_dev (pm_brk (pm_run ops).1) ty i cb 0 0)
  \/ (still_registered ops d /\ op <> OpUnregister (Some (entry d)) /\
      forall f, callback d = Some f -> op <> OpUnregisterAll (Some f)).
Proof.
  split.
  - intros (ops1 & ty & i & cb & ops2 & Heq & Hd & Hu & Hua).
    apply snoc_split in Heq as [(-> & -> & ->) | (ops2' & -> & ->)].
    + left. by exists ty, i, cb.
    + right. split.
      * exists ops1, ty, i, cb, ops2'. split; [ done | ]. split; [ done | ].
        split.
        -- intros Hin. apply Hu, elem_of_app. by left.
        -- intros f Hf Hin. apply (Hua f Hf), elem_of_app. by left.
      * split.
        -- intros ->. apply Hu, elem_of_app. right. by apply list_elem_of_singleton.
        -- intros f Hf ->. subst d. cbn [callback] in Hf.
           apply (Hua f Hf), elem_of_app. right. by apply list_elem_of_singleton.
  - intros [(ty & i & cb & -> & ->) | ((ops1 & ty & i & cb & ops2 & -> & Hd & Hu & Hua) & Hop & Hopa)].
    + exists ops, ty, i, cb, []. split; [ done | ]. split; [ done | ].
      split; [ by apply not_elem_of_nil | ]. intros f _. by apply not_elem_of_nil.
    + exists ops1, ty, i, cb, (ops2 ++ [op]).
      split; [ by rewrite <- app_assoc | ]. split; [ done | ]. split.
      * intros [Hin | Hin%list_elem_of_singleton]%elem_of_app; [ by apply Hu | ].
        by apply Hop.
      * intros f Hf [Hin | Hin%list_elem_of_singleton]%elem_of_app;
          [ by apply (Hua f) | ].
        apply (Hopa f); [ | done ]. subst d. by cbn [callback].
Qed.

(** The registry holds exactly the devices still registered. *)
Lemma pm_run_still_registered ops d :
  d ∈ pm_devs (pm_run ops).1 <-> still_registered ops d.
Proof.
  revert d. induction ops as [ | op ops IH ] using rev_ind; intros d.
  - split.
    + by intros Hin%elem_of_nil.
    + intros (ops1 & ty & i & cb & ops2 & Heq & _). by destruct ops1.
  - rewrite still_registered_snoc, pm_run_snoc, <- IH.
    destruct op as [ok ty i cb | [e | ] | [f | ]]; cbn [pm_step fst snd].
    + destruct ok; cbn [pm_register fst snd pm_devs list_add].
      * rewrite elem_of_cons. split.
        -- intros [-> | Hin]; [ left; by exists ty, i, cb | right ].
           split; [ done | ]. by split.
        -- intros [(ty' & i' & cb' & [= <- <- <-] & ->) | (Hin & _)]; [ by left | by right ].
      * split.
        -- intros Hin. right. split; [ done | ]. by split.
        -- intros [(ty' & i' & cb' & [= ] & _) | (Hin & _)]. done.
    + cbn [pm_unregister pm_devs]. unfold list_del. rewrite list_elem_of_filter. split.
      * intros [Hne Hin]. right. split; [ done | ]. split; [ congruence | done ].
      * intros [(ty' & i' & cb' & [= ] & _) | (Hin & Hne & _)].
        split; [ congruence | done ].
    + cbn [pm_unregister]. split.
      * intros Hin. right. split; [ done | ]. by split.
      * intros [(ty' & i' & cb' & [= ] & _) | (Hin & _)]. done.
    + cbn [pm_unregister_all pm_devs]. rewrite list_elem_of_filter. split.
      * intros [Hne Hin]. right. split; [ done | ]. split; [ done | ].
        intros f' Hf'. congruence.
      * intros [(ty' & i' & cb' & [= ] & _) | (Hin & _ & Hne)].
        split; [ | done ]. intros Hf. by apply (Hne f).
    + cbn [pm_unregister_all]. split.
      * intros Hin. right. split; [ done | ]. by split.
      * intros [(ty' & i' & cb' & [= ] & _) | (Hin & _)]. done.
Qed.

(** The handles are handed out in the order of arrival: 0, 1, 2, ... *)
Lemma pm_run_arrivals ops : (pm_run ops).2 = seq 0 (pm_brk (pm_run ops).1).
Proof.
  induction ops as [ | op ops IH ] using rev_ind; [ done | ].
  rewrite pm_run_snoc.
  destruct op as [[] ty i cb | [e | ] | [f | ]];
    cbn [pm_step pm_register pm_unregister pm_unregister_all fst snd pm_brk option_list];
    rewrite ?app_nil_r; try done.
  by rewrite seq_S, IH.
Qed.

(** C4, as the code has it.  After every sequence of [pm_register],
    [pm_unregister] and [pm_unregister_all], the registry holds exactly
    the devices still registered: those that one of the operations
    registered and none of the later ones unregistered.  The order in
    which the registry is walked is the list of their handles in the
    REVERSE of the order they arrived in, the handles being numbered in
    that order; and [pm_register] puts the new device in front of all the
    others. *)
Theorem pm_registry_order ops :
  (forall d, d ∈ pm_devs (pm_run ops).1 <-> still_registered ops d)
  /\ (forall h, h ∈ iteration_order (pm_run ops).1
               <-> exists d, still_registered ops d /\ entry d = h)
  /\ (pm_run ops).2 = seq 0 (pm_brk (pm_run ops).1)
  /\ iteration_order (pm_run ops).1
      = reverse (filter (fun h => h ∈ iteration_order (pm_run ops).1) (pm_run ops).2)
  /\ forall ty i cb,
       iteration_order (pm_run (ops ++ [OpRegister true ty i cb])).1
         = pm_brk (pm_run ops).1 :: iteration_order (pm_run ops).1.
Proof.
  split; [ apply pm_run_still_registered | ].
  split.
  { intros h. unfold iteration_order. rewrite list_elem_of_fmap. split.
    - intros (d & -> & Hin). exists d. split; [ | done ].
      by apply pm_run_still_registered.
    - intros (d & Hd & <-). exists d. split; [ done | ].
      by apply pm_run_still_registered. }
  split; [ apply pm_run_arrivals | ].
  split.
  - apply (pm_run_inv ops).
  - intros. by rewrite pm_run_snoc.
Qed.

End registry_order.

(** ** [pm_send_all] *)

Section broadcast.
Variable W : World.

Lemma pm_send_fields dev rqst data tr s dev' tr' :
  pm_send W dev rqst data tr = (s, dev', tr') ->
  entry dev' = entry dev /\ callback dev' = callback dev.
Proof.
  unfold pm_send. destruct rqst;
    repeat (case_decide || destruct (invoke W dev _ data tr)); intros [= <- <- <-]; done.
Qed.

(** [pm_send] of [PM_SUSPEND] or [PM_RESUME]: accepted, or refused by the
    callback with the device left as it was. *)
Lemma pm_send_cases dev rqst data tr s dev' tr' :
  rqst = PM_SUSPEND \/ rqst = PM_RESUME ->
  pm_send W dev rqst data tr = (s, dev', tr') ->
  (s = 0 /\ state dev' = data /\ prev_state dev' = state dev) \/
  (s <> 0 /\ dev' = dev /\ state dev <> data /\
   exists f, callback dev = Some f /\ s = call_callback W f tr dev rqst data).
Proof.
  intros Hr. unfold pm_send, invoke.
  destruct Hr as [-> | ->]; (case_decide as Hne; [ | try apply dec_stable in Hne ]);
    destruct (callback dev) as [f | ]; try case_decide;
    intros [= <- <- <-]; simpl; try done; eauto 10.
Qed.

Lemma pm_send_sent dev rqst data tr dev' tr' :
  rqst = PM_SUSPEND \/ rqst = PM_RESUME ->
  pm_send W dev rqst data tr = (0, dev', tr') -> callback dev <> None ->
  sent data dev dev'.
Proof.
  intros Hr Hs Hcb. destruct (pm_send_fields _ _ _ _ _ _ _ Hs) as [He Hc].
  destruct (pm_send_cases _ _ _ _ _ _ _ Hr Hs) as [(_ & H1 & H2) | (? & _)]; [ | done ].
  repeat split; done.
Qed.

Lemma pm_undo_all_undone before tr before' tr' :
  pm_undo_all W before tr = (before', tr') -> Forall2 (undone W) before before'.
Proof.
  revert tr before' tr'. induction before as [ | p before IH ]; simpl; intros tr before' tr'.
  - intros [= <- <-]. constructor.
  - destruct (decide (state p ≠ prev_state p)) as [Hne | Heq].
    + destruct (pm_send W p _ (prev_state p) tr) as [[s q] tq] eqn:Hs.
      destruct (pm_undo_all W before tq) as [more tm] eqn:Hu.
      intros [= <- <-]. constructor; [ | by eapply IH ].
      destruct (pm_send_fields _ _ _ _ _ _ _ Hs) as [He Hc].
      assert (Hr : (if decide (prev_state p ≠ 0) then PM_SUSPEND else PM_RESUME) = PM_SUSPEND
                   \/ (if decide (prev_state p ≠ 0) then PM_SUSPEND else PM_RESUME) = PM_RESUME)
        by (case_decide; auto).
      destruct (pm_send_cases _ _ _ _ _ _ _ Hr Hs)
        as [(_ & H1 & _) | (Hs0 & -> & _ & f & Hf & Hcall)].
      * repeat split; auto; done.
      * repeat split; auto; try done.
        intros Hacc. exfalso. apply Hs0. rewrite Hcall. by apply Hacc.
    + apply dec_stable in Heq.
      destruct (pm_undo_all W before tr) as [more tm] eqn:Hu.
      intros [= <- <-]. constructor; [ | by eapply IH ].
      repeat split; auto.
Qed.

Lemma pm_send_all_from_spec rqst data todo : forall before tr status devs' tr',
  rqst = PM_SUSPEND \/ rqst = PM_RESUME ->
  pm_send_all_from W rqst data before todo tr = (status, devs', tr') ->
  (status = 0 ->
     exists todo', devs' = reverse before ++ todo' /\ Forall2 (sent data) todo todo') /\
  (status <> 0 ->
     exists pre d post pre_sent f tr_d,
       todo = pre ++ d :: post /\ Forall2 (sent data) pre pre_sent /\
       callback d = Some f /\ state d <> data /\
       status = call_callback W f tr_d d rqst data /\
       ((rqst = PM_SUSPEND /\
         exists before' tr_u,
           pm_undo_all W (reverse pre_sent ++ before) tr_u = (before', tr') /\
           devs' = reverse before' ++ d :: post) \/
        (rqst = PM_RESUME /\
           devs' = reverse (reverse pre_sent ++ before) ++ d :: post))).
Proof.
  induction todo as [ | p todo IH ]; simpl; intros before tr status devs' tr' Hr.
  - intros [= <- <- <-]. split; [ | done ]. intros _. exists [].
    by rewrite app_nil_r.
  - destruct (callback p) as [f | ] eqn:Hcb.
    + destruct (pm_send W p rqst data tr) as [[s q] tq] eqn:Hs.
      case_decide as Hs0.
      * (* refused *)
        destruct (pm_send_cases _ _ _ _ _ _ _ Hr Hs)
          as [(? & _) | (_ & -> & Hst & f' & Hf & Hcall)]; [ done | ].
        destruct (decide (rqst = PM_SUSPEND)) as [-> | Hrq].
        -- destruct (pm_undo_all W before tq) as [before' tu] eqn:Hu.
           intros [= <- <- <-]. split; [ done | ]. intros _.
           exists [], p, todo, [], f', tr. simpl.
           repeat split; auto. left. split; [ done | ]. eauto.
        -- intros [= <- <- <-]. split; [ done | ]. intros _.
           exists [], p, todo, [], f', tr. simpl.
           repeat split; auto. right. destruct Hr; done.
      * try apply dec_stable in Hs0. subst s. intros Hrec.
        assert (Hsent : sent data p q) by (eapply pm_send_sent; eauto; congruence).
        destruct (IH _ _ _ _ _ Hr Hrec) as [IH0 IH1]. split.
        -- intros Hz. destruct (IH0 Hz) as (todo' & -> & HF).
           exists (q :: todo'). split; [ | by constructor ].
           by rewrite reverse_cons, <- app_assoc.
        -- intros Hnz.
           destruct (IH1 Hnz) as (pre & d & post & pre_sent & g & tr_d & -> & HF & Hg & Hd & Hst & Hrest).
           exists (p :: pre), d, post, (q :: pre_sent), g, tr_d.
           repeat split; auto.
           rewrite reverse_cons, <- app_assoc. done.
    + intros Hrec. destruct (IH _ _ _ _ _ Hr Hrec) as [IH0 IH1].
      assert (Hsent : sent data p p) by (repeat split; auto; done).
      split.
      * intros Hz. destruct (IH0 Hz) as (todo' & -> & HF).
        exists (p :: todo'). split; [ | by constructor ].
        by rewrite reverse_cons, <- app_assoc.
      * intros Hnz.
        destruct (IH1 Hnz) as (pre & d & post & pre_sent & g & tr_d & -> & HF & Hg & Hd & Hst & Hrest).
        exists (p :: pre), d, post, (p :: pre_sent), g, tr_d.
        repeat split; auto.
        rewrite reverse_cons, <- app_assoc. done.
Qed.

Lemma suspend_calls_cons data p l :
  suspend_calls data (p :: l)
  = suspend_calls data l
      ++ (if decide (called data p) then [EvCallback (entry p) PM_SUSPEND data] else []).
Proof.
  unfold suspend_calls. case_decide.
  - by rewrite filter_cons_True, fmap_cons, reverse_cons by done.
  - by rewrite filter_cons_False, app_nil_r by done.
Qed.

Lemma undo_calls_cons data p l :
  undo_calls data (p :: l)
  = (if decide (called data p)
     then [EvCallback (entry p) (undo_request (state p)) (state p)] else [])
      ++ undo_calls data l.
Proof.
  unfold undo_calls. case_decide.
  - by rewrite filter_cons_True, fmap_cons by done.
  - by rewrite filter_cons_False by done.
Qed.

Lemma all_accept_cons data tr p l :
  (forall g, callback p = Some g -> state p <> data ->
     call_callback W g tr p PM_SUSPEND data = 0) ->
  all_accept W data
    ((if decide (called data p) then [EvCallback (entry p) PM_SUSPEND data] else [])
       ++ tr) l ->
  all_accept W data tr (p :: l).
Proof.
  intros Hp Hl pre1 q pre2 g Heq Hg Hq.
  destruct pre1 as [ | x pre1 ]; cbn [app] in Heq; injection Heq as -> ->.
  - cbn. by apply Hp.
  - rewrite suspend_calls_cons, <- app_assoc. by eapply Hl.
Qed.

Lemma suspended_same data p g :
  callback p = Some g -> state p = data ->
  set_prev_state (state p) p = suspended data p.
Proof. intros Hg <-. unfold suspended. rewrite Hg. by destruct p. Qed.

(** The loop of [pm_send_all] for [PM_SUSPEND]: it gets through the whole
    list, or it stops at the first device that refuses and hands the
    devices passed to [pm_undo_all]. *)
Lemma pm_send_all_from_suspend data todo : forall before tr,
  (pm_send_all_from W PM_SUSPEND data before todo tr
   = (0, reverse before ++ (suspended data <$> todo), suspend_calls data todo ++ tr) /\
   all_accept W data tr todo)
  \/ (exists pre d post f,
        todo = pre ++ d :: post /\ callback d = Some f /\ state d <> data /\
        all_accept W data tr pre /\
        call_callback W f (suspend_calls data pre ++ tr) d PM_SUSPEND data <> 0 /\
        pm_send_all_from W PM_SUSPEND data before todo tr
        = (call_callback W f (suspend_calls data pre ++ tr) d PM_SUSPEND data,
           reverse (pm_undo_all W (reverse (suspended data <$> pre) ++ before)
                      (EvCallback (entry d) PM_SUSPEND data
                         :: suspend_calls data pre ++ tr)).1 ++ d :: post,
           (pm_undo_all W (reverse (suspended data <$> pre) ++ before)
              (EvCallback (entry d) PM_SUSPEND data
                 :: suspend_calls data pre ++ tr)).2)).
Proof.
  induction todo as [ | p todo IH ]; intros before tr.
  - left. split; [ by rewrite app_nil_r | ].
    intros pre1 q pre2 g Heq. by destruct pre1.
  - cbn [pm_send_all_from]. destruct (callback p) as [g | ] eqn:Hcb.
    + unfold pm_send, invoke. rewrite Hcb.
      destruct (decide (state p ≠ data)) as [Hne | Heq].
      * (* the callback is asked *)
        assert (Hcalled : called data p) by (split; [ congruence | done ]).
        destruct (decide (call_callback W g tr p PM_SUSPEND data = 0)) as [H0 | H0].
        -- rewrite decide_False by (intros H; by apply H).
           assert (Hq : set_prev_state (state p) (set_state data p) = suspended data p)
             by (unfold suspended; by rewrite Hcb).
           rewrite Hq.
           destruct (IH (suspended data p :: before)
                       (EvCallback (entry p) PM_SUSPEND data :: tr))
             as [[Hall Hacc] | (pre & d & post & f & -> & Hf & Hd & Hacc & Hs & Hall)].
           ++ left. rewrite Hall. split.
              ** rewrite suspend_calls_cons, decide_True by done.
                 by rewrite fmap_cons, reverse_cons, <- !app_assoc.
              ** apply all_accept_cons; [ intros g' Hg' _; congruence | ].
                 by rewrite decide_True by done.
           ++ right. exists (p :: pre), d, post, f.
              rewrite suspend_calls_cons, decide_True, <- app_assoc by done.
              cbn [app] in *. split; [ done | ]. split; [ done | ]. split; [ done | ].
              split.
              { apply all_accept_cons; [ intros g' Hg' _; congruence | ].
                by rewrite decide_True by done. }
              split; [ done | ].
              rewrite Hall. by rewrite fmap_cons, reverse_cons, <- app_assoc.
        -- (* it refuses *)
           rewrite decide_True by done. rewrite decide_True by done.
           right. exists [], p, todo, g.
           split; [ done | ]. split; [ done | ]. split; [ done | ].
           split; [ intros pre1 q pre2 g' Heq; by destruct pre1 | ].
           split; [ done | ].
           change (suspend_calls data [] ++ tr) with tr.
           change (reverse (suspended data <$> []) ++ before) with before.
           by destruct (pm_undo_all W before (EvCallback (entry p) PM_SUSPEND data :: tr)).
      * (* the device is in the state asked for *)
        apply dec_stable in Heq.
        rewrite decide_False by (intros H; by apply H).
        rewrite (suspended_same data p g Hcb Heq).
        assert (Hnc : ~ called data p) by (intros [_ H]; done).
        destruct (IH (suspended data p :: before) tr)
          as [[Hall Hacc] | (pre & d & post & f & -> & Hf & Hd & Hacc & Hs & Hall)].
        -- left. rewrite Hall. split.
           ++ rewrite suspend_calls_cons, decide_False, app_nil_r by done.
              by rewrite fmap_cons, reverse_cons, <- !app_assoc.
           ++ apply all_accept_cons; [ intros g' _ Hst; done | ].
              by rewrite decide_False by done.
        -- right. exists (p :: pre), d, post, f.
           rewrite suspend_calls_cons, decide_False, app_nil_r by done.
           split; [ done | ]. split; [ done | ]. split; [ done | ].
           split.
           { apply all_accept_cons; [ intros g' _ Hst; done | ].
             by rewrite decide_False by done. }
           split; [ done | ].
           rewrite Hall. by rewrite fmap_cons, reverse_cons, <- app_assoc.
    + (* no callback: the device is passed over *)
      assert (Hq : suspended data p = p) by (unfold suspended; by rewrite Hcb).
      assert (Hnc : ~ called data p) by (intros [H _]; done).
      destruct (IH (p :: before) tr)
        as [[Hall Hacc] | (pre & d & post & f & -> & Hf & Hd & Hacc & Hs & Hall)].
      * left. rewrite Hall. split.
        -- rewrite suspend_calls_cons, decide_False, app_nil_r by done.
           by rewrite fmap_cons, Hq, reverse_cons, <- !app_assoc.
        -- apply all_accept_cons; [ intros g' Hg'; congruence | ].
           by rewrite decide_False by done.
      * right. exists (p :: pre), d, post, f.
        rewrite suspend_calls_cons, decide_False, app_nil_r by done.
        split; [ done | ]. split; [ done | ]. split; [ done | ].
        split.
        { apply all_accept_cons; [ intros g' Hg'; congruence | ].
          by rewrite decide_False by done. }
        split; [ done | ].
        rewrite Hall. by rewrite fmap_cons, Hq, reverse_cons, <- app_assoc.
Qed.

Lemma pm_undo_all_app l1 : forall l2 tr,
  pm_undo_all W (l1 ++ l2) tr
  = ((pm_undo_all W l1 tr).1 ++ (pm_undo_all W l2 (pm_undo_all W l1 tr).2).1,
     (pm_undo_all W l2 (pm_undo_all W l1 tr).2).2).
Proof.
  induction l1 as [ | p l1 IH ]; intros l2 tr; cbn [app pm_undo_all fst snd].
  - by destruct (pm_undo_all W l2 tr).
  - destruct (if decide (state p ≠ prev_state p) then _ else (p, tr)) as [q tq].
    rewrite IH. destruct (pm_undo_all W l1 tq) as [m1 t1]. cbn [fst snd].
    by destruct (pm_undo_all W l2 t1) as [m2 t2].
Qed.

(** The turn of one device in the rollback. *)
Lemma pm_undo_all_one data p tr :
  pm_undo_all W [suspended data p] tr
  = ([rolled_back_dev W data tr p],
     (if decide (called data p)
      then [EvCallback (entry p) (undo_request (state p)) (state p)] else []) ++ tr).
Proof.
  unfold rolled_back_dev, suspended, called, undo_request.
  destruct p as [e t i [g | ] s ps]; cbn [callback state prev_state entry].
  - destruct (decide (s ≠ data)) as [Hne | Heq].
    + rewrite (decide_True (P := _ /\ _)) by done.
      cbn [pm_undo_all set_prev_state set_state state prev_state entry type id callback].
      rewrite decide_True by congruence.
      unfold pm_send, invoke.
      cbn [set_prev_state set_state state prev_state entry type id callback].
      assert (Hcall : forall rq,
                rq = PM_SUSPEND \/ rq = PM_RESUME ->
                match rq with
                | PM_REQUEST _ =>
                    (call_callback W g tr (Build_pm_dev e t i (Some g) data s) rq s,
                     Build_pm_dev e t i (Some g) data s,
                     EvCallback e rq s :: tr)
                | _ =>
                    if decide (data ≠ s)
                    then
                      let '(status, tr') :=
                        (call_callback W g tr (Build_pm_dev e t i (Some g) data s) rq s,
                         EvCallback e rq s :: tr) in
                      if decide (status = 0)
                      then (status,
                            set_prev_state data
                              (set_state s (Build_pm_dev e t i (Some g) data s)), tr')
                      else (status, Build_pm_dev e t i (Some g) data s, tr')
                    else (0, set_prev_state data (Build_pm_dev e t i (Some g) data s), tr)
                end
                = (call_callback W g tr (Build_pm_dev e t i (Some g) data s) rq s,
                   if decide (call_callback W g tr (Build_pm_dev e t i (Some g) data s)
                                rq s = 0)
                   then Build_pm_dev e t i (Some g) s data
                   else Build_pm_dev e t i (Some g) data s,
                   EvCallback e rq s :: tr)).
      { intros rq [-> | ->]; rewrite decide_True by congruence; cbv zeta iota beta;
          by case_decide. }
      rewrite (Hcall (if decide (s ≠ 0) then PM_SUSPEND else PM_RESUME))
        by (destruct (decide (s ≠ 0)); auto).
      reflexivity.
    + apply dec_stable in Heq. subst s.
      rewrite (decide_False (P := _ /\ _)) by (intros [_ H]; done).
      cbn [pm_undo_all set_prev_state set_state state prev_state entry type id callback].
      by rewrite decide_False by (intros H; by apply H).
  - rewrite (decide_False (P := _ /\ _)) by (intros [H _]; done).
    cbn [pm_undo_all state prev_state]. case_decide as Hne; [ | done ].
    unfold pm_send, invoke. cbn [state prev_state callback].
    assert (Hsend : forall rq,
              rq = PM_SUSPEND \/ rq = PM_RESUME ->
              match rq with
              | PM_REQUEST _ => (0, Build_pm_dev e t i None s ps, tr)
              | _ =>
                  if decide (s ≠ ps)
                  then
                    let '(status, tr') := (0, tr) in
                    if decide (status = 0)
                    then (status,
                          set_prev_state s (set_state ps (Build_pm_dev e t i None s ps)),
                          tr')
                    else (status, Build_pm_dev e t i None s ps, tr')
                  else (0, set_prev_state s (Build_pm_dev e t i None s ps), tr)
              end
              = (0, set_prev_state s (set_state ps (Build_pm_dev e t i None s ps)), tr)).
    { intros rq [-> | ->]; by rewrite decide_True by done. }
    by rewrite (Hsend (if decide (ps ≠ 0) then PM_SUSPEND else PM_RESUME))
      by (destruct (decide (ps ≠ 0)); auto).
Qed.

(** The rollback over the devices the broadcast got through. *)
Lemma pm_undo_all_rolled_back data pre : forall tr1,
  pm_undo_all W (reverse (suspended data <$> pre)) tr1
  = (reverse (rolled_back W data tr1 pre), undo_calls data pre ++ tr1).
Proof.
  induction pre as [ | p pre IH ]; intros tr1; [ done | ].
  rewrite fmap_cons, reverse_cons, pm_undo_all_app, IH. cbn [fst snd].
  rewrite pm_undo_all_one. cbn [fst snd rolled_back].
  by rewrite reverse_cons, undo_calls_cons, <- app_assoc.
Qed.

(** C1, as the code has it.  When [pm_send_all(PM_SUSPEND, data)] returns
    a status other than 0, that status is what the callback of some device
    [d] returned, after every device in front of [d] that was called had
    accepted; [d] and the devices behind it are untouched.  Then the
    devices in front of [d] have been walked backward from [d]: the trace
    holds, after the calls of the broadcast, one call for every device
    the broadcast had called, nearest to [d] first, with the request for
    the state the device was in before; such a device is back in that
    state when its callback accepts this request, and is left in state
    [data] when it refuses (the answer is dropped).  A device without a
    callback is never called; the walk sets it to its [prev_state].  When
    [pm_send_all] returns 0, every device that has a callback is in state
    [data], with its old state in [prev_state], the devices that have
    none are untouched, and the trace holds the calls of the broadcast. *)
Theorem pm_send_all_veto data devs tr :
  let '(status, devs', tr') := pm_send_all W PM_SUSPEND data devs tr in
  (status <> 0 ->
     exists pre d post f,
       devs = pre ++ d :: post /\
       callback d = Some f /\ state d <> data /\
       (forall pre1 p pre2 g,
          pre = pre1 ++ p :: pre2 -> callback p = Some g -> state p <> data ->
          call_callback W g (suspend_calls data pre1 ++ tr) p PM_SUSPEND data = 0) /\
       status = call_callback W f (suspend_calls data pre ++ tr) d PM_SUSPEND data /\
       tr' = undo_calls data pre
               ++ EvCallback (entry d) PM_SUSPEND data :: suspend_calls data pre ++ tr /\
       devs' = rolled_back W data
                 (EvCallback (entry d) PM_SUSPEND data :: suspend_calls data pre ++ tr)
                 pre
               ++ d :: post) /\
  (status = 0 ->
     devs' = suspended data <$> devs /\
     Forall2 (sent data) devs devs' /\
     tr' = suspend_calls data devs ++ tr).
Proof.
  destruct (pm_send_all W PM_SUSPEND data devs tr) as [[status devs'] tr'] eqn:Hall.
  unfold pm_send_all in Hall.
  destruct (pm_send_all_from_suspend data devs [] tr)
    as [[Hok _] | (pre & d & post & f & -> & Hf & Hd & Hacc & Hs & Hv)].
  - destruct (pm_send_all_from_spec _ _ _ _ _ _ _ _ (or_introl eq_refl) Hok) as [H0 _].
    destruct (H0 eq_refl) as (todo' & Hd' & HF).
    change (reverse [] ++ todo') with todo' in Hd'.
    change (reverse [] ++ (suspended data <$> devs)) with (suspended data <$> devs) in Hd'.
    rewrite Hok in Hall. injection Hall as <- <- <-.
    split; [ done | ]. intros _.
    split; [ done | ]. split; [ | done ]. by rewrite Hd'.
  - rewrite Hv in Hall. rewrite app_nil_r, pm_undo_all_rolled_back in Hall.
    cbn [fst snd] in Hall. rewrite list.reverse_involutive in Hall.
    injection Hall as <- <- <-.
    split; [ | done ]. intros _.
    exists pre, d, post, f. by repeat split.
Qed.

End broadcast.

(** ** The event queue *)

Section event_queue.

Lemma queue_occupied_bounds a : 0 <= queue_occupied a < APM_MAX_EVENTS.
Proof. unfold queue_occupied. zlia. Qed.

Lemma queue_empty_occupied a :
  queue_wf a -> queue_empty a = true <-> queue_occupied a = 0.
Proof.
  intros (Hh & Ht & _). unfold queue_empty, queue_occupied.
  rewrite bool_decide_eq_true. zlia.
Qed.

Lemma event_at_set_as_queue i h t evs a :
  event_at i (set_as_queue h t evs a) = default (APM_EVENT 0) (evs !! Z.to_nat i).
Proof. reflexivity. Qed.

(** Storing an event in the slot after [event_head], dropping the oldest
    one when that slot is the one [event_tail] points to. *)
Lemma queue_contents_push a e :
  queue_wf a ->
  let h := (as_event_head a + 1) `mod` APM_MAX_EVENTS in
  let full := bool_decide (h = as_event_tail a) in
  let t := if full then (as_event_tail a + 1) `mod` APM_MAX_EVENTS
           else as_event_tail a in
  let a' := set_as_queue h t (<[Z.to_nat h := e]> (as_events a)) a in
  queue_wf a' /\
  (full = true <-> queue_occupied a = APM_MAX_EVENTS - 1) /\
  queue_contents a'
    = (if full then drop 1 (queue_contents a) else queue_contents a) ++ [e].
Proof.
  intros (Hh & Ht & Hlen) h full t a'.
  assert (Hh' : 0 <= h < 20) by (subst h; zlia).
  assert (Hfull : full = true <-> queue_occupied a = APM_MAX_EVENTS - 1).
  { subst full h. rewrite bool_decide_eq_true. unfold queue_occupied. zlia. }
  assert (Hhdef : h = (as_event_head a + 1) `mod` 20) by reflexivity.
  assert (Hhd : as_event_head a' = h) by reflexivity.
  assert (Htl : as_event_tail a' = t) by reflexivity.
  assert (Hins : forall i, 0 <= i < 20 ->
            event_at i a' = if bool_decide (i = h) then e else event_at i a).
  { intros i Hi. subst a'. rewrite event_at_set_as_queue. unfold event_at.
    case_bool_decide as Hih.
    - subst i. rewrite list_lookup_insert_eq; [ done | ].
      rewrite Hlen. unfold APM_MAX_EVENTS; lia.
    - rewrite list_lookup_insert_ne; [ done | lia ]. }
  assert (Hwf : queue_wf a').
  { subst a' t. unfold queue_wf. simpl. rewrite length_insert.
    destruct full; repeat split; try done; zlia. }
  assert (Hoc : queue_occupied a' = (h - t) `mod` 20).
  { unfold queue_occupied. by rewrite Hhd, Htl. }
  split; [ done | split; [ done | ] ].
  unfold queue_contents at 1. rewrite Htl, Hoc.
  pose proof (queue_occupied_bounds a) as Hb.
  clearbody a'. subst t. subst full. clearbody h.
  destruct (bool_decide (h = as_event_tail a)) eqn:Efull.
  - assert (Hocc : queue_occupied a = 19) by (by apply Hfull).
    assert (Hht : h = as_event_tail a) by (by apply bool_decide_eq_true in Efull).
    replace ((h - (as_event_tail a + 1) `mod` APM_MAX_EVENTS) `mod` 20)
      with (18 + 1) by zlia.
    unfold queue_contents. rewrite Hocc.
    rewrite seqZ_app by lia. rewrite fmap_app.
    rewrite (seqZ_cons 1 19) by lia. rewrite fmap_cons.
    lazymatch goal with
    | |- context [drop 1 (?x :: ?l)] => change (drop 1 (x :: l)) with l
    end.
    f_equal.
    + change (Z.succ 1) with (1 + 1). change (Z.pred 19) with 18.
      rewrite <- (fmap_add_seqZ 1 1 18). rewrite <- list_fmap_compose.
      apply Forall_fmap_ext, Forall_seqZ. intros k Hk. simpl.
      rewrite Hins by zlia. rewrite bool_decide_eq_false_2 by zlia.
      f_equal. zlia.
    + rewrite (seqZ_cons (1 + 18) 1) by lia. rewrite seqZ_nil by lia. simpl.
      f_equal.
      rewrite Hins by zlia. rewrite bool_decide_eq_true_2; [ done | zlia ].
  - assert (Hne : h <> as_event_tail a) by (by apply bool_decide_eq_false in Efull).
    assert (Hocc : queue_occupied a < 19).
    { destruct (decide (queue_occupied a = 19)) as [Heq | Hneq].
      - apply Hfull in Heq. done.
      - unfold APM_MAX_EVENTS in *. lia. }
    replace ((h - as_event_tail a) `mod` 20) with (queue_occupied a + 1)
      by (unfold queue_occupied in *; zlia).
    rewrite seqZ_app by lia. rewrite fmap_app. f_equal.
    + apply Forall_fmap_ext, Forall_seqZ. intros k Hk. simpl.
      rewrite Hins by zlia. rewrite bool_decide_eq_false_2; [ done | ].
      unfold queue_occupied in *. zlia.
    + rewrite (seqZ_cons _ 1) by lia. rewrite seqZ_nil by lia. simpl. f_equal.
      rewrite Hins by zlia. rewrite bool_decide_eq_true_2; [ done | ].
      unfold queue_occupied in *. zlia.
Qed.



Lemma queue_event_user_skip event sender a st :
  receives sender a = false -> queue_event_user event sender a st = (a, st).
Proof.
  unfold receives, queue_event_user. intros Hr.
  destruct (bool_decide (sender = Some (as_self a))), (as_reader a); done.
Qed.

Lemma same_user_refl a : same_user a a.
Proof. repeat split. Qed.


Lemma same_machine_trans st1 st2 st3 :
  same_machine st1 st2 -> same_machine st2 st3 -> same_machine st1 st3.
Proof. unfold same_machine. intuition congruence. Qed.

Lemma queue_event_user_push event sender a st a' st' :
  queue_wf a -> receives sender a = true ->
  queue_event_user event sender a st = (a', st') ->
  delivered event a a' /\
  suspends_pending st' = suspends_pending st + pending_delta is_suspend_event event a /\
  standbys_pending st' = standbys_pending st + pending_delta is_standby_event event a /\
  notified st' = notified st + (if queue_full a then 1 else 0) /\
  user_list st' = user_list st /\
  (exists msgs, log st' = msgs ++ log st /\ callbacks msgs = [] /\ bios_calls msgs = []) /\
  same_machine st st'.
Proof.
  intros Hwf Hr. pose proof Hwf as (Hh & Ht & Hlen).
  destruct (queue_contents_push a event Hwf) as (Hwf' & Hfull & Hcont).
  unfold receives in Hr. apply andb_true_iff in Hr as [Hs Hrd].
  apply negb_true_iff in Hs.
  unfold queue_event_user. rewrite Hs, Hrd. simpl orb. cbv iota.
  cbn [as_event_head as_event_tail as_events set_as_queue].
  replace (Z.rem (as_event_head a + 1) APM_MAX_EVENTS)
    with ((as_event_head a + 1) `mod` APM_MAX_EVENTS) by zlia.
  replace (Z.rem (as_event_tail a + 1) APM_MAX_EVENTS)
    with ((as_event_tail a + 1) `mod` APM_MAX_EVENTS) by zlia.
  set (h := (as_event_head a + 1) `mod` APM_MAX_EVENTS) in *.
  assert (Hq : queue_full a = bool_decide (h = as_event_tail a)).
  { unfold queue_full. apply bool_decide_ext. rewrite <- Hfull.
    by rewrite bool_decide_eq_true. }
  rewrite Hq. unfold delivered. rewrite Hq.
  unfold pending_delta, privileged_writer.
  destruct (bool_decide (h = as_event_tail a)) eqn:Efull;
    destruct (bool_decide (notified st = 0)) eqn:En;
    cbn [as_event_head as_event_tail as_events set_as_queue as_suser as_writer
         notified set_notified printk set_log set_pm log] in *;
    destruct (as_suser a) eqn:Esu, (as_writer a) eqn:Ewr; simpl negb; simpl orb;
      simpl andb; cbv iota;
    try (destruct event; simpl is_suspend_event; simpl is_standby_event; cbv iota);
    intros [= <- <-];
    (split; [ split; [ exact Hwf' | split; [ exact Hcont | ] ] | ]);
    cbn; rewrite ?Esu, ?Ewr, ?Z.add_0_r;
    repeat split; try done;
    first [ by exists [] | by exists [EvPrintk MsgQueueOverflow] ].
Qed.


Lemma queue_event_loop_spec event sender users : forall st users' st',
  Forall queue_wf users ->
  queue_event_loop event sender users st = (users', st') ->
  queued event sender users st users' st' /\ user_list st' = user_list st.
Proof.
  induction users as [ | a users IH ]; simpl; intros st users' st' Hwf.
  - intros [= <- <-]. unfold queued. simpl. rewrite !Z.add_0_r.
    repeat split; try done. by exists [].
  - apply Forall_cons in Hwf as [Hwa Hwf].
    destruct (queue_event_user event sender a st) as [a1 st1] eqn:Hu.
    destruct (queue_event_loop event sender users st1) as [rest st2] eqn:Hl.
    intros [= <- <-].
    destruct (IH _ _ _ Hwf Hl) as ((HF & Hs & Hb & Hn & (m2 & Hm2 & Hc2 & Hb2) & Hsm) & Hul).
    destruct (receives sender a) eqn:Hr.
    + destruct (queue_event_user_push _ _ _ _ _ _ Hwa Hr Hu)
        as (Hd & Hs1 & Hb1 & Hn1 & Hul1 & (m1 & Hm1 & Hc1 & Hb1') & Hsm1).
      split; [ | congruence ]. unfold queued. simpl. rewrite Hr. simpl andb.
      split; [ constructor; [ by rewrite Hr | done ] | ].
      split; [ lia | split; [ lia | split; [ lia | split ] ] ].
      * exists (m2 ++ m1). rewrite Hm2, Hm1, <- app_assoc. split; [ done | ].
        unfold callbacks, bios_calls in *. rewrite !omap_app.
        rewrite Hc1, Hc2, Hb1', Hb2. done.
      * by eapply same_machine_trans.
    + rewrite (queue_event_user_skip _ _ _ _ Hr) in Hu. injection Hu as <- <-.
      split; [ | done ]. unfold queued. simpl. rewrite Hr. simpl andb.
      split; [ constructor; [ by rewrite Hr | done ] | ].
      split; [ lia | split; [ lia | split; [ lia | split ] ] ]; [ | done ].
      by exists m2.
Qed.

Lemma queue_event_queued event sender st :
  Forall queue_wf (user_list st) ->
  queued event sender (user_list st) st
    (user_list (queue_event event sender st)) (queue_event event sender st).
Proof.
  intros Hwf. unfold queue_event.
  destruct (queue_event_loop event sender (user_list st) st) as [users st'] eqn:Hl.
  destruct (queue_event_loop_spec _ _ _ _ _ _ Hwf Hl) as [Hq _].
  exact Hq.
Qed.



Lemma length_queue_contents a :
  length (queue_contents a) = Z.to_nat (queue_occupied a).
Proof. unfold queue_contents. by rewrite length_fmap, length_seqZ. Qed.

(** Taking the oldest event out. *)
Lemma queue_contents_pop a :
  queue_wf a -> queue_empty a = false ->
  let '(e, a') := get_queued_event a in
  queue_wf a' /\ queue_contents a = e :: queue_contents a' /\
  same_user a a' /\
  as_suspends_pending a' = as_suspends_pending a /\
  as_standbys_pending a' = as_standbys_pending a.
Proof.
  intros Hwf Hne. pose proof Hwf as (Hh & Ht & Hlen).
  assert (Hocc : 0 < queue_occupied a).
  { pose proof (queue_occupied_bounds a).
    destruct (decide (queue_occupied a = 0)) as [H0 | H0]; [ | lia ].
    apply queue_empty_occupied in H0; [ congruence | done ]. }
  unfold get_queued_event.
  replace (Z.rem (as_event_tail a + 1) APM_MAX_EVENTS)
    with ((as_event_tail a + 1) `mod` APM_MAX_EVENTS) by zlia.
  set (t := (as_event_tail a + 1) `mod` APM_MAX_EVENTS).
  set (a' := set_as_queue (as_event_head a) t (as_events a) a).
  assert (Ht' : t = (as_event_tail a + 1) `mod` 20) by reflexivity.
  assert (Hwf' : queue_wf a').
  { unfold queue_wf. simpl. repeat split; try done; zlia. }
  assert (Hoc' : queue_occupied a' = queue_occupied a - 1).
  { unfold queue_occupied in *. simpl. zlia. }
  split; [ done | ]. split; [ | repeat split ].
  unfold queue_contents. rewrite Hoc'.
  rewrite (seqZ_cons 1 (queue_occupied a)) by lia. rewrite fmap_cons.
  apply (f_equal2 (@cons apm_event_t)).
  - change (event_at (as_event_tail a') a') with (event_at t a).
    cbv beta. f_equal; zlia.
  - change (Z.succ 1) with (1 + 1). change (Z.pred (queue_occupied a)) with (queue_occupied a - 1).
    rewrite <- (fmap_add_seqZ 1 1). rewrite <- list_fmap_compose.
    apply Forall_fmap_ext, Forall_seqZ. intros k Hk. simpl.
    change (event_at ((t + k) `mod` APM_MAX_EVENTS) a')
      with (event_at ((t + k) `mod` APM_MAX_EVENTS) a).
    f_equal. rewrite Ht'. unfold APM_MAX_EVENTS.
    rewrite Zplus_mod_idemp_l. f_equal. lia.
Qed.

Lemma count_kind_app k l1 l2 :
  count_kind k (l1 ++ l2) = count_kind k l1 + count_kind k l2.
Proof. induction l1 as [ | e l1 IH ]; simpl; lia. Qed.

Lemma count_kind_nonneg k l : 0 <= count_kind k l.
Proof. induction l as [ | e l IH ]; simpl; [ lia | destruct (k e); lia ]. Qed.

Lemma count_kind_drop_1 k l : count_kind k (drop 1 l) <= count_kind k l.
Proof. destruct l as [ | e l ]; simpl; [ lia | rewrite drop_0; destruct (k e); lia ]. Qed.

Lemma writable_le buf n : forall k, (writable buf k n <= n)%nat.
Proof.
  induction n as [ | n IH ]; intros k; cbn [writable]; [ lia | ].
  destruct (buf k); [ specialize (IH (S k)) | ]; lia.
Qed.

Lemma writable_ge buf m n : forall k,
  (m <= n)%nat -> (forall j, (k <= j < k + m)%nat -> buf j = true) ->
  (m <= writable buf k n)%nat.
Proof.
  revert m. induction n as [ | n IH ]; intros m k Hm Hb; cbn [writable]; [ lia | ].
  destruct m as [ | m ]; [ lia | ].
  rewrite (Hb k) by lia. specialize (IH m (S k)).
  assert (m <= writable buf (S k) n)%nat; [ | lia ].
  apply IH; [ lia | ]. intros j Hj. apply Hb. lia.
Qed.

Lemma writable_valid n k : writable valid_buf k n = n.
Proof.
  pose proof (writable_le valid_buf n k).
  pose proof (writable_ge valid_buf n n k (le_n n) (fun _ _ => eq_refl)). lia.
Qed.

(** The loop of [do_read] hands over the oldest events, as many as fit
    in the buffer and can be written; an event whose copy fails has left
    the queue all the same, and is not counted as read. *)
Lemma do_read_loop_spec buf n : forall k a,
  queue_wf a ->
  let '(fault, evs, a') := do_read_loop buf k n a in
  let g := writable buf k n in
  evs = take g (queue_contents a) /\
  queue_contents a'
  = drop (if bool_decide (g < n)%nat then S g else n) (queue_contents a) /\
  fault = bool_decide (k = 0%nat /\ g = 0%nat /\ (0 < n)%nat /\ queue_contents a <> []) /\
  queue_wf a' /\
  as_suspends_read a' = as_suspends_read a + count_kind is_suspend_event evs /\
  as_standbys_read a' = as_standbys_read a + count_kind is_standby_event evs /\
  as_suspends_pending a' = as_suspends_pending a /\
  as_standbys_pending a' = as_standbys_pending a /\
  as_self a' = as_self a /\ as_suser a' = as_suser a /\
  as_writer a' = as_writer a /\ as_reader a' = as_reader a.
Proof.
  induction n as [ | n IH ]; intros k a Hwf; cbn [do_read_loop writable].
  - cbv zeta. rewrite take_0, drop_0.
    rewrite (bool_decide_eq_false_2 (k = 0%nat /\ _)) by lia.
    simpl. repeat split; try done; try apply Hwf; lia.
  - destruct (queue_empty a) eqn:He.
    + apply queue_empty_occupied in He; [ | done ].
      assert (Hnil : queue_contents a = []).
      { apply nil_length_inv. rewrite length_queue_contents, He. done. }
      cbv zeta. rewrite Hnil, take_nil, drop_nil.
      rewrite (bool_decide_eq_false_2 (k = 0%nat /\ _)) by (by intros (_ & _ & _ & ?)).
      simpl. repeat split; try done; try apply Hwf; lia.
    + pose proof (queue_contents_pop a Hwf He) as Hpop.
      destruct (get_queued_event a) as [e a1].
      destruct Hpop as (Hwf1 & Hc & (Hself & Hsu & Hwr & Hrd & _ & _ & Hsr & Hbr) & Hsp & Hbp).
      destruct (buf k) eqn:Hbk.
      2: { cbv zeta. rewrite Hc, take_0.
           rewrite (bool_decide_eq_true_2 (0 < S n)%nat) by lia.
           cbn [drop]. rewrite drop_0.
           assert (Hf : bool_decide (k = 0%nat)
                        = bool_decide (k = 0%nat /\ 0%nat = 0%nat /\ (0 < S n)%nat
                                       /\ e :: queue_contents a1 <> [])).
           { apply bool_decide_ext. split; [ | by intros [? _] ].
             intros ->. repeat split; [ lia | done ]. }
           rewrite <- Hf. simpl. repeat split; try done; try apply Hwf1; lia. }
      set (a2 := match e with
                 | APM_SYS_SUSPEND | APM_USER_SUSPEND =>
                     set_as_suspends (as_suspends_pending a1) (as_suspends_read a1 + 1) a1
                 | APM_SYS_STANDBY | APM_USER_STANDBY =>
                     set_as_standbys (as_standbys_pending a1) (as_standbys_read a1 + 1) a1
                 | _ => a1
                 end).
      assert (H2 : queue_wf a2 /\ queue_contents a2 = queue_contents a1 /\
                   as_suspends_read a2
                     = as_suspends_read a1 + (if is_suspend_event e then 1 else 0) /\
                   as_standbys_read a2
                     = as_standbys_read a1 + (if is_standby_event e then 1 else 0) /\
                   as_suspends_pending a2 = as_suspends_pending a1 /\
                   as_standbys_pending a2 = as_standbys_pending a1 /\
                   as_self a2 = as_self a1 /\ as_suser a2 = as_suser a1 /\
                   as_writer a2 = as_writer a1 /\ as_reader a2 = as_reader a1).
      { subst a2.
        destruct e; (split; [ exact Hwf1 | split; [ reflexivity | ] ]);
          simpl; repeat split; lia. }
      destruct H2 as (Hwf2 & Hc2 & Hsr2 & Hbr2 & Hsp2 & Hbp2 & Hself2 & Hsu2 & Hwr2 & Hrd2).
      specialize (IH (S k) a2 Hwf2). fold a2.
      destruct (do_read_loop buf (S k) n a2) as [[fault evs] a3].
      cbv zeta in IH |- *.
      destruct IH as (-> & Hc3 & -> & Hwf3 & Hsr3 & Hbr3 & Hsp3 & Hbp3 & Hself3 & Hsu3 & Hwr3 & Hrd3).
      rewrite Hc. rewrite Hc2 in *.
      rewrite (bool_decide_eq_false_2 (S k = 0%nat /\ _)) by lia.
      rewrite (bool_decide_eq_false_2 (k = 0%nat /\ _)) by lia.
      assert (Hd : drop (if bool_decide (S (writable buf (S k) n) < S n)%nat
                         then S (S (writable buf (S k) n)) else S n)
                     (e :: queue_contents a1)
                   = drop (if bool_decide (writable buf (S k) n < n)%nat
                           then S (writable buf (S k) n) else n)
                       (queue_contents a1)).
      { destruct (decide (writable buf (S k) n < n)%nat).
        - by rewrite !bool_decide_eq_true_2 by lia.
        - by rewrite !bool_decide_eq_false_2 by lia. }
      rewrite Hd. cbn [take count_kind].
      repeat split; try done; try apply Hwf3; try congruence; simpl; lia.
Qed.

End event_queue.

(** ** Overflow of the event queue *)

Section overflow.

Lemma newest_snoc {A} (X : list A) (e : A) :
  (if bool_decide (length (newest 19 X) = 19%nat)
   then drop 1 (newest 19 X) else newest 19 X) ++ [e]
  = newest 19 (X ++ [e]).
Proof.
  unfold newest. rewrite length_drop, length_app. simpl.
  destruct (decide (length X < 19)%nat) as [Hlt | Hge].
  - rewrite bool_decide_eq_false_2 by lia.
    replace (length X - 19)%nat with 0%nat by lia.
    replace (length X + 1 - 19)%nat with 0%nat by lia. done.
  - rewrite bool_decide_eq_true_2 by lia.
    rewrite drop_drop, drop_app.
    replace (length X + 1 - 19 - length X)%nat with 0%nat by lia.
    simpl. do 2 f_equal. lia.
Qed.

Lemma queue_full_length a :
  queue_full a = bool_decide (length (queue_contents a) = 19%nat).
Proof.
  unfold queue_full. apply bool_decide_ext. rewrite length_queue_contents.
  pose proof (queue_occupied_bounds a). unfold APM_MAX_EVENTS in *. lia.
Qed.

Lemma queue_events_single l : forall st a,
  user_list st = [a] -> queue_wf a -> as_reader a = true ->
  exists a',
    user_list (queue_events l st) = [a'] /\ queue_wf a' /\
    as_self a' = as_self a /\ as_reader a' = true /\
    (queue_contents a = [] ->
       queue_contents a' = newest 19 l /\
       notified (queue_events l st) = notified st + Z.of_nat (length l - 19)).
Proof.
  induction l as [ | e l IH ] using rev_ind; intros st a Hul Hwf Hrd.
  - exists a. simpl.
    split; [ done | split; [ done | split; [ done | split; [ done | ] ] ] ].
    intros ->. split; [ done | lia ].
  - destruct (IH st a Hul Hwf Hrd) as (a1 & Hul1 & Hwf1 & Hself1 & Hrd1 & Hc1).
    unfold queue_events in *. rewrite foldl_app. simpl.
    set (st1 := foldl (fun s e => queue_event e None s) st l) in *.
    assert (Hrc : receives None a1 = true) by (unfold receives; by rewrite Hrd1).
    assert (HF : Forall queue_wf (user_list st1)) by (rewrite Hul1; by constructor).
    destruct (queue_event_queued e None st1 HF) as (HF2 & _ & _ & Hn & _ & _).
    rewrite Hul1 in HF2, Hn.
    inversion HF2 as [ | ? a2 ? rest Hd Hnil Heq1 Heq2 ]; subst.
    inversion Hnil; subst. rewrite Hrc in Hd.
    destruct Hd as (Hwf2 & Hc2 & _ & _ & (Hself2 & _ & _ & Hrd2 & _)).
    exists a2.
    split; [ done | split; [ done | split; [ congruence | split; [ congruence | ] ] ] ].
    intros Hnil0. destruct (Hc1 Hnil0) as [Hc Hnot].
    split.
    + rewrite Hc2, queue_full_length, Hc. apply newest_snoc.
    + rewrite Hn. simpl. rewrite Hrc. simpl. rewrite queue_full_length, Hc.
      rewrite Hnot. unfold newest. rewrite length_drop, length_app. simpl.
      case_bool_decide; lia.
Qed.

(** The ring of [APM_MAX_EVENTS] = 20 slots holds at most 19 waiting
    events.  A client opens the device for reading, and 19 events or more
    are queued before it reads: it reads (into a buffer that can be
    written) exactly the newest 19, in the order they were queued, and
    [notified] has counted one overflow for every event beyond the 19th. *)
Theorem queue_overflow_keeps_newest st capable fmode_write nonblock l :
  user_list st = [] -> (19 <= length l)%nat ->
  let filp := brk st in
  let st1 := (do_open true capable true fmode_write st).2 in
  let st2 := queue_events l st1 in
  (do_read filp valid_buf (sizeof_event * APM_MAX_EVENTS) nonblock st2).1
    = ReadReturned (sizeof_event * (APM_MAX_EVENTS - 1)) (newest 19 l) /\
  notified st2 = notified st + Z.of_nat (length l - 19).
Proof.
  intros Hul Hlen filp st1 st2.
  set (a := Build_apm_user (brk st) capable fmode_write true false 0 0 0 0 0 0 0
              (replicate (Z.to_nat APM_MAX_EVENTS) (APM_EVENT 0))).
  assert (Hul1 : user_list st1 = [a]) by (subst st1; simpl; by rewrite Hul).
  assert (Hwf : queue_wf a) by (unfold queue_wf; simpl; repeat split; lia).
  destruct (queue_events_single l st1 a Hul1 Hwf eq_refl)
    as (a' & Hul2 & Hwf' & Hself & Hrd & Hc).
  destruct (Hc eq_refl) as [Hcont Hnot]. fold st2 in Hul2, Hnot.
  split; [ | exact Hnot ].
  assert (Hl19 : length (queue_contents a') = 19%nat).
  { rewrite Hcont. unfold newest. rewrite length_drop. lia. }
  assert (Hne : queue_empty a' = false).
  { destruct (queue_empty a') eqn:He; [ | done ].
    apply queue_empty_occupied in He; [ | done ].
    rewrite length_queue_contents, He in Hl19. done. }
  assert (Hlook : lookup_user filp st2 = Some a').
  { unfold lookup_user. rewrite Hul2. cbn [find].
    rewrite bool_decide_eq_true_2 by (rewrite Hself; done). done. }
  unfold do_read. rewrite Hlook, Hne.
  rewrite bool_decide_eq_false_2 by (unfold sizeof_event, APM_MAX_EVENTS; lia).
  replace (Z.to_nat ((sizeof_event * APM_MAX_EVENTS) `div` sizeof_event))
    with 20%nat by reflexivity.
  pose proof (do_read_loop_spec valid_buf 20 0 a' Hwf') as Hrl.
  destruct (do_read_loop valid_buf 0 20 a') as [[fault evs] a''].
  cbv zeta in Hrl. rewrite writable_valid in Hrl.
  destruct Hrl as (Hevs & _ & Hfault & _).
  rewrite bool_decide_eq_false_2 in Hfault by lia. subst fault. cbn [fst].
  rewrite take_ge in Hevs by lia. subst evs. rewrite Hl19, Hcont. done.
Qed.

End overflow.

(** ** Conservation of the pending counters *)

Section conservation.
Variable W : World.

Lemma apm_inv_same_clients st st' :
  same_clients st st' -> apm_inv st -> apm_inv st'.
Proof.
  intros (Hu & Hb & Hs & Hy) (H1 & H2 & H3 & H4 & H5).
  unfold apm_inv. rewrite Hu, Hb, Hs, Hy. done.
Qed.

Lemma apm_inv_wf st : apm_inv st -> Forall queue_wf (user_list st).
Proof.
  intros (_ & _ & _ & _ & Hok). eapply Forall_impl; [ exact Hok | ].
  intros a Ha. apply Ha.
Qed.

Lemma count_kind_push k e (full : bool) c :
  count_kind k ((if full then drop 1 c else c) ++ [e])
    <= count_kind k c + (if k e then 1 else 0).
Proof.
  rewrite count_kind_app. simpl.
  pose proof (count_kind_drop_1 k c). destruct full; lia.
Qed.

Lemma delivered_user_ok event a a' :
  user_ok a -> delivered event a a' -> user_ok a'.
Proof.
  intros (_ & Hs & Hb & Hp) (Hwf & Hc & Hs' & Hb' & (_ & Hsu & Hwr & _ & _ & _ & Hsr & Hbr)).
  unfold pending_delta in *.
  assert (Hpw : privileged_writer a' = privileged_writer a).
  { unfold privileged_writer. by rewrite Hsu, Hwr. }
  split; [ done | ]. rewrite Hpw.
  destruct (privileged_writer a) eqn:Epw; simpl in *.
  - destruct (Hp eq_refl) as (H1 & H2 & H3 & H4).
    pose proof (count_kind_push is_suspend_event event (queue_full a) (queue_contents a)).
    pose proof (count_kind_push is_standby_event event (queue_full a) (queue_contents a)).
    rewrite Hc, Hs', Hb', Hsr, Hbr.
    destruct (is_suspend_event event), (is_standby_event event);
      repeat split; intros; lia.
  - repeat split; try lia; done.
Qed.

Lemma queued_users event sender users users' :
  Forall2 (fun a a' => if receives sender a then delivered event a a' else a' = a)
    users users' ->
  as_self <$> users' = as_self <$> users /\
  sum_suspends_pending users'
    = sum_suspends_pending users
      + receivers_delta is_suspend_event event sender users /\
  sum_standbys_pending users'
    = sum_standbys_pending users
      + receivers_delta is_standby_event event sender users /\
  (Forall user_ok users -> Forall user_ok users').
Proof.
  induction 1 as [ | a a' users users' Ha HF (IH1 & IH2 & IH3 & IH4) ].
  { simpl. repeat split; try done; lia. }
  rewrite !fmap_cons.
  unfold sum_suspends_pending, sum_standbys_pending, receivers_delta in *.
  cbn [foldr].
  - destruct (receives sender a).
    + pose proof Ha as (_ & _ & Hs & Hb & (Hself & _)).
      rewrite Hself, IH1, IH2, IH3, Hs, Hb.
      repeat split; try done; try lia.
      intros [Hok Hoks]%Forall_cons. constructor; [ | auto ].
      by eapply delivered_user_ok.
    + subst a'. rewrite IH1, IH2, IH3.
      repeat split; try done; try lia.
      intros [Hok Hoks]%Forall_cons. constructor; auto.
Qed.

Lemma apm_inv_queue_event event sender st :
  apm_inv st -> apm_inv (queue_event event sender st).
Proof.
  intros Hinv. pose proof (apm_inv_wf _ Hinv) as Hwf.
  destruct (queue_event_queued event sender st Hwf)
    as (HF & Hs & Hb & _ & _ & (_ & Hbrk & _)).
  destruct (queued_users _ _ _ _ HF) as (Hself & Hss & Hsb & Hok).
  destruct Hinv as (H1 & H2 & H3 & H4 & H5).
  unfold apm_inv. rewrite Hs, Hb, Hss, Hsb, Hself, Hbrk, H1, H2.
  repeat split; try done; [ | by apply Hok ].
  intros a' Ha'.
  assert (Hin : as_self a' ∈ as_self <$> user_list (queue_event event sender st))
    by (by apply list_elem_of_fmap_2).
  rewrite Hself in Hin. apply list_elem_of_fmap in Hin as (a & -> & Ha). by apply H4.
Qed.


Lemma user_ok_set_as_suspend w r a : user_ok a -> user_ok (set_as_suspend w r a).
Proof. intros H. exact H. Qed.

Lemma sums_fmap_same (f : apm_user -> apm_user) l :
  (forall a, as_suspends_pending (f a) = as_suspends_pending a) ->
  (forall a, as_standbys_pending (f a) = as_standbys_pending a) ->
  sum_suspends_pending (f <$> l) = sum_suspends_pending l /\
  sum_standbys_pending (f <$> l) = sum_standbys_pending l.
Proof.
  intros Hs Hb. unfold sum_suspends_pending, sum_standbys_pending.
  induction l as [ | a l [IH1 IH2] ]; [ done | ].
  rewrite fmap_cons. cbn [foldr]. by rewrite IH1, IH2, Hs, Hb.
Qed.

Lemma apm_inv_map_suspend w r st :
  apm_inv st ->
  apm_inv (set_user_list (set_as_suspend w r <$> user_list st) st).
Proof.
  intros (H1 & H2 & H3 & H4 & H5). unfold apm_inv.
  cbn [set_user_list set_users user_list suspends_pending standbys_pending brk].
  destruct (sums_fmap_same (set_as_suspend w r) (user_list st)) as [Hs Hb]; [ done .. | ].
  assert (Hself : as_self <$> (set_as_suspend w r <$> user_list st)
                  = as_self <$> user_list st).
  { rewrite <- list_fmap_compose. by apply list_fmap_ext. }
  rewrite Hs, Hb, Hself. repeat split; try done.
  - intros a' (a & -> & Ha)%list_elem_of_fmap. exact (H4 a Ha).
  - apply Forall_fmap. eapply Forall_impl; [ exact H5 | ].
    intros a Ha. by apply user_ok_set_as_suspend.
Qed.

Lemma apm_inv_suspend_out err st : apm_inv st -> apm_inv (suspend_out err st).2.
Proof.
  intros Hinv. unfold suspend_out. cbn [snd].
  eapply apm_inv_same_clients; [ | by apply (apm_inv_map_suspend false err) ].
  repeat split.
Qed.

Lemma apm_inv_set_pm ds tr st : apm_inv st -> apm_inv (set_pm ds tr st).
Proof. apply apm_inv_same_clients. repeat split. Qed.

Lemma apm_inv_printk m st : apm_inv st -> apm_inv (printk m st).
Proof. apply apm_inv_same_clients. repeat split. Qed.

Lemma apm_inv_set_resume_flags w i st :
  apm_inv st -> apm_inv (set_resume_flags w i st).
Proof. apply apm_inv_same_clients. repeat split. Qed.

Lemma apm_inv_set_bounce l i st : apm_inv st -> apm_inv (set_bounce l i st).
Proof. apply apm_inv_same_clients. repeat split. Qed.

Lemma set_power_state_same_clients s st :
  same_clients st (set_power_state W s st).2.
Proof.
  unfold set_power_state. destruct (apm_bios_call_simple W (log st) s) as [[] eax];
    repeat split.
Qed.

Lemma apm_inv_set_power_state s st :
  apm_inv st -> apm_inv (set_power_state W s st).2.
Proof. apply apm_inv_same_clients, set_power_state_same_clients. Qed.

Lemma apm_inv_standby st : apm_inv st -> apm_inv (standby W st).
Proof.
  intros Hinv. unfold standby, apm_set_power_state.
  pose proof (apm_inv_set_power_state APM_STATE_STANDBY st Hinv) as H.
  destruct (set_power_state W APM_STATE_STANDBY st) as [err st1]. simpl in H.
  destruct (_ && _); [ by apply apm_inv_printk | done ].
Qed.

Lemma apm_inv_suspend vetoable st : apm_inv st -> apm_inv (suspend W vetoable st).2.
Proof.
  intros Hinv. unfold suspend, apm_set_power_state.
  destruct (pm_send_all W PM_SUSPEND 3 (devs st) (log st)) as [[status ds] tr].
  pose proof (apm_inv_set_pm ds tr st Hinv) as H1.
  destruct (bool_decide (status ≠ 0) && vetoable).
  - apply apm_inv_suspend_out. apply (apm_inv_printk MsgVetoed).
    unfold set_waiting_for_resume. apply apm_inv_set_resume_flags.
    destruct (bool_decide (256 < connection_version (set_pm ds tr st)));
      [ by apply apm_inv_set_power_state | done ].
  - set (st1 := if bool_decide (status ≠ 0)
                then printk MsgVetoedAnyway (set_pm ds tr st) else set_pm ds tr st).
    assert (H2 : apm_inv st1).
    { subst st1. destruct (bool_decide (status ≠ 0)); [ by apply apm_inv_printk | done ]. }
    pose proof (apm_inv_set_power_state APM_STATE_SUSPEND st1 H2) as H3.
    destruct (set_power_state W APM_STATE_SUSPEND st1) as [err st2]. simpl in H3.
    match goal with
    | |- context [pm_send_all W PM_RESUME 0 (devs ?s) (log ?s)] =>
        assert (H4 : apm_inv s)
          by (repeat (destruct (bool_decide _)); try done;
              (eapply apm_inv_same_clients; [ | exact H3 ]; repeat split));
        destruct (pm_send_all W PM_RESUME 0 (devs s) (log s)) as [[status' ds'] tr'];
        pose proof (apm_inv_set_pm ds' tr' s H4) as H5
    end.
    apply apm_inv_suspend_out. unfold set_ignore_normal_resume.
    apply apm_inv_set_resume_flags. by apply apm_inv_queue_event.
Qed.


Lemma apm_inv_check_event jiffies event st :
  apm_inv st -> apm_inv (check_event W jiffies event st).2.
Proof.
  intros Hinv. unfold check_event.
  set (st1 := if ignore_bounce st && _ then _ else st).
  assert (H1 : apm_inv st1).
  { subst st1. destruct (_ && _); [ by apply apm_inv_set_bounce | done ]. }
  clearbody st1. clear Hinv st.
  set (st2 := if ignore_normal_resume st1 && _ then _ else st1).
  assert (H2 : apm_inv st2).
  { subst st2. destruct (_ && _); [ by apply apm_inv_set_resume_flags | done ]. }
  clearbody st2. clear H1 st1.
  assert (Hrej : apm_inv (if bool_decide (256 < connection_version st2)
                          then (apm_set_power_state W APM_STATE_REJECT st2).2
                          else st2)).
  { destruct (bool_decide _); [ by apply apm_inv_set_power_state | done ]. }
  assert (Hsus : apm_inv
    (if ignore_bounce st2
     then (true, if bool_decide (256 < connection_version st2)
                 then (apm_set_power_state W APM_STATE_REJECT st2).2 else st2)
     else if waiting_for_resume st2 then (false, st2)
     else (true,
           if bool_decide
                (suspends_pending
                   (queue_event event None (set_waiting_for_resume true st2)) ≤ 0)
           then (suspend W true
                   (queue_event event None (set_waiting_for_resume true st2))).2
           else queue_event event None (set_waiting_for_resume true st2))).2).
  { destruct (ignore_bounce st2); [ done | ].
    destruct (waiting_for_resume st2); [ done | ]. cbn [snd].
    assert (Hq : apm_inv (queue_event event None (set_waiting_for_resume true st2)))
      by (by apply apm_inv_queue_event, apm_inv_set_resume_flags).
    destruct (bool_decide (suspends_pending _ ≤ 0)); [ by apply apm_inv_suspend | done ]. }
  destruct event; cbn [snd]; try done.
  - (* APM_SYS_STANDBY *)
    pose proof (apm_inv_queue_event APM_SYS_STANDBY None st2 H2) as Hq.
    destruct (bool_decide (standbys_pending _ ≤ 0)); [ by apply apm_inv_standby | done ].
  - (* APM_NORMAL_RESUME *)
    apply apm_inv_set_resume_flags.
    destruct (_ || _); [ | by apply apm_inv_set_bounce, apm_inv_set_resume_flags ].
    destruct (pm_send_all W PM_RESUME 0 _ _) as [[s ds] tr].
    by apply apm_inv_queue_event, apm_inv_set_pm, apm_inv_set_bounce,
      apm_inv_set_resume_flags.
  - (* APM_CRITICAL_RESUME *)
    apply apm_inv_set_resume_flags.
    destruct (_ || _); [ | by apply apm_inv_set_bounce, apm_inv_set_resume_flags ].
    destruct (pm_send_all W PM_RESUME 0 _ _) as [[s ds] tr].
    by apply apm_inv_queue_event, apm_inv_set_pm, apm_inv_set_bounce,
      apm_inv_set_resume_flags.
  - (* APM_LOW_BATTERY *) by apply apm_inv_queue_event.
  - (* APM_POWER_STATUS_CHANGE *) by apply apm_inv_queue_event.
  - (* APM_CRITICAL_SUSPEND *) by apply apm_inv_suspend.
  - (* APM_USER_STANDBY *)
    pose proof (apm_inv_queue_event APM_USER_STANDBY None st2 H2) as Hq.
    destruct (bool_decide (standbys_pending _ ≤ 0)); [ by apply apm_inv_standby | done ].
  - (* APM_USER_SUSPEND *)
    destruct (CONFIG_APM_IGNORE_USER_SUSPEND W); done.
  - (* APM_STANDBY_RESUME *)
    apply apm_inv_set_resume_flags.
    destruct (_ || _); [ | by apply apm_inv_set_bounce, apm_inv_set_resume_flags ].
    destruct (pm_send_all W PM_RESUME 0 _ _) as [[s ds] tr].
    by apply apm_inv_queue_event, apm_inv_set_pm, apm_inv_set_bounce,
      apm_inv_set_resume_flags.
  - (* APM_CAPABILITY_CHANGE *) by apply apm_inv_queue_event.
Qed.

Lemma apm_inv_check_events reported : forall st,
  apm_inv st -> apm_inv (check_events W reported st).
Proof.
  induction reported as [ | [jiffies event] rest IH ]; intros st Hinv; simpl; [ done | ].
  pose proof (apm_inv_check_event jiffies event st Hinv) as H.
  destruct (check_event W jiffies event st) as [[] st1]; simpl in H; auto.
Qed.


Lemma lookup_user_Some filp st a :
  lookup_user filp st = Some a -> a ∈ user_list st /\ as_self a = filp.
Proof.
  unfold lookup_user. intros [Hin Hb]%find_some.
  apply bool_decide_eq_true in Hb. by apply list_elem_of_In in Hin.
Qed.

(** Rewriting the one record with address [filp]. *)
Lemma update_users filp (f : apm_user -> apm_user) users a :
  NoDup (as_self <$> users) ->
  find (fun a => bool_decide (as_self a = filp)) users = Some a ->
  as_self (f a) = as_self a ->
  let users' := (fun x => if bool_decide (as_self x = filp) then f x else x) <$> users in
  as_self <$> users' = as_self <$> users /\
  sum_suspends_pending users'
    = sum_suspends_pending users - as_suspends_pending a + as_suspends_pending (f a) /\
  sum_standbys_pending users'
    = sum_standbys_pending users - as_standbys_pending a + as_standbys_pending (f a) /\
  (Forall user_ok users -> user_ok (f a) -> Forall user_ok users') /\
  find (fun a => bool_decide (as_self a = filp)) users' = Some (f a).
Proof.
  intros Hnd Hfind Hself. cbv zeta.
  unfold sum_suspends_pending, sum_standbys_pending.
  induction users as [ | x users IH ]; [ done | ].
  rewrite !fmap_cons in *. apply NoDup_cons in Hnd as [Hx Hnd].
  cbn [foldr find] in *. case_bool_decide as Hxf.
  - injection Hfind as ->.
    assert (Hid : (fun x => if bool_decide (as_self x = filp) then f x else x) <$> users
                  = users).
    { rewrite <- (list_fmap_id users) at 2. apply list_fmap_ext.
      intros i y Hy. rewrite bool_decide_eq_false_2; [ done | ].
      intros Hyf. apply Hx. apply list_elem_of_fmap. exists y. split; [ congruence | ].
      by eapply list_elem_of_lookup_2. }
    rewrite Hid, Hself. rewrite bool_decide_eq_true_2 by congruence.
    repeat split; try done; try lia.
    intros [_ Hoks]%Forall_cons Hok. by constructor.
  - destruct (IH Hnd Hfind) as (IH1 & IH2 & IH3 & IH4 & IH5).
    rewrite IH1, IH2, IH3. rewrite bool_decide_eq_false_2 by done.
    repeat split; try done; try lia.
    intros [Hok Hoks]%Forall_cons Hfa. constructor; auto.
Qed.

Lemma apm_inv_update_user filp f st a s y :
  apm_inv st -> lookup_user filp st = Some a ->
  as_self (f a) = as_self a -> user_ok (f a) ->
  s - suspends_pending st = as_suspends_pending (f a) - as_suspends_pending a ->
  y - standbys_pending st = as_standbys_pending (f a) - as_standbys_pending a ->
  apm_inv (set_pending s y (update_user filp f st)).
Proof.
  intros (H1 & H2 & H3 & H4 & H5) Hl Hself Hok Hs Hy.
  destruct (update_users filp f (user_list st) a H3 Hl Hself)
    as (U1 & U2 & U3 & U4 & _).
  unfold apm_inv, update_user.
  cbn [set_pending set_user_list set_users user_list suspends_pending
       standbys_pending brk].
  rewrite U1, U2, U3. repeat split; try done; try lia; [ | by apply U4 ].
  intros a' Ha'.
  assert (Hin : as_self a' ∈ as_self <$> user_list st).
  { rewrite <- U1. by apply list_elem_of_fmap_2. }
  apply list_elem_of_fmap in Hin as (a0 & -> & Ha0). by apply H4.
Qed.

Lemma set_pending_same st : set_pending (suspends_pending st) (standbys_pending st) st = st.
Proof. by destruct st. Qed.

Lemma apm_inv_update_user_same filp f st a :
  apm_inv st -> lookup_user filp st = Some a ->
  as_self (f a) = as_self a -> user_ok (f a) ->
  as_suspends_pending (f a) = as_suspends_pending a ->
  as_standbys_pending (f a) = as_standbys_pending a ->
  apm_inv (update_user filp f st).
Proof.
  intros Hinv Hl Hself Hok Hs Hy.
  rewrite <- (set_pending_same (update_user filp f st)).
  eapply apm_inv_update_user; try done; simpl; lia.
Qed.


Lemma apm_inv_user_ok st filp a :
  apm_inv st -> lookup_user filp st = Some a -> user_ok a.
Proof.
  intros (_ & _ & _ & _ & Hok) [Hin _]%lookup_user_Some.
  by eapply Forall_forall in Hok.
Qed.

Lemma user_ok_answer_suspend a :
  user_ok a -> privileged_writer a = true -> 0 < as_suspends_read a ->
  user_ok (set_as_suspends (as_suspends_pending a - 1) (as_suspends_read a - 1) a).
Proof.
  intros (Hwf & Hs & Hy & Hp) Hpw Hrd. destruct (Hp Hpw) as (R1 & R2 & R3 & R4).
  pose proof (count_kind_nonneg is_suspend_event (queue_contents a)).
  split; [ exact Hwf | ].
  change (queue_contents (set_as_suspends (as_suspends_pending a - 1)
            (as_suspends_read a - 1) a)) with (queue_contents a).
  cbn [as_suspends_pending as_standbys_pending as_suspends_read as_standbys_read
       set_as_suspends].
  repeat split; intros; lia.
Qed.

Lemma user_ok_answer_standby a :
  user_ok a -> privileged_writer a = true -> 0 < as_standbys_read a ->
  user_ok (set_as_standbys (as_standbys_pending a - 1) (as_standbys_read a - 1) a).
Proof.
  intros (Hwf & Hs & Hy & Hp) Hpw Hrd. destruct (Hp Hpw) as (R1 & R2 & R3 & R4).
  pose proof (count_kind_nonneg is_standby_event (queue_contents a)).
  split; [ exact Hwf | ].
  change (queue_contents (set_as_standbys (as_standbys_pending a - 1)
            (as_standbys_read a - 1) a)) with (queue_contents a).
  cbn [as_suspends_pending as_standbys_pending as_suspends_read as_standbys_read
       set_as_standbys].
  repeat split; intros; lia.
Qed.

(** The first step of [do_ioctl]: the answer is booked, or a request of
    the client's own is queued to the others. *)
Lemma apm_inv_acknowledge filp a st :
  apm_inv st -> lookup_user filp st = Some a -> privileged_writer a = true ->
  apm_inv
    (if bool_decide (0 < as_suspends_read a) then
       set_pending (suspends_pending (update_user filp
                      (set_as_suspends (as_suspends_pending a - 1)
                         (as_suspends_read a - 1)) st) - 1)
         (standbys_pending (update_user filp
                      (set_as_suspends (as_suspends_pending a - 1)
                         (as_suspends_read a - 1)) st))
         (update_user filp
            (set_as_suspends (as_suspends_pending a - 1) (as_suspends_read a - 1)) st)
     else queue_event APM_USER_SUSPEND (Some filp) st) /\
  apm_inv
    (if bool_decide (0 < as_standbys_read a) then
       set_pending (suspends_pending (update_user filp
                      (set_as_standbys (as_standbys_pending a - 1)
                         (as_standbys_read a - 1)) st))
         (standbys_pending (update_user filp
                      (set_as_standbys (as_standbys_pending a - 1)
                         (as_standbys_read a - 1)) st) - 1)
         (update_user filp
            (set_as_standbys (as_standbys_pending a - 1) (as_standbys_read a - 1)) st)
     else queue_event APM_USER_STANDBY (Some filp) st).
Proof.
  intros Hinv Hl Hpw.
  pose proof (apm_inv_user_ok _ _ _ Hinv Hl) as Hok.
  split; case_bool_decide as Hrd; try by apply apm_inv_queue_event.
  - eapply apm_inv_update_user; try done; try (simpl; lia).
    by apply user_ok_answer_suspend.
  - eapply apm_inv_update_user; try done; try (simpl; lia).
    by apply user_ok_answer_standby.
Qed.

Lemma update_user_none filp f st :
  lookup_user filp st = None -> user_list (update_user filp f st) = user_list st.
Proof.
  unfold lookup_user, update_user. cbn [set_user_list set_users user_list].
  induction (user_list st) as [ | x l IH ]; [ done | ].
  cbn [find]. rewrite fmap_cons. case_bool_decide; [ done | ].
  intros Hn. by rewrite IH.
Qed.

Lemma apm_inv_do_ioctl filp cmd st : apm_inv st -> apm_inv (do_ioctl W filp cmd st).2.
Proof.
  intros Hinv. unfold do_ioctl.
  destruct (lookup_user filp st) as [a | ] eqn:Hl; [ | by apply apm_inv_printk ].
  destruct (negb (as_suser a) || negb (as_writer a)) eqn:Hperm; [ done | ].
  assert (Hpw : privileged_writer a = true).
  { unfold privileged_writer. destruct (as_suser a), (as_writer a); done. }
  destruct (apm_inv_acknowledge filp a st Hinv Hl Hpw) as [Hsus Hsby].
  destruct cmd as [ | | c ]; [ | | done ].
  - cbn [snd]. destruct (bool_decide (standbys_pending _ ≤ 0));
      [ by apply apm_inv_standby | done ].
  - destruct (bool_decide (suspends_pending _ ≤ 0)).
    + pose proof (apm_inv_suspend true _ Hsus) as H'.
      destruct (suspend W true _) as [err st']. done.
    + cbn [snd].
      match goal with
      | |- apm_inv (update_user filp ?f ?s) =>
          destruct (lookup_user filp s) as [a' | ] eqn:Hl'
      end.
      * eapply apm_inv_update_user_same; try done.
        by apply (apm_inv_user_ok _ _ _ Hsus Hl').
      * eapply apm_inv_same_clients; [ | exact Hsus ].
        split; [ by apply update_user_none | repeat split ].
Qed.

Lemma count_kind_lost k (g n : nat) l :
  count_kind k (drop (if bool_decide (g < n)%nat then S g else n) l)
  <= count_kind k (drop (if bool_decide (g < n)%nat then g else n) l).
Proof.
  case_bool_decide; [ | lia ].
  replace (drop (S g) l) with (drop 1 (drop g l)) by (by rewrite drop_drop, Nat.add_1_r).
  apply count_kind_drop_1.
Qed.

Lemma apm_inv_do_read filp buf count nonblock st :
  apm_inv st -> apm_inv (do_read filp buf count nonblock st).2.
Proof.
  intros Hinv. unfold do_read.
  destruct (lookup_user filp st) as [a | ] eqn:Hl; [ | by apply apm_inv_printk ].
  case_bool_decide; [ done | ].
  destruct (queue_empty a); [ by destruct nonblock | ].
  pose proof (apm_inv_user_ok _ _ _ Hinv Hl) as (Hwf & Hs & Hy & Hp).
  set (n := Z.to_nat (count `div` sizeof_event)).
  pose proof (do_read_loop_spec buf n 0 a Hwf) as Hrl.
  destruct (do_read_loop buf 0 n a) as [[fault evs] a'].
  cbv zeta in Hrl. set (g := writable buf 0 n) in Hrl.
  destruct Hrl as (Hevs & Hc & _ & Hwf' & Hsr & Hbr & Hsp & Hbp & Hself & Hsu & Hwr & _).
  assert (Hinv' : apm_inv (update_user filp (fun _ => a') st)).
  { eapply apm_inv_update_user_same; try done.
    split; [ done | ]. rewrite Hsp, Hbp. split; [ done | split; [ done | ] ].
    unfold privileged_writer. rewrite Hsu, Hwr. intros Hpw.
    destruct (Hp Hpw) as (R1 & R2 & R3 & R4).
    assert (Hg : (g <= n)%nat) by apply writable_le.
    set (j := if bool_decide (g < n)%nat then g else n).
    assert (Hj : take g (queue_contents a) = take j (queue_contents a)).
    { subst j. case_bool_decide; [ done | ]. f_equal. lia. }
    rewrite <- (take_drop j (queue_contents a)) in R2, R4.
    rewrite count_kind_app, <- Hj, <- Hevs in R2, R4.
    pose proof (count_kind_lost is_suspend_event g n (queue_contents a)) as L1.
    pose proof (count_kind_lost is_standby_event g n (queue_contents a)) as L2.
    fold j in L1, L2. rewrite <- Hc in L1, L2.
    pose proof (count_kind_nonneg is_suspend_event evs).
    pose proof (count_kind_nonneg is_standby_event evs).
    rewrite Hsr, Hbr. repeat split; lia. }
  by destruct fault.
Qed.


(** *** Leaving: [do_release] *)

Lemma quiet_refl st : quiet st st.
Proof.
  repeat split. apply Forall2_same_length_lookup_2; [ done | ].
  intros i a a' Ha Ha'. assert (a' = a) as -> by congruence. done.
Qed.

Lemma quiet_trans st1 st2 st3 : quiet st1 st2 -> quiet st2 st3 -> quiet st1 st3.
Proof.
  intros (A1 & A2 & A3 & A4) (B1 & B2 & B3 & B4).
  split; [ congruence | split; [ congruence | split; [ congruence | ] ] ].
  revert B4. generalize (user_list st3). clear -A4.
  induction A4 as [ | a b l k Hab HF IH ]; intros m Hm.
  - inversion Hm. constructor.
  - inversion Hm as [ | ? c ? n Hbc Hkn ]; subst.
    constructor; [ | by apply IH ].
    destruct Hab as (X1 & X2 & X3 & X4 & X5). destruct Hbc as (Y1 & Y2 & Y3 & Y4 & Y5).
    split; [ congruence | split; [ congruence | split; [ congruence | ] ] ].
    split; intros Hq; [ apply Y4, X4, Hq | apply Y5, X5, Hq ].
Qed.

Lemma same_clients_quiet st st' : same_clients st st' -> quiet st st'.
Proof.
  intros (Hu & Hb & Hs & Hy). destruct (quiet_refl st) as (_ & _ & _ & HF).
  unfold quiet. rewrite Hu. done.
Qed.

Lemma books_quiet ds dy st st' : books ds dy st -> quiet st st' -> books ds dy st'.
Proof.
  intros (H1 & H2 & H3 & H4 & H5) (Q1 & Q2 & Q3 & Q4).
  assert (Hsum : sum_suspends_pending (user_list st') = sum_suspends_pending (user_list st)
                 /\ sum_standbys_pending (user_list st') = sum_standbys_pending (user_list st)
                 /\ as_self <$> user_list st' = as_self <$> user_list st
                 /\ Forall user_ok (user_list st')).
  { clear -Q4 H5. unfold sum_suspends_pending, sum_standbys_pending.
    induction Q4 as [ | a a' l l' (E1 & E2 & E3 & _ & E4) HF IH ]; [ done | ].
    apply Forall_cons in H5 as [Hok Hoks].
    destruct (IH Hoks) as (I1 & I2 & I3 & I4).
    rewrite !fmap_cons. cbn [foldr]. rewrite I1, I2, I3, E1, E2, E3.
    repeat split; try done. constructor; auto. }
  destruct Hsum as (S1 & S2 & S3 & S4).
  unfold books. rewrite Q1, Q2, Q3, S1, S2, S3.
  repeat split; try done.
  intros a' Ha'.
  assert (Hin : as_self a' ∈ as_self <$> user_list st).
  { rewrite <- S3. by apply list_elem_of_fmap_2. }
  apply list_elem_of_fmap in Hin as (a0 & -> & Ha0). by apply H4.
Qed.

Lemma quiet_lookup filp st st' a :
  quiet st st' -> lookup_user filp st = Some a ->
  exists a', lookup_user filp st' = Some a' /\
             as_suspends_pending a' = as_suspends_pending a /\
             as_standbys_pending a' = as_standbys_pending a.
Proof.
  intros (_ & _ & _ & HF). unfold lookup_user.
  induction HF as [ | x x' l l' (E1 & E2 & E3 & _) HF IH ]; [ done | ].
  cbn [find]. rewrite E1. case_bool_decide.
  - intros [= ->]. eauto.
  - apply IH.
Qed.

Lemma quiet_wf st st' :
  quiet st st' -> Forall queue_wf (user_list st) -> Forall queue_wf (user_list st').
Proof.
  intros (_ & _ & _ & HF) Hwf.
  induction HF as [ | x x' l l' (_ & _ & _ & E & _) HF IH ]; [ done | ].
  apply Forall_cons in Hwf as [Hx Hl]. constructor; auto.
Qed.

Lemma queue_event_quiet event sender st :
  Forall queue_wf (user_list st) ->
  is_suspend_event event = false -> is_standby_event event = false ->
  quiet st (queue_event event sender st).
Proof.
  intros Hwf Hs Hy.
  destruct (queue_event_queued event sender st Hwf)
    as (HF & Hsp & Hyp & _ & _ & (_ & Hbrk & _)).
  assert (Hd : forall k us, k event = false -> receivers_delta k event sender us = 0).
  { intros k us Hk. unfold receivers_delta, pending_delta. rewrite Hk.
    induction us as [ | a us IH ]; [ done | ]. cbn [foldr]. rewrite IH.
    rewrite andb_false_r. by destruct (receives sender a). }
  rewrite (Hd _ _ Hs) in Hsp. rewrite (Hd _ _ Hy) in Hyp.
  split; [ lia | split; [ lia | split; [ done | ] ] ].
  eapply Forall2_impl; [ exact HF | ].
  intros a a'. cbv beta. destruct (receives sender a); intros Ha;
    [ | subst; split; [ done | split; [ done | split; [ done | by split ] ] ] ].
  pose proof Ha as (Hwf' & _ & Hsa & Hya & (Hself & _)).
  unfold pending_delta in Hsa, Hya. rewrite Hs, andb_false_r in Hsa.
  rewrite Hy, andb_false_r in Hya.
  split; [ done | split; [ lia | split; [ lia | split; [ done | ] ] ] ].
  intros Hok. by eapply delivered_user_ok.
Qed.

Lemma suspend_out_quiet err st : quiet st (suspend_out err st).2.
Proof.
  unfold suspend_out. cbn [snd].
  repeat split. cbn. apply Forall2_fmap_r.
  apply Forall2_same_length_lookup_2; [ done | ].
  intros i a a' Ha Ha'. assert (a' = a) as -> by congruence. done.
Qed.

Lemma set_power_state_quiet s st : quiet st (set_power_state W s st).2.
Proof. apply same_clients_quiet, set_power_state_same_clients. Qed.

Lemma standby_quiet st : quiet st (standby W st).
Proof.
  unfold standby, apm_set_power_state.
  pose proof (set_power_state_quiet APM_STATE_STANDBY st) as H.
  destruct (set_power_state W APM_STATE_STANDBY st) as [err st1]. simpl in H.
  destruct (_ && _); [ | done ].
  eapply quiet_trans; [ exact H | ]. apply same_clients_quiet. repeat split.
Qed.

Lemma suspend_quiet vetoable st :
  Forall queue_wf (user_list st) -> quiet st (suspend W vetoable st).2.
Proof.
  intros Hwf. unfold suspend, apm_set_power_state.
  destruct (pm_send_all W PM_SUSPEND 3 (devs st) (log st)) as [[status ds] tr].
  assert (Q1 : quiet st (set_pm ds tr st)) by (apply same_clients_quiet; repeat split).
  destruct (bool_decide (status ≠ 0) && vetoable).
  - eapply quiet_trans; [ | apply suspend_out_quiet ].
    eapply quiet_trans; [ | apply same_clients_quiet; repeat split ].
    destruct (bool_decide (256 < connection_version (set_pm ds tr st))); [ | done ].
    eapply quiet_trans; [ exact Q1 | apply set_power_state_quiet ].
  - set (st1 := if bool_decide (status ≠ 0)
                then printk MsgVetoedAnyway (set_pm ds tr st) else set_pm ds tr st).
    assert (Q2 : quiet st st1).
    { subst st1. destruct (bool_decide (status ≠ 0)); [ | done ].
      eapply quiet_trans; [ exact Q1 | apply same_clients_quiet; repeat split ]. }
    pose proof (set_power_state_quiet APM_STATE_SUSPEND st1) as Q3.
    destruct (set_power_state W APM_STATE_SUSPEND st1) as [err st2]. simpl in Q3.
    match goal with
    | |- context [pm_send_all W PM_RESUME 0 (devs ?s) (log ?s)] =>
        assert (Q4 : quiet st2 s)
          by (repeat (destruct (bool_decide _)); try apply quiet_refl;
              apply same_clients_quiet; repeat split);
        destruct (pm_send_all W PM_RESUME 0 (devs s) (log s)) as [[status' ds'] tr'];
        assert (Q5 : quiet s (set_pm ds' tr' s))
          by (apply same_clients_quiet; repeat split)
    end.
    eapply quiet_trans; [ | apply suspend_out_quiet ].
    eapply quiet_trans; [ | apply same_clients_quiet; repeat split ].
    assert (Q6 : quiet st (set_pm ds' tr'
        (if bool_decide ((if bool_decide (err = APM_NO_ERROR) then APM_SUCCESS else err)
                         ≠ APM_SUCCESS)
         then printk (MsgSuspendError
                 (if bool_decide (err = APM_NO_ERROR) then APM_SUCCESS else err)) st2
         else st2))).
    { eapply quiet_trans; [ exact Q2 | ]. eapply quiet_trans; [ exact Q3 | ].
      eapply quiet_trans; [ exact Q4 | exact Q5 ]. }
    eapply quiet_trans; [ exact Q6 | ].
    apply queue_event_quiet; [ | done | done ].
    by eapply quiet_wf.
Qed.


Lemma unlink_users filp users a :
  NoDup (as_self <$> users) ->
  find (fun a => bool_decide (as_self a = filp)) users = Some a ->
  sum_suspends_pending (unlink filp users)
    = sum_suspends_pending users - as_suspends_pending a /\
  sum_standbys_pending (unlink filp users)
    = sum_standbys_pending users - as_standbys_pending a /\
  unlink filp users `sublist_of` users.
Proof.
  unfold sum_suspends_pending, sum_standbys_pending.
  induction users as [ | x users IH ]; [ done | ].
  rewrite fmap_cons. intros [Hx Hnd]%NoDup_cons. cbn [find unlink foldr].
  case_bool_decide.
  - intros [= ->]. repeat split; try lia. by apply sublist_cons.
  - intros Hf. destruct (IH Hnd Hf) as (I1 & I2 & I3). cbn [foldr].
    rewrite I1, I2. repeat split; try lia. by apply sublist_skip.
Qed.

Lemma books_set_pending s y ds dy st :
  books ds dy st ->
  books (ds + (suspends_pending st - s)) (dy + (standbys_pending st - y))
    (set_pending s y st).
Proof.
  intros (H1 & H2 & H3 & H4 & H5). unfold books.
  cbn [set_pending suspends_pending standbys_pending user_list brk].
  repeat split; try done; lia.
Qed.

Lemma books_wf ds dy st : books ds dy st -> Forall queue_wf (user_list st).
Proof.
  intros (_ & _ & _ & _ & Hok). eapply Forall_impl; [ exact Hok | ].
  intros a Ha. apply Ha.
Qed.

Lemma apm_inv_books st : apm_inv st <-> books 0 0 st.
Proof. unfold apm_inv, books. rewrite !Z.add_0_r. done. Qed.

Lemma do_release_books filp st a :
  apm_inv st -> lookup_user filp st = Some a ->
  apm_inv (do_release W filp st).2 /\
  suspends_pending (do_release W filp st).2
    = suspends_pending st - as_suspends_pending a /\
  standbys_pending (do_release W filp st).2
    = standbys_pending st - as_standbys_pending a.
Proof.
  intros Hinv Hl. unfold do_release. rewrite Hl.
  pose proof (apm_inv_user_ok _ _ _ Hinv Hl) as (_ & Hs & Hy & _).
  apply apm_inv_books in Hinv.
  set (sy := as_standbys_pending a) in *. set (ss := as_suspends_pending a) in *.
  (* the standby counter *)
  set (st1 := if bool_decide (0 < sy) then _ else st).
  assert (H1 : books 0 sy st1 /\ quiet (set_pending (suspends_pending st)
                                          (standbys_pending st - sy) st) st1).
  { subst st1. case_bool_decide as Hpos.
    - pose proof (books_set_pending (suspends_pending st) (standbys_pending st - sy)
                    0 0 st Hinv) as Hb.
      replace (0 + (suspends_pending st - suspends_pending st)) with 0 in Hb by lia.
      replace (0 + (standbys_pending st - (standbys_pending st - sy))) with sy in Hb by lia.
      destruct (bool_decide (standbys_pending _ ≤ 0)).
      + split; [ eapply books_quiet; [ exact Hb | apply standby_quiet ]
               | apply standby_quiet ].
      + split; [ done | apply quiet_refl ].
    - assert (sy = 0) as -> by lia. split; [ done | ].
      apply same_clients_quiet. repeat split; simpl; lia. }
  destruct H1 as [B1 Q1]. clearbody st1.
  (* the suspend counter *)
  set (st2 := if bool_decide (0 < ss) then _ else st1).
  assert (H2 : books ss sy st2 /\ quiet (set_pending (suspends_pending st1 - ss)
                                           (standbys_pending st1) st1) st2).
  { subst st2. case_bool_decide as Hpos.
    - pose proof (books_set_pending (suspends_pending st1 - ss) (standbys_pending st1)
                    0 sy st1 B1) as Hb.
      replace (0 + (suspends_pending st1 - (suspends_pending st1 - ss))) with ss in Hb by lia.
      replace (sy + (standbys_pending st1 - standbys_pending st1)) with sy in Hb by lia.
      destruct (bool_decide (suspends_pending _ ≤ 0)).
      + pose proof (suspend_quiet true _ (books_wf _ _ _ Hb)) as Q.
        split; [ by eapply books_quiet | done ].
      + split; [ done | apply quiet_refl ].
    - assert (ss = 0) as -> by lia. split; [ done | ].
      apply same_clients_quiet. repeat split; simpl; lia. }
  destruct H2 as [B2 Q2]. clearbody st2. cbn [snd].
  (* the client is still there, with the counters it had *)
  assert (Hl2 : exists a2, lookup_user filp st2 = Some a2 /\
                  as_suspends_pending a2 = ss /\ as_standbys_pending a2 = sy).
  { destruct (quiet_lookup filp _ st1 a Q1 Hl) as (a1 & Hl1 & Hs1 & Hy1).
    destruct (quiet_lookup filp _ st2 a1 Q2 Hl1) as (a2 & Hl2 & Hs2 & Hy2).
    exists a2. split; [ done | ]. rewrite Hs2, Hs1, Hy2, Hy1. done. }
  destruct Hl2 as (a2 & Hl2 & Hs2 & Hy2).
  destruct Q1 as (Q1s & Q1y & _). destruct Q2 as (Q2s & Q2y & _).
  cbn [set_pending suspends_pending standbys_pending] in Q1s, Q1y, Q2s, Q2y.
  split; [ | cbn [set_user_list set_users suspends_pending standbys_pending];
             split; lia ].
  destruct B2 as (C1 & C2 & C3 & C4 & C5).
  destruct (unlink_users filp (user_list st2) a2 C3 Hl2) as (U1 & U2 & U3).
  unfold apm_inv. cbn [set_user_list set_users user_list suspends_pending
                       standbys_pending brk].
  rewrite U1, U2, Hs2, Hy2. repeat split; try lia.
  - eapply sublist_NoDup; [ exact C3 | by apply fmap_sublist ].
  - intros x Hx. apply C4. by apply (sublist_subseteq _ _ U3).
  - apply Forall_forall. intros x Hx.
    apply (proj1 (Forall_forall _ _) C5). by apply (sublist_subseteq _ _ U3).
Qed.

Lemma apm_inv_do_release filp st :
  apm_inv st -> apm_inv (do_release W filp st).2.
Proof.
  intros Hinv. destruct (lookup_user filp st) as [a | ] eqn:Hl.
  - by destruct (do_release_books filp st a Hinv Hl).
  - unfold do_release. rewrite Hl. by apply apm_inv_printk.
Qed.

Lemma apm_inv_do_open ok cap r w st : apm_inv st -> apm_inv (do_open ok cap r w st).2.
Proof.
  intros Hinv. unfold do_open. destruct ok; [ | by apply apm_inv_printk ].
  destruct Hinv as (H1 & H2 & H3 & H4 & H5). unfold apm_inv.
  cbn [snd set_users user_list suspends_pending standbys_pending brk].
  unfold sum_suspends_pending, sum_standbys_pending in *. rewrite fmap_cons.
  cbn [foldr as_suspends_pending as_standbys_pending as_self].
  repeat split; try lia.
  - apply NoDup_cons. split; [ | done ].
    intros (a & Ha & Hin)%list_elem_of_fmap. apply H4 in Hin. lia.
  - intros a [-> | Ha]%elem_of_cons; [ simpl; lia | ].
    apply H4 in Ha. lia.
  - constructor; [ | done ]. unfold user_ok, queue_wf. simpl.
    repeat split; try lia; intros; done || lia.
Qed.

Lemma apm_inv_step st op : apm_inv st -> apm_inv (apm_step W st op).
Proof.
  intros Hinv. destruct op; simpl.
  - by apply apm_inv_do_open.
  - by apply apm_inv_do_release.
  - by apply apm_inv_do_read.
  - by apply apm_inv_do_ioctl.
  - by apply apm_inv_check_events.
  - by apply apm_inv_queue_event.
  - by apply apm_inv_set_pm.
Qed.

Lemma apm_inv_run ops : forall st, apm_inv st -> apm_inv (apm_run W ops st).
Proof.
  unfold apm_run. induction ops as [ | op ops IH ]; intros st Hinv; simpl; [ done | ].
  by apply IH, apm_inv_step.
Qed.

Lemma apm_inv_boot ds bounce version : apm_inv (apm_boot ds bounce version).
Proof.
  unfold apm_inv, apm_boot. simpl. repeat split; try done.
  - constructor.
  - intros a Ha. by apply not_elem_of_nil in Ha.
Qed.


(** C2.  In every state the device reaches from boot through opens,
    releases, reads, ioctls, BIOS events, queued events and changes of the
    device list, each global pending counter is the sum of the clients'
    counters; and releasing a client takes exactly its counters off the
    global ones, after which the sums agree again. *)
Theorem pending_counters_conserved ds bounce version ops :
  let st := apm_run W ops (apm_boot ds bounce version) in
  suspends_pending st = sum_suspends_pending (user_list st) /\
  standbys_pending st = sum_standbys_pending (user_list st) /\
  forall filp a, lookup_user filp st = Some a ->
    let st' := (do_release W filp st).2 in
    suspends_pending st' = suspends_pending st - as_suspends_pending a /\
    standbys_pending st' = standbys_pending st - as_standbys_pending a /\
    suspends_pending st' = sum_suspends_pending (user_list st') /\
    standbys_pending st' = sum_standbys_pending (user_list st').
Proof.
  intros st.
  assert (Hinv : apm_inv st) by apply apm_inv_run, apm_inv_boot.
  split; [ apply Hinv | split; [ apply Hinv | ] ].
  intros filp a Hl st'.
  destruct (do_release_books filp st a Hinv Hl) as (Hinv' & Hs & Hy).
  repeat split; try done; apply Hinv'.
Qed.

End conservation.

(** ** Suspending *)

Section suspending.
Variable W : World.

Lemma set_power_state_log s st :
  log (set_power_state W s st).2 = EvSetPowerState s :: log st /\
  devs (set_power_state W s st).2 = devs st /\
  user_list (set_power_state W s st).2 = user_list st /\
  same_machine st (set_power_state W s st).2 /\
  same_clients st (set_power_state W s st).2 /\
  notified (set_power_state W s st).2 = notified st.
Proof.
  unfold set_power_state.
  destruct (apm_bios_call_simple W (log st) s) as [[] eax]; repeat split.
Qed.

(** [suspend(1)] when a device vetoes: nothing but the rejection is told
    to the BIOS, and every client is handed [-EBUSY]. *)
Lemma suspend_vetoed st status ds tr :
  pm_send_all W PM_SUSPEND 3 (devs st) (log st) = (status, ds, tr) ->
  status <> 0 ->
  let st' := (suspend W true st).2 in
  (suspend W true st).1 = - EBUSY /\
  devs st' = ds /\
  log st' = EvPrintk MsgVetoed
              :: (if bool_decide (256 < connection_version st)
                  then [EvSetPowerState APM_STATE_REJECT] else []) ++ tr /\
  user_list st' = set_as_suspend false (- EBUSY) <$> user_list st /\
  waiting_for_resume st' = false /\ ignore_normal_resume st' = true /\
  suspends_pending st' = suspends_pending st /\
  standbys_pending st' = standbys_pending st.
Proof.
  intros Hall Hne. unfold suspend. rewrite Hall.
  rewrite bool_decide_eq_true_2 by done. cbn [andb].
  unfold suspend_out, apm_set_power_state. cbn [fst snd].
  change (connection_version (set_pm ds tr st)) with (connection_version st).
  destruct (bool_decide (256 < connection_version st)).
  - destruct (set_power_state_log APM_STATE_REJECT (set_pm ds tr st))
      as (Hl & Hd & Hu & _ & (_ & _ & Hs & Hy) & _).
    cbn. rewrite Hl, Hd, Hu, Hs, Hy. repeat split.
  - repeat split.
Qed.



Lemma only_messages_refl tr : only_messages tr tr.
Proof. by exists []. Qed.

Lemma only_messages_printk m tr : only_messages tr (EvPrintk m :: tr).
Proof. by exists [EvPrintk m]. Qed.

Lemma only_messages_trans tr1 tr2 tr3 :
  only_messages tr1 tr2 -> only_messages tr2 tr3 -> only_messages tr1 tr3.
Proof.
  intros (m1 & -> & C1 & B1) (m2 & -> & C2 & B2). exists (m2 ++ m1).
  rewrite <- app_assoc. unfold callbacks, bios_calls in *.
  rewrite !omap_app, C1, C2, B1, B2. done.
Qed.

Lemma pm_send_all_resume data ds tr status ds' tr' :
  pm_send_all W PM_RESUME data ds tr = (status, ds', tr') ->
  broadcast_outcome data status ds ds'.
Proof.
  intros Hall. unfold pm_send_all in Hall.
  destruct (pm_send_all_from_spec W _ _ _ _ _ _ _ _ (or_intror eq_refl) Hall) as [H0 H1].
  split.
  - intros Hz. destruct (H0 Hz) as (todo' & -> & HF). done.
  - intros Hnz.
    destruct (H1 Hnz) as (pre & d & post & pre_sent & f & tr_d & -> & HF & Hf & Hd & _
                          & [(? & _) | (_ & ->)]); [ done | ].
    exists pre, d, post, pre_sent. rewrite app_nil_r, list.reverse_involutive.
    repeat split; try done. congruence.
Qed.

(** [suspend] when no veto stops it: the BIOS is asked to suspend, and
    whatever it answers the devices are sent [PM_RESUME], [APM_NORMAL_RESUME]
    is queued and the next [APM_NORMAL_RESUME] is to be ignored. *)
Lemma suspend_proceeds vetoable st status ds tr :
  Forall queue_wf (user_list st) ->
  pm_send_all W PM_SUSPEND 3 (devs st) (log st) = (status, ds, tr) ->
  status = 0 \/ vetoable = false ->
  let st' := (suspend W vetoable st).2 in
  exists tr_b status' tr',
    only_messages
      (EvSetPowerState APM_STATE_SUSPEND
         :: (if bool_decide (status ≠ 0) then [EvPrintk MsgVetoedAnyway] else []) ++ tr)
      tr_b /\
    pm_send_all W PM_RESUME 0 ds tr_b = (status', devs st', tr') /\
    only_messages tr' (log st') /\
    Forall2 (notified_of APM_NORMAL_RESUME) (user_list st) (user_list st') /\
    ignore_normal_resume st' = true /\
    suspends_pending st' = suspends_pending st /\
    standbys_pending st' = standbys_pending st.
Proof.
  intros Hwf Hall Hgo st'. subst st'. unfold suspend. rewrite Hall.
  assert (Hc : bool_decide (status ≠ 0) && vetoable = false).
  { destruct Hgo as [-> | ->]; [ done | by rewrite andb_false_r ]. }
  rewrite Hc. unfold apm_set_power_state.
  set (st1 := if bool_decide (status ≠ 0)
              then printk MsgVetoedAnyway (set_pm ds tr st) else set_pm ds tr st).
  assert (H1 : log st1 = (if bool_decide (status ≠ 0)
                          then [EvPrintk MsgVetoedAnyway] else []) ++ tr
               /\ devs st1 = ds /\ user_list st1 = user_list st
               /\ suspends_pending st1 = suspends_pending st
               /\ standbys_pending st1 = standbys_pending st).
  { subst st1. destruct (bool_decide (status ≠ 0)); repeat split. }
  destruct H1 as (L1 & D1 & U1 & S1 & Y1). clearbody st1.
  destruct (set_power_state_log APM_STATE_SUSPEND st1)
    as (L2 & D2 & U2 & _ & (_ & _ & S2 & Y2) & _).
  destruct (set_power_state W APM_STATE_SUSPEND st1) as [err st2].
  cbn [snd] in L2, D2, U2, S2, Y2.
  set (e := if bool_decide (err = APM_NO_ERROR) then APM_SUCCESS else err).
  set (st3 := if bool_decide (e ≠ APM_SUCCESS) then printk (MsgSuspendError e) st2 else st2).
  assert (H3 : only_messages (log st2) (log st3) /\ devs st3 = ds
               /\ user_list st3 = user_list st
               /\ suspends_pending st3 = suspends_pending st
               /\ standbys_pending st3 = standbys_pending st).
  { subst st3. destruct (bool_decide (e ≠ APM_SUCCESS)).
    - split; [ apply only_messages_printk | ]. cbn. rewrite D2, D1, U2, U1, S2, Y2. done.
    - split; [ apply only_messages_refl | ]. rewrite D2, D1, U2, U1, S2, Y2. done. }
  destruct H3 as (M3 & D3 & U3 & S3 & Y3). clearbody st3.
  rewrite D3.
  destruct (pm_send_all W PM_RESUME 0 ds (log st3)) as [[status' ds'] tr'] eqn:Hres.
  exists (log st3), status', tr'.
  assert (Hwf3 : Forall queue_wf (user_list (set_pm ds' tr' st3))).
  { change (user_list (set_pm ds' tr' st3)) with (user_list st3). by rewrite U3. }
  destruct (queue_event_queued APM_NORMAL_RESUME None _ Hwf3)
    as (HF & Hs & Hy & _ & Hmsg & (Hd & _)).
  set (st4 := queue_event APM_NORMAL_RESUME None (set_pm ds' tr' st3)) in *.
  assert (Hd0 : forall k us, k APM_NORMAL_RESUME = false ->
                  receivers_delta k APM_NORMAL_RESUME None us = 0).
  { intros k us Hk. unfold receivers_delta, pending_delta. rewrite Hk.
    induction us as [ | a us IH ]; [ done | ]. cbn [foldr]. rewrite IH.
    rewrite andb_false_r. by destruct (receives None a). }
  rewrite Hd0 in Hs, Hy by done.
  unfold suspend_out. cbn [snd set_resume_flags set_ignore_normal_resume set_user_list
    set_users devs log user_list ignore_normal_resume suspends_pending standbys_pending].
  split; [ by rewrite <- L1, <- L2 | ].
  split; [ by rewrite Hd | ].
  split; [ exact Hmsg | ].
  split; [ | split; [ done | split; [ cbn in Hs; lia | cbn in Hy; lia ] ] ].
  apply Forall2_fmap_r.
  change (user_list (set_pm ds' tr' st3)) with (user_list st3) in HF.
  rewrite U3 in HF. eapply Forall2_impl; [ exact HF | ].
  intros a a'. cbv beta. unfold receives, notified_of. simpl negb. simpl andb.
  change (queue_contents (set_as_suspend false _ a')) with (queue_contents a').
  destruct (as_reader a); [ intros (_ & Hq & _); exact Hq | by intros -> ].
Qed.

End suspending.

(** ** Events reported by the BIOS *)

Section bios_events.
Variable W : World.





(** An echo of the resume [suspend] announced itself is swallowed: no
    device is asked, and no client is told. *)
Lemma check_event_echo jiffies st :
  ignore_normal_resume st = true ->
  let r := check_event W jiffies APM_NORMAL_RESUME st in
  r.1 = true /\ devs r.2 = devs st /\ log r.2 = log st /\
  user_list r.2 = user_list st /\ ignore_normal_resume r.2 = false /\
  suspends_pending r.2 = suspends_pending st /\
  standbys_pending r.2 = standbys_pending st.
Proof.
  intros Hi. unfold check_event.
  set (st1 := if ignore_bounce st && _ then _ else st).
  assert (H1 : devs st1 = devs st /\ log st1 = log st /\ user_list st1 = user_list st
               /\ ignore_normal_resume st1 = true
               /\ suspends_pending st1 = suspends_pending st
               /\ standbys_pending st1 = standbys_pending st).
  { subst st1. destruct (_ && _); done. }
  destruct H1 as (D1 & L1 & U1 & I1 & S1 & Y1). clearbody st1.
  rewrite I1. rewrite bool_decide_eq_false_2 by (intros Hne; by apply Hne).
  cbn. rewrite I1. cbn. done.
Qed.

End bios_events.

(** ** What the functions add to the trace *)

Section traces.
Variable W : World.

Lemma only_callbacks_refl tr : only_callbacks tr tr.
Proof. split; done. Qed.

Lemma only_callbacks_trans tr1 tr2 tr3 :
  only_callbacks tr1 tr2 -> only_callbacks tr2 tr3 -> only_callbacks tr1 tr3.
Proof. intros [S1 B1] [S2 B2]. split; [ by etrans | congruence ]. Qed.

Lemma invoke_only_callbacks dev rqst data tr :
  only_callbacks tr (invoke W dev rqst data tr).2.
Proof.
  unfold invoke. destruct (callback dev); [ | apply only_callbacks_refl ].
  split; [ by apply suffix_cons_r | done ].
Qed.

Lemma pm_send_only_callbacks dev rqst data tr :
  only_callbacks tr (pm_send W dev rqst data tr).2.
Proof.
  unfold pm_send.
  pose proof (invoke_only_callbacks dev rqst data tr) as H.
  destruct (invoke W dev rqst data tr) as [s t]. cbn [snd] in H.
  destruct rqst; repeat case_decide; try done; apply only_callbacks_refl.
Qed.

Lemma pm_undo_all_only_callbacks before : forall tr,
  only_callbacks tr (pm_undo_all W before tr).2.
Proof.
  induction before as [ | p before IH ]; intros tr; simpl.
  - apply only_callbacks_refl.
  - case_decide.
    + pose proof (pm_send_only_callbacks p
        (if decide (prev_state p ≠ 0) then PM_SUSPEND else PM_RESUME)
        (prev_state p) tr) as H1.
      destruct (pm_send W p _ (prev_state p) tr) as [[s q] t]. cbn [snd] in H1.
      pose proof (IH t) as H2. destruct (pm_undo_all W before t) as [more t'].
      by eapply only_callbacks_trans.
    + pose proof (IH tr) as H2. destruct (pm_undo_all W before tr) as [more t']. done.
Qed.

Lemma pm_send_all_from_only_callbacks rqst data todo : forall before tr,
  only_callbacks tr (pm_send_all_from W rqst data before todo tr).2.
Proof.
  induction todo as [ | p todo IH ]; intros before tr; simpl.
  - apply only_callbacks_refl.
  - destruct (callback p); [ | apply IH ].
    pose proof (pm_send_only_callbacks p rqst data tr) as H1.
    destruct (pm_send W p rqst data tr) as [[s q] t]. cbn [snd] in H1.
    case_decide.
    + case_decide.
      * pose proof (pm_undo_all_only_callbacks before t) as H2.
        destruct (pm_undo_all W before t) as [b' t']. by eapply only_callbacks_trans.
      * done.
    + eapply only_callbacks_trans; [ exact H1 | apply IH ].
Qed.

Lemma pm_send_all_only_callbacks rqst data ds tr :
  only_callbacks tr (pm_send_all W rqst data ds tr).2.
Proof. apply pm_send_all_from_only_callbacks. Qed.

Lemma queue_event_user_log event sender a st :
  only_messages (log st) (log (queue_event_user event sender a st).2).
Proof.
  unfold queue_event_user.
  destruct (bool_decide (sender = Some (as_self a)) || negb (as_reader a));
    [ apply only_messages_refl | ].
  cbn [as_event_head as_event_tail as_events set_as_queue].
  destruct (bool_decide (_ = as_event_tail a));
    destruct (bool_decide (notified st = 0));
    cbn [as_suser as_writer set_as_queue];
    destruct (negb (as_suser a) || negb (as_writer a));
    try (destruct event); cbn;
    first [ apply only_messages_refl | apply only_messages_printk ].
Qed.

Lemma queue_event_loop_log event sender users : forall st,
  only_messages (log st) (log (queue_event_loop event sender users st).2).
Proof.
  induction users as [ | a users IH ]; intros st; simpl.
  - apply only_messages_refl.
  - pose proof (queue_event_user_log event sender a st) as H1.
    destruct (queue_event_user event sender a st) as [a1 st1].
    pose proof (IH st1) as H2.
    destruct (queue_event_loop event sender users st1) as [rest st2].
    by eapply only_messages_trans.
Qed.

Lemma queue_event_log event sender st :
  only_messages (log st) (log (queue_event event sender st)).
Proof.
  unfold queue_event.
  pose proof (queue_event_loop_log event sender (user_list st) st) as H.
  destruct (queue_event_loop event sender (user_list st) st) as [users st']. done.
Qed.

Lemma only_messages_suffix tr tr' : only_messages tr tr' -> tr `suffix_of` tr'.
Proof. intros (m & -> & _). by apply suffix_app_r. Qed.

(** [suspend(0)], and [suspend(1)] without a veto, ask the BIOS to
    suspend right after the broadcast. *)
Lemma suspend_asks_bios vetoable st status ds tr :
  pm_send_all W PM_SUSPEND 3 (devs st) (log st) = (status, ds, tr) ->
  status = 0 \/ vetoable = false ->
  (EvSetPowerState APM_STATE_SUSPEND
     :: (if bool_decide (status ≠ 0) then [EvPrintk MsgVetoedAnyway] else []) ++ tr)
    `suffix_of` log (suspend W vetoable st).2.
Proof.
  intros Hall Hgo. unfold suspend. rewrite Hall.
  assert (Hc : bool_decide (status ≠ 0) && vetoable = false).
  { destruct Hgo as [-> | ->]; [ done | by rewrite andb_false_r ]. }
  rewrite Hc. unfold apm_set_power_state.
  set (st1 := if bool_decide (status ≠ 0)
              then printk MsgVetoedAnyway (set_pm ds tr st) else set_pm ds tr st).
  assert (L1 : log st1 = (if bool_decide (status ≠ 0)
                          then [EvPrintk MsgVetoedAnyway] else []) ++ tr).
  { subst st1. by destruct (bool_decide (status ≠ 0)). }
  clearbody st1. rewrite <- L1.
  destruct (set_power_state_log W APM_STATE_SUSPEND st1) as (L2 & _).
  destruct (set_power_state W APM_STATE_SUSPEND st1) as [err st2].
  cbn [snd] in L2. rewrite <- L2.
  set (e := if bool_decide (err = APM_NO_ERROR) then APM_SUCCESS else err).
  set (st3 := if bool_decide (e ≠ APM_SUCCESS) then printk (MsgSuspendError e) st2 else st2).
  assert (L3 : log st2 `suffix_of` log st3).
  { subst st3. destruct (bool_decide (e ≠ APM_SUCCESS)); [ by apply suffix_cons_r | done ]. }
  clearbody st3.
  pose proof (pm_send_all_only_callbacks PM_RESUME 0 (devs st3) (log st3)) as [L4 _].
  destruct (pm_send_all W PM_RESUME 0 (devs st3) (log st3)) as [[status' ds'] tr'].
  cbn [snd] in L4.
  pose proof (only_messages_suffix _ _
                (queue_event_log APM_NORMAL_RESUME None (set_pm ds' tr' st3))) as L5.
  change (log (set_pm ds' tr' st3)) with tr' in L5.
  unfold suspend_out. cbn [snd]. cbn [set_resume_flags set_ignore_normal_resume
    set_user_list set_users log].
  etrans; [ exact L3 | ]. etrans; [ exact L4 | exact L5 ].
Qed.

End traces.

(** * The claims about apm.c *)

Section apm_claims.
Variable W : World.

Lemma lookup_update_user filp f st a :
  lookup_user filp st = Some a -> as_self (f a) = as_self a ->
  lookup_user filp (update_user filp f st) = Some (f a).
Proof.
  unfold lookup_user, update_user. cbn [set_user_list set_users user_list].
  intros Hl Hself. induction (user_list st) as [ | x l IH ]; [ done | ].
  rewrite fmap_cons. cbn [find] in *. case_bool_decide as Hx.
  - injection Hl as ->. rewrite bool_decide_eq_true_2 by congruence. done.
  - rewrite bool_decide_eq_false_2 by done. by apply IH.
Qed.



(** C6, as the code has it.  Where [pm_send_all(PM_SUSPEND, 3)] takes the
    devices and the trace of [st]:
    - [APM_CRITICAL_SUSPEND] runs that broadcast, whatever the pending
      counters are, and then asks the BIOS to suspend, veto or no veto; a
      veto leaves only a message in between;
    - a veto of [suspend(1)] ends it with [-EBUSY], for the caller and in
      every client's [suspend_result]: the devices are as the broadcast
      left them, and the BIOS is told nothing but [APM_STATE_REJECT], and
      that only when the connection version is above 0x100. *)
Theorem critical_suspend_ignores_veto jiffies st :
  let '(status, ds, tr) := pm_send_all W PM_SUSPEND 3 (devs st) (log st) in
  (EvSetPowerState APM_STATE_SUSPEND
     :: (if bool_decide (status ≠ 0) then [EvPrintk MsgVetoedAnyway] else []) ++ tr)
    `suffix_of` log (check_event W jiffies APM_CRITICAL_SUSPEND st).2 /\
  (status <> 0 ->
     (suspend W true st).1 = - EBUSY /\
     devs (suspend W true st).2 = ds /\
     log (suspend W true st).2
       = EvPrintk MsgVetoed
           :: (if bool_decide (256 < connection_version st)
               then [EvSetPowerState APM_STATE_REJECT] else []) ++ tr /\
     bios_calls (log (suspend W true st).2)
       = (if bool_decide (256 < connection_version st)
          then [APM_STATE_REJECT] else []) ++ bios_calls (log st) /\
     Forall (fun a => as_suspend_wait a = false /\ as_suspend_result a = - EBUSY)
       (user_list (suspend W true st).2)).
Proof.
  destruct (pm_send_all W PM_SUSPEND 3 (devs st) (log st)) as [[status ds] tr] eqn:Hall.
  split.
  - unfold check_event.
    set (st1 := if ignore_bounce st && _ then _ else st).
    assert (H1 : devs st1 = devs st /\ log st1 = log st).
    { subst st1. by destruct (_ && _). }
    destruct H1 as [D1 L1]. clearbody st1.
    set (st2 := if ignore_normal_resume st1 && _ then _ else st1).
    assert (H2 : devs st2 = devs st /\ log st2 = log st).
    { subst st2. by destruct (_ && _). }
    destruct H2 as [D2 L2]. clearbody st2. cbn [snd].
    apply (suspend_asks_bios W false st2 status ds tr); [ | by right ].
    by rewrite D2, L2.
  - intros Hne.
    destruct (suspend_vetoed W st status ds tr Hall Hne)
      as (E & D & L & U & _).
    split; [ done | split; [ done | split; [ done | split ] ] ].
    + rewrite L.
      pose proof (pm_send_all_only_callbacks W PM_SUSPEND 3 (devs st) (log st)) as [_ B].
      rewrite Hall in B. cbn [snd] in B.
      transitivity (bios_calls ((if bool_decide (256 < connection_version st)
                                 then [EvSetPowerState APM_STATE_REJECT] else []) ++ tr));
        [ reflexivity | ].
      unfold bios_calls in *. rewrite omap_app, B.
      by destruct (bool_decide (256 < connection_version st)).
    + rewrite U. apply Forall_fmap, Forall_true. intros a. done.
Qed.



(** C8, as the code has it.  [queue_event] puts the event in the queue of
    every client that reads the device and is not the sender (dropping
    the oldest event of a queue that is full), and leaves every other
    client as it was.  Among the clients that got the event, those opened
    by a privileged user for writing have their pending counter of the
    event's kind raised by one, and the global counter rises by their
    number; nothing else of a client changes, and of the rest of the state
    only [notified] and the messages printed. *)
Theorem queue_event_broadcast event sender st :
  Forall queue_wf (user_list st) ->
  queued event sender (user_list st) st
    (user_list (queue_event event sender st)) (queue_event event sender st).
Proof. apply queue_event_queued. Qed.

(** C10, as the code has it.  A suspend that no veto stopped (a critical
    one, or one no device refused): once the BIOS call is back, whatever
    its outcome, [pm_send_all(PM_RESUME, 0)] is run on the devices as the
    suspend broadcast left them.  It sends [PM_RESUME] down the list as far
    as the first device that refuses it; the devices behind that one are
    not asked.  Then [APM_NORMAL_RESUME] is queued to every client that
    reads the device, and an [APM_NORMAL_RESUME] the BIOS reports as its
    very next event is swallowed: no device is asked again and no client
    is told again. *)
Theorem suspend_resumes vetoable st status ds tr :
  Forall queue_wf (user_list st) ->
  pm_send_all W PM_SUSPEND 3 (devs st) (log st) = (status, ds, tr) ->
  status = 0 \/ vetoable = false ->
  let st' := (suspend W vetoable st).2 in
  (exists tr_b status' tr',
     only_messages
       (EvSetPowerState APM_STATE_SUSPEND
          :: (if bool_decide (status ≠ 0) then [EvPrintk MsgVetoedAnyway] else [])
          ++ tr) tr_b /\
     pm_send_all W PM_RESUME 0 ds tr_b = (status', devs st', tr') /\
     broadcast_outcome 0 status' ds (devs st') /\
     only_messages tr' (log st')) /\
  Forall2 (notified_of APM_NORMAL_RESUME) (user_list st) (user_list st') /\
  forall jiffies,
    let st'' := (check_event W jiffies APM_NORMAL_RESUME st').2 in
    devs st'' = devs st' /\ log st'' = log st' /\ user_list st'' = user_list st'.
Proof.
  intros Hwf Hall Hgo st'.
  destruct (suspend_proceeds W vetoable st status ds tr Hwf Hall Hgo)
    as (tr_b & status' & tr' & M1 & Hres & M2 & HF & Hi & _).
  fold st' in Hres, M2, HF, Hi.
  split; [ | split; [ done | ] ].
  - exists tr_b, status', tr'. repeat split; try done;
      apply (pm_send_all_resume W _ _ _ _ _ _ Hres).
  - intros jiffies st''.
    destruct (check_event_echo W jiffies st' Hi) as (_ & D & L & U & _).
    done.
Qed.

End apm_claims.

(** * Sample runs *)

(** C1 fails as stated.  First list: device 0 accepts the suspend, device
    1 vetoes it, and device 0 refuses the [PM_RESUME] of the rollback: it
    stays in state 3.  Second list: the only device has no callback; the
    broadcast succeeds and the device is still in state 0. *)
Lemma pm_send_all_not_restored :
  pm_send_all sample_world PM_SUSPEND 3
    [sample_dev 0 (Some 2%nat) 0; sample_dev 1 (Some 1%nat) 0] []
  = (-16,
     [Build_pm_dev 0 0 0 (Some 2%nat) 3 0; sample_dev 1 (Some 1%nat) 0],
     [EvCallback 0 PM_RESUME 0; EvCallback 1 PM_SUSPEND 3; EvCallback 0 PM_SUSPEND 3])
  /\ pm_send_all sample_world PM_SUSPEND 3 [sample_dev 0 None 0] []
     = (0, [sample_dev 0 None 0], []).
Proof. split; reflexivity. Qed.

(** C3 at 21 events.  A client opens the device for reading, and the BIOS
    reports 21 events before the client reads.  The queue overflows at the
    20th event already; after the 21st the client reads the newest 19
    events, not the newest 20, and [notified] stands at 2, not at 1. *)
Lemma queue_overflow_at_20 :
  let st0 := (do_open true true true true (apm_boot [] 300 258)).2 in
  let reported l := (fun e => (0, e)) <$> l in
  let st20 := check_events sample_world (reported (take 20 sample_events)) st0 in
  let st21 := check_events sample_world (reported sample_events) st0 in
  length sample_events = 21%nat
  /\ notified st20 = 1
  /\ (do_read 0 valid_buf (sizeof_event * APM_MAX_EVENTS) true st20).1
     = ReadReturned 38 (APM_CAPABILITY_CHANGE :: replicate 18 APM_POWER_STATUS_CHANGE)
  /\ notified st21 = 2
  /\ (do_read 0 valid_buf (sizeof_event * APM_MAX_EVENTS) true st21).1
     = ReadReturned 38 (replicate 19 APM_POWER_STATUS_CHANGE)
  /\ st21 = queue_events sample_events st0.
Proof.
  cbv zeta. split; [ | split; [ | split; [ | split; [ | split ] ] ] ];
    vm_compute; reflexivity.
Qed.

(** C4 fails as stated: two devices are registered, handle 0 first; the
    registry is walked from handle 1 to handle 0. *)
Lemma pm_registry_newest_first :
  let s := pm_run [OpRegister true 0 0 (Some 0%nat); OpRegister true 0 1 (Some 0%nat)] in
  s.2 = [0%nat; 1%nat] /\ iteration_order s.1 = [1%nat; 0%nat].
Proof. split; reflexivity. Qed.

(** Two devices are registered and the older one is unregistered: the
    registry is walked over the newer one alone. *)
Lemma pm_registry_unregistered :
  let s := pm_run [OpRegister true 0 0 (Some 0%nat); OpRegister true 0 1 (Some 0%nat);
                   OpUnregister (Some 0%nat)] in
  s.2 = [0%nat; 1%nat] /\ iteration_order s.1 = [1%nat].
Proof. split; reflexivity. Qed.

(** C6 fails as stated: the only device vetoes a vetoable suspend, and
    the BIOS is called all the same, with [APM_STATE_REJECT]. *)
Lemma suspend_veto_calls_bios :
  let st := apm_boot [sample_dev 0 (Some 1%nat) 0] 300 258 in
  (suspend sample_world true st).1 = - EBUSY
  /\ bios_calls (log (suspend sample_world true st).2) = [APM_STATE_REJECT].
Proof. split; reflexivity. Qed.

(** C8 fails as stated: a client that opened the device for writing only
    is connected and is not the sender, and [queue_event] passes it by. *)
Lemma queue_event_skips_writer :
  let st := (do_open true true false true (apm_boot [] 300 258)).2 in
  queue_contents <$> user_list st = [[]]
  /\ queue_event APM_SYS_SUSPEND None st = st.
Proof. split; reflexivity. Qed.

(** C9 fails as stated.  A device whose callback refuses: [pm_send] twice
    with the same target calls it twice, and fails twice.  A device
    already in state 3: a request other than [PM_SUSPEND] and [PM_RESUME]
    for state 3 calls the callback. *)
Lemma pm_send_calls_again :
  let d := sample_dev 0 (Some 1%nat) 0 in
  pm_send sample_world d PM_SUSPEND 3 [] = (-16, d, [EvCallback 0 PM_SUSPEND 3])
  /\ pm_send sample_world d PM_SUSPEND 3 [EvCallback 0 PM_SUSPEND 3]
     = (-16, d, [EvCallback 0 PM_SUSPEND 3; EvCallback 0 PM_SUSPEND 3])
  /\ pm_send sample_world (sample_dev 0 (Some 1%nat) 3) (PM_REQUEST 2) 3 []
     = (-16, sample_dev 0 (Some 1%nat) 3, [EvCallback 0 (PM_REQUEST 2) 3]).
Proof. repeat split. Qed.

(** C10 fails as stated: both devices are suspended by a critical
    suspend; device 0 refuses the [PM_RESUME] that follows, and device 1
    is never sent one: it stays in state 3. *)
Lemma suspend_resume_stops_at_refusal :
  let st := apm_boot [sample_dev 0 (Some 2%nat) 0; sample_dev 1 (Some 0%nat) 0] 300 258 in
  callbacks (log (suspend sample_world false st).2)
    = [(0%nat, PM_RESUME, 0); (1%nat, PM_SUSPEND, 3); (0%nat, PM_SUSPEND, 3)]
  /\ state <$> devs (suspend sample_world false st).2 = [3; 3].
Proof. split; reflexivity. Qed.

(** The sample events queued to a fresh reader. *)
Lemma queue_overflow_witness :
  let st := apm_boot [] 300 258 in
  let l := sample_events in
  (user_list st = [] /\ (19 <= length l)%nat) /\
  (do_read (brk st) valid_buf (sizeof_event * APM_MAX_EVENTS) true
     (queue_events l (do_open true true true true st).2)).1
    = ReadReturned (sizeof_event * (APM_MAX_EVENTS - 1)) (newest 19 l) /\
  notified (queue_events l (do_open true true true true st).2)
    = notified st + Z.of_nat (length l - 19).
Proof.
  cbv zeta. split; [ split; [ reflexivity | vm_compute; lia ] | ].
  apply (queue_overflow_keeps_newest (apm_boot [] 300 258) true true true
           sample_events); [ reflexivity | vm_compute; lia ].
Defined.

(** [pm_send] twice on a device that accepts. *)
Lemma pm_send_idempotent_witness :
  let dev := sample_dev 0 (Some 0%nat) 0 in
  (PM_SUSPEND = PM_SUSPEND \/ PM_SUSPEND = PM_RESUME) /\
  (pm_send sample_world dev PM_SUSPEND 3 []).1.1 = 0 /\
  exists d1 t1 d2,
    pm_send sample_world dev PM_SUSPEND 3 [] = (0, d1, t1) /\
    (length (callbacks t1) <= S (length (callbacks [])))%nat /\
    pm_send sample_world d1 PM_SUSPEND 3 t1 = (0, d2, t1) /\
    state d2 = state d1 /\ state d1 = 3.
Proof.
  cbv zeta. split; [ by left | split; [ reflexivity | ] ].
  apply (pm_send_idempotent sample_world (sample_dev 0 (Some 0%nat) 0) PM_SUSPEND 3 []);
    [ by left | reflexivity ].
Defined.

(** The BIOS reports a standby request to the sample client. *)
Lemma queue_event_broadcast_witness :
  let st := sample_reader_state in
  Forall queue_wf (user_list st) /\
  queued APM_SYS_STANDBY None (user_list st) st
    (user_list (queue_event APM_SYS_STANDBY None st))
    (queue_event APM_SYS_STANDBY None st).
Proof.
  cbv zeta.
  assert (Hwf : Forall queue_wf (user_list sample_reader_state))
    by (apply (bool_decide_unpack _); vm_compute; exact I).
  split; [ exact Hwf | ].
  exact (queue_event_broadcast APM_SYS_STANDBY None sample_reader_state Hwf).
Defined.


(** The sample machine suspends, and no device refuses. *)
Lemma suspend_resumes_witness :
  let st := sample_reader_state in
  let r := pm_send_all sample_world PM_SUSPEND 3 (devs st) (log st) in
  let st' := (suspend sample_world true st).2 in
  (Forall queue_wf (user_list st) /\ r = (r.1.1, r.1.2, r.2)
   /\ (r.1.1 = 0 \/ true = false)) /\
  (exists tr_b status' tr',
     only_messages
       (EvSetPowerState APM_STATE_SUSPEND
          :: (if bool_decide (r.1.1 ≠ 0) then [EvPrintk MsgVetoedAnyway] else [])
          ++ r.2) tr_b /\
     pm_send_all sample_world PM_RESUME 0 r.1.2 tr_b = (status', devs st', tr') /\
     broadcast_outcome 0 status' r.1.2 (devs st') /\
     only_messages tr' (log st')) /\
  Forall2 (notified_of APM_NORMAL_RESUME) (user_list st) (user_list st') /\
  forall jiffies,
    let st'' := (check_event sample_world jiffies APM_NORMAL_RESUME st').2 in
    devs st'' = devs st' /\ log st'' = log st' /\ user_list st'' = user_list st'.
Proof.
  cbv zeta.
  assert (Hwf : Forall queue_wf (user_list sample_reader_state))
    by (apply (bool_decide_unpack _); vm_compute; exact I).
  assert (Hr : pm_send_all sample_world PM_SUSPEND 3 (devs sample_reader_state)
                 (log sample_reader_state)
               = ((pm_send_all sample_world PM_SUSPEND 3 (devs sample_reader_state)
                     (log sample_reader_state)).1.1,
                  (pm_send_all sample_world PM_SUSPEND 3 (devs sample_reader_state)
                     (log sample_reader_state)).1.2,
                  (pm_send_all sample_world PM_SUSPEND 3 (devs sample_reader_state)
                     (log sample_reader_state)).2))
    by (by destruct (pm_send_all _ _ _ _ _) as [[] ]).
  assert (Hgo : (pm_send_all sample_world PM_SUSPEND 3 (devs sample_reader_state)
                   (log sample_reader_state)).1.1 = 0 \/ true = false)
    by (left; reflexivity).
  split; [ by repeat split | ].
  exact (suspend_resumes sample_world true sample_reader_state _ _ _ Hwf Hr Hgo).
Defined.


(** A suspend broadcast that the second of two devices vetoes. *)
Lemma pm_send_all_veto_witness :
  let devs := [sample_dev 0 (Some 0%nat) 0; sample_dev 1 (Some 1%nat) 0] in
  let r := pm_send_all sample_world PM_SUSPEND 3 devs [] in
  r.1.1 = -16 /\
  exists pre d post f,
    devs = pre ++ d :: post /\
    callback d = Some f /\ state d <> 3 /\
    (forall pre1 p pre2 g,
       pre = pre1 ++ p :: pre2 -> callback p = Some g -> state p <> 3 ->
       call_callback sample_world g (suspend_calls 3 pre1 ++ []) p PM_SUSPEND 3 = 0) /\
    r.1.1 = call_callback sample_world f (suspend_calls 3 pre ++ []) d PM_SUSPEND 3 /\
    r.2 = undo_calls 3 pre
            ++ EvCallback (entry d) PM_SUSPEND 3 :: suspend_calls 3 pre ++ [] /\
    r.1.2 = rolled_back sample_world 3
              (EvCallback (entry d) PM_SUSPEND 3 :: suspend_calls 3 pre ++ []) pre
            ++ d :: post.
Proof.
  cbv zeta.
  pose proof (pm_send_all_veto sample_world 3
                [sample_dev 0 (Some 0%nat) 0; sample_dev 1 (Some 1%nat) 0] []) as H.
  destruct (pm_send_all sample_world PM_SUSPEND 3
              [sample_dev 0 (Some 0%nat) 0; sample_dev 1 (Some 1%nat) 0] [])
    as [[status ds] tr] eqn:E.
  cbn [fst snd].
  assert (Hs : status = -16) by (vm_compute in E; congruence).
  split; [ exact Hs | ].
  apply (proj1 H). rewrite Hs. discriminate.
Defined.

(** The only device vetoes: a critical suspend goes on to the BIOS, a
    vetoable one ends with [-EBUSY]. *)
Lemma critical_suspend_ignores_veto_witness :
  let st := apm_boot [sample_dev 0 (Some 1%nat) 0] 300 258 in
  let r := pm_send_all sample_world PM_SUSPEND 3 (devs st) (log st) in
  r.1.1 = -16 /\
  (EvSetPowerState APM_STATE_SUSPEND
     :: (if bool_decide (r.1.1 ≠ 0) then [EvPrintk MsgVetoedAnyway] else [])
     ++ r.2)
    `suffix_of` log (check_event sample_world 0 APM_CRITICAL_SUSPEND st).2 /\
  (suspend sample_world true st).1 = - EBUSY /\
  devs (suspend sample_world true st).2 = r.1.2 /\
  log (suspend sample_world true st).2
    = EvPrintk MsgVetoed
        :: (if bool_decide (256 < connection_version st)
            then [EvSetPowerState APM_STATE_REJECT] else []) ++ r.2 /\
  bios_calls (log (suspend sample_world true st).2)
    = (if bool_decide (256 < connection_version st)
       then [APM_STATE_REJECT] else []) ++ bios_calls (log st) /\
  Forall (fun a => as_suspend_wait a = false /\ as_suspend_result a = - EBUSY)
    (user_list (suspend sample_world true st).2).
Proof.
  cbv zeta.
  pose proof (critical_suspend_ignores_veto sample_world 0
                (apm_boot [sample_dev 0 (Some 1%nat) 0] 300 258)) as H.
  destruct (pm_send_all sample_world PM_SUSPEND 3
              (devs (apm_boot [sample_dev 0 (Some 1%nat) 0] 300 258))
              (log (apm_boot [sample_dev 0 (Some 1%nat) 0] 300 258)))
    as [[status ds] tr] eqn:E.
  cbn [fst snd].
  assert (Hs : status = -16) by (vm_compute in E; congruence).
  split; [ exact Hs | ].
  split; [ exact (proj1 H) | ].
  apply (proj2 H). rewrite Hs. discriminate.
Defined.

(** The sample client is released while its suspend event is unanswered. *)
Lemma pending_counters_witness :
  let st := sample_reader_state in
  exists a,
    lookup_user 0 st = Some a /\
    as_suspends_pending a = 1 /\
    suspends_pending st = 1 /\
    let st' := (do_release sample_world 0 st).2 in
    suspends_pending st' = suspends_pending st - as_suspends_pending a /\
    standbys_pending st' = standbys_pending st - as_standbys_pending a /\
    suspends_pending st' = sum_suspends_pending (user_list st') /\
    standbys_pending st' = sum_standbys_pending (user_list st').
Proof.
  cbv zeta.
  destruct (lookup_user 0 sample_reader_state) as [a | ] eqn:Hl;
    [ | vm_compute in Hl; discriminate Hl ].
  exists a. split; [ reflexivity | ].
  split; [ vm_compute in Hl; injection Hl as <-; reflexivity | ].
  split; [ reflexivity | ].
  exact (proj2 (proj2 (pending_counters_conserved sample_world
           [sample_dev 0 (Some 0%nat) 0; sample_dev 1 (Some 0%nat) 0] 300 258
           [OpOpen true true true true; OpCheckEvents [(0, APM_SYS_SUSPEND)];
            OpRead 0 valid_buf 2 true])) 0%nat a Hl).
Defined.

(** * Further properties of kernel/pm.c *)

Section pm_registry.

Lemma pm_run_fresh ops d :
  d ∈ pm_devs (pm_run ops).1 -> (entry d < pm_brk (pm_run ops).1)%nat.
Proof.
  intros Hd. destruct (pm_run_inv ops) as (Hnd & Hlt & Hord).
  apply Hlt. assert (He : entry d ∈ iteration_order (pm_run ops).1).
  { unfold iteration_order. apply list_elem_of_fmap. by exists d. }
  rewrite Hord in He. apply elem_of_reverse, list_elem_of_filter in He. apply He.
Qed.

Lemma pm_run_NoDup ops : NoDup (entry <$> pm_devs (pm_run ops).1).
Proof.
  destruct (pm_run_inv ops) as (Hnd & Hlt & Hord).
  unfold iteration_order in Hord. rewrite Hord.
  rewrite reverse_Permutation. by apply NoDup_filter.
Qed.

Lemma filter_all {A} (P : A -> Prop) `{!∀ x, Decision (P x)} (l : list A) :
  Forall P l -> filter P l = l.
Proof.
  induction 1 as [ | x l Hx _ IH ]; [ done | ].
  rewrite filter_cons_True by done. by rewrite IH.
Qed.

(** X1.  In a registry reached by any sequence of registrations and
    removals, [pm_register] hands out a fresh device that [pm_find] finds
    first for its type, and [pm_unregister] of that device gives back the
    device list as it was. *)
Theorem pm_register_unregister ops ty i cb :
  let st := (pm_run ops).1 in
  let r := pm_register true ty i cb st in
  r.1 = Some (pm_brk st) /\
  pm_find ty None r.2 = Some (Build_pm_dev (pm_brk st) ty i cb 0 0) /\
  pm_devs (pm_unregister r.1 r.2) = pm_devs st.
Proof.
  cbv zeta. unfold pm_register. cbn [fst snd]. split; [ done | split ].
  - unfold pm_find, list_add. cbn [pm_devs pm_find_from type].
    rewrite (bool_decide_true (ty = ty)) by done. by rewrite orb_true_r.
  - unfold pm_unregister, list_del, list_add. cbn [pm_devs].
    rewrite filter_cons_False by (cbn; intros H; by apply H).
    apply filter_all, Forall_forall. intros d Hd.
    apply pm_run_fresh in Hd. lia.
Qed.

End pm_registry.

Section pm_finding.

Lemma entries_after_split pre d rest :
  NoDup (entry <$> (pre ++ d :: rest)) ->
  entries_after (entry d) (pre ++ d :: rest) = rest.
Proof.
  induction pre as [ | p pre IH ]; intros Hnd.
  - cbn. by rewrite bool_decide_true.
  - cbn [app entries_after]. rewrite <- app_comm_cons, fmap_cons in Hnd.
    apply NoDup_cons in Hnd as [Hp Hnd].
    rewrite bool_decide_false; [ by apply IH | ].
    intros He. apply Hp. rewrite He. apply list_elem_of_fmap.
    exists d. split; [ done | ]. apply elem_of_app. right. by left.
Qed.

Lemma pm_find_from_spec ty l :
  (pm_find_from ty l = None /\ filter (fun d => pm_find_takes ty d = true) l = []) \/
  (exists r1 m r2,
      l = r1 ++ m :: r2 /\ pm_find_from ty l = Some m /\
      filter (fun d => pm_find_takes ty d = true) l
        = m :: filter (fun d => pm_find_takes ty d = true) r2).
Proof.
  induction l as [ | d l IH ]; [ by left | ].
  cbn [pm_find_from]. fold (pm_find_takes ty d).
  destruct (pm_find_takes ty d) eqn:Ht.
  - right. exists [], d, l. split; [ done | split; [ done | ] ].
    by rewrite filter_cons_True.
  - rewrite filter_cons_False by (rewrite Ht; done).
    destruct IH as [[H1 H2] | (r1 & m & r2 & -> & H1 & H2)]; [ by left | right ].
    by exists (d :: r1), m, r2.
Qed.

Lemma pm_find_all_after ty st :
  NoDup (entry <$> pm_devs st) ->
  forall fuel pre d rest,
    pm_devs st = pre ++ d :: rest -> (length rest <= fuel)%nat ->
    pm_find_all fuel ty (Some (entry d)) st
      = filter (fun d => pm_find_takes ty d = true) rest.
Proof.
  intros Hnd fuel. induction fuel as [ | n IH ]; intros pre d rest Hst Hlen.
  - destruct rest; [ done | cbn in Hlen; lia ].
  - cbn [pm_find_all]. unfold pm_find. rewrite Hst.
    rewrite entries_after_split by (by rewrite <- Hst).
    destruct (pm_find_from_spec ty rest)
      as [[-> ->] | (r1 & m & r2 & -> & -> & ->)]; [ done | ].
    f_equal. apply (IH (pre ++ d :: r1) m r2).
    + by rewrite Hst, <- app_assoc.
    + rewrite length_app in Hlen. cbn in Hlen. lia.
Qed.

(** X2.  In a registry reached by any sequence of registrations and
    removals, the loop [pm_find(type, NULL)], [pm_find(type, dev)], ...
    returns exactly the devices of that type, each once, in list order,
    and then NULL; for [PM_UNKNOWN_DEV] it returns every device.  As many
    calls as there are devices are enough. *)
Theorem pm_find_enumerates ops ty n :
  let st := (pm_run ops).1 in
  pm_find_all (length (pm_devs st) + n) ty None st
    = filter (fun d => pm_find_takes ty d = true) (pm_devs st)
  /\ (ty = PM_UNKNOWN_DEV ->
      filter (fun d => pm_find_takes ty d = true) (pm_devs st) = pm_devs st).
Proof.
  intros st. pose proof (pm_run_NoDup ops) as Hnd. fold st in Hnd. split.
  - destruct (length (pm_devs st) + n)%nat as [ | fuel ] eqn:Hf.
    + destruct (pm_devs st); [ done | cbn in Hf; lia ].
    + cbn [pm_find_all]. unfold pm_find.
      destruct (pm_find_from_spec ty (pm_devs st))
        as [[-> ->] | (r1 & m & r2 & Hst & -> & ->)]; [ done | ].
      f_equal. apply (pm_find_all_after ty st Hnd fuel r1 m r2 Hst).
      rewrite Hst, length_app in Hf. cbn in Hf. lia.
  - intros ->. apply filter_all, Forall_forall. intros d _.
    unfold pm_find_takes. by rewrite bool_decide_true.
Qed.

End pm_finding.

Section pm_broadcasts.
Variable W : World.

Lemma pm_send_trace dev rqst data tr :
  (pm_send W dev rqst data tr).2
  = if asked rqst data dev then EvCallback (entry dev) rqst data :: tr else tr.
Proof.
  unfold pm_send, asked, invoke.
  destruct rqst; destruct (callback dev) as [f | ]; cbn [andb];
    rewrite ?(bool_decide_true (Some _ ≠ None)) by done;
    rewrite ?(bool_decide_false (None ≠ None)) by (intros H; by apply H);
    cbn [andb]; repeat case_decide; repeat case_bool_decide; try done.
Qed.

Lemma pm_send_ident dev rqst data tr :
  pm_ident (pm_send W dev rqst data tr).1.2 = pm_ident dev.
Proof.
  destruct (pm_send W dev rqst data tr) as [[s dev'] tr'] eqn:Hs.
  apply pm_send_fields in Hs as [He Hc]. unfold pm_ident. cbn. by rewrite He, Hc.
Qed.

Lemma pm_undo_all_ident before tr :
  pm_ident <$> (pm_undo_all W before tr).1 = pm_ident <$> before.
Proof.
  destruct (pm_undo_all W before tr) as [before' tr'] eqn:Hu.
  apply pm_undo_all_undone in Hu. cbn [fst].
  induction Hu as [ | p q l l' (He & Hc & _) _ IH ]; [ done | ].
  rewrite !fmap_cons, IH. unfold pm_ident. by rewrite He, Hc.
Qed.

Lemma calls_one_of_ident ds ds' e :
  pm_ident <$> ds = pm_ident <$> ds' -> calls_one_of ds e -> calls_one_of ds' e.
Proof.
  intros Hi (d & r & x & -> & Hd & Hc).
  assert (Hin : pm_ident d ∈ pm_ident <$> ds') by (rewrite <- Hi; by apply list_elem_of_fmap_2).
  apply list_elem_of_fmap in Hin as (d' & Hid & Hd').
  injection Hid as He Hcb. exists d', r, x. rewrite <- He, <- Hcb. done.
Qed.

Lemma calls_one_of_mono ds ds' e :
  ds ⊆ ds' -> calls_one_of ds e -> calls_one_of ds' e.
Proof. intros Hs (d & r & x & -> & Hd & Hc). exists d, r, x. auto. Qed.

Lemma pm_send_calls dev rqst data tr :
  exists new, (pm_send W dev rqst data tr).2 = new ++ tr /\
              Forall (calls_one_of [dev]) new.
Proof.
  rewrite pm_send_trace. destruct (asked rqst data dev) eqn:Ha.
  - exists [EvCallback (entry dev) rqst data]. split; [ done | ].
    constructor; [ | done ]. exists dev, rqst, data.
    split; [ done | split; [ by left | ] ].
    unfold asked in Ha. apply andb_true_iff in Ha as [Ha _].
    by apply bool_decide_eq_true in Ha.
  - by exists [].
Qed.

Lemma pm_undo_all_calls before : forall tr,
  exists new, (pm_undo_all W before tr).2 = new ++ tr /\
              Forall (calls_one_of before) new.
Proof.
  induction before as [ | dev more IH ]; intros tr; [ by exists [] | ].
  cbn [pm_undo_all].
  set (r := if decide (state dev ≠ prev_state dev) then _ else (dev, tr)).
  assert (Hr : exists new, r.2 = new ++ tr /\ Forall (calls_one_of [dev]) new).
  { subst r. case_decide; [ | by exists [] ].
    destruct (pm_send_calls dev
                (if decide (prev_state dev ≠ 0) then PM_SUSPEND else PM_RESUME)
                (prev_state dev) tr) as (new & Hn & Hf).
    destruct (pm_send W dev _ (prev_state dev) tr) as [[s d'] t']. by exists new. }
  destruct r as [dev' tr1]. destruct Hr as (new1 & Hn1 & Hf1). cbn [snd] in Hn1.
  destruct (IH tr1) as (new2 & Hn2 & Hf2).
  destruct (pm_undo_all W more tr1) as [more' tr2]. cbn [snd] in *.
  exists (new2 ++ new1). split; [ by rewrite Hn2, Hn1, app_assoc | ].
  apply Forall_app. split.
  - eapply Forall_impl; [ exact Hf2 | ]. intros e. apply calls_one_of_mono. set_solver.
  - eapply Forall_impl; [ exact Hf1 | ]. intros e. apply calls_one_of_mono. set_solver.
Qed.

Lemma pm_send_all_where_noskip skip rqst data todo : forall before tr,
  Forall (fun d => skip d = false) todo ->
  pm_send_all_where W skip rqst data before todo tr
  = pm_send_all_from W rqst data before todo tr.
Proof.
  induction todo as [ | dev rest IH ]; intros before tr Hf; [ done | ].
  apply Forall_cons in Hf as [Hd Hf]. cbn [pm_send_all_where pm_send_all_from].
  rewrite Hd. destruct (callback dev); [ | by apply IH ].
  destruct (pm_send W dev rqst data tr) as [[status dev'] tr'].
  case_decide; [ done | by apply IH ].
Qed.

Lemma pm_send_all_where_skipped skip rqst data todo : forall before tr,
  Forall (fun d => skip d = true) todo ->
  pm_send_all_where W skip rqst data before todo tr = (0, reverse before ++ todo, tr).
Proof.
  induction todo as [ | dev rest IH ]; intros before tr Hf.
  - cbn. by rewrite app_nil_r.
  - apply Forall_cons in Hf as [Hd Hf]. cbn [pm_send_all_where]. rewrite Hd.
    rewrite IH by done. by rewrite reverse_cons, <- app_assoc.
Qed.

Lemma pm_send_all_where_calls skip rqst data todo : forall before tr,
  exists new,
    (pm_send_all_where W skip rqst data before todo tr).2 = new ++ tr /\
    Forall (calls_one_of (reverse before ++ todo)) new.
Proof.
  induction todo as [ | dev rest IH ]; intros before tr; [ by exists [] | ].
  cbn [pm_send_all_where].
  assert (Hskip : forall tr1 dev1, pm_ident dev1 = pm_ident dev ->
            (exists new1, tr1 = new1 ++ tr /\ Forall (calls_one_of [dev]) new1) ->
            exists new,
              (pm_send_all_where W skip rqst data (dev1 :: before) rest tr1).2
                = new ++ tr /\
              Forall (calls_one_of (reverse before ++ dev :: rest)) new).
  { intros tr1 dev1 Hid (new1 & -> & Hf1).
    destruct (IH (dev1 :: before) (new1 ++ tr)) as (new2 & -> & Hf2).
    exists (new2 ++ new1). split; [ by rewrite app_assoc | ].
    apply Forall_app. split.
    - eapply Forall_impl; [ exact Hf2 | ]. intros e.
      apply calls_one_of_ident.
      rewrite reverse_cons, <- app_assoc, !fmap_app. cbn. by rewrite Hid.
    - eapply Forall_impl; [ exact Hf1 | ]. intros e.
      apply calls_one_of_mono. set_solver. }
  destruct (skip dev); [ apply Hskip; [ done | by exists [] ] | ].
  destruct (callback dev) as [f | ] eqn:Hcb; [ | apply Hskip; [ done | by exists [] ] ].
  pose proof (pm_send_calls dev rqst data tr) as Hs.
  pose proof (pm_send_ident dev rqst data tr) as Hid.
  destruct (pm_send W dev rqst data tr) as [[status dev'] tr']. cbn [fst snd] in *.
  case_decide; [ | by apply Hskip ].
  destruct Hs as (new1 & -> & Hf1).
  assert (Hu : exists new,
             (if decide (rqst = PM_SUSPEND) then pm_undo_all W before (new1 ++ tr)
              else (before, new1 ++ tr)).2 = new ++ (new1 ++ tr) /\
             Forall (calls_one_of before) new).
  { case_decide; [ apply pm_undo_all_calls | by exists [] ]. }
  destruct (if decide (rqst = PM_SUSPEND) then _ else _) as [before' tr''].
  destruct Hu as (new2 & Hn2 & Hf2). cbn [snd] in *.
  exists (new2 ++ new1). split; [ by rewrite Hn2, app_assoc | ].
  apply Forall_app. split.
  - eapply Forall_impl; [ exact Hf2 | ]. intros e.
    apply calls_one_of_mono. intros x Hx. apply elem_of_app. left.
    by apply elem_of_reverse.
  - eapply Forall_impl; [ exact Hf1 | ]. intros e.
    apply calls_one_of_mono. set_solver.
Qed.

Lemma pm_send_all_where_order skip rqst data todo : forall before tr devs' tr',
  pm_send_all_where W skip rqst data before todo tr = (0, devs', tr') ->
  tr' = reverse ((fun d => EvCallback (entry d) rqst data)
                   <$> filter (fun d => negb (skip d) && asked rqst data d = true) todo)
        ++ tr.
Proof.
  induction todo as [ | dev rest IH ]; intros before tr devs' tr' Hall.
  - cbn in Hall. by injection Hall as _ <-.
  - cbn [pm_send_all_where] in Hall. destruct (skip dev) eqn:Hsk.
    + rewrite filter_cons_False by (rewrite Hsk; done). by eapply IH.
    + pose proof (pm_send_trace dev rqst data tr) as Ht.
      destruct (callback dev) as [f | ] eqn:Hcb.
      * destruct (pm_send W dev rqst data tr) as [[status dev'] tr1]. cbn [snd] in Ht.
        case_decide as Hst.
        { destruct (if decide (rqst = PM_SUSPEND) then _ else _) as [b' t''].
          injection Hall as -> _ _. done. }
        apply IH in Hall. rewrite Hall, Ht.
        destruct (asked rqst data dev) eqn:Ha.
        -- rewrite filter_cons_True by (rewrite Hsk, Ha; done).
           rewrite fmap_cons, reverse_cons, <- app_assoc. done.
        -- rewrite filter_cons_False by (rewrite Hsk, Ha; done). done.
      * rewrite filter_cons_False; [ by eapply IH | ].
        unfold asked. rewrite Hcb, Hsk.
        rewrite (bool_decide_false (None ≠ None)) by (intros H; by apply H). done.
Qed.


End pm_broadcasts.

Section pm_broadcast_properties.
Variable W : World.

Lemma pm_send_all_as_where rqst data devs tr :
  pm_send_all W rqst data devs tr
  = pm_send_all_where W (fun _ => false) rqst data [] devs tr.
Proof.
  unfold pm_send_all. symmetry. apply pm_send_all_where_noskip.
  by apply Forall_forall.
Qed.

(** X3.  A broadcast nobody refuses invokes the callbacks in list order,
    once each, with the request and the data of the broadcast: those of
    the devices that have a callback and, for [PM_SUSPEND] and
    [PM_RESUME], are not in the target state already.  Nothing else is
    added to the trace. *)
Theorem pm_send_all_order rqst data devs tr :
  (pm_send_all W rqst data devs tr).1.1 = 0 ->
  (pm_send_all W rqst data devs tr).2
  = reverse ((fun d => EvCallback (entry d) rqst data)
               <$> filter (fun d => asked rqst data d = true) devs) ++ tr.
Proof.
  rewrite pm_send_all_as_where. intros Hs.
  destruct (pm_send_all_where W _ rqst data [] devs tr) as [[status devs'] tr'] eqn:Hall.
  cbn [fst snd] in *. subst status.
  apply pm_send_all_where_order in Hall. by rewrite Hall.
Qed.

(** X4.  Whatever its outcome, rollback included, [pm_send_all] adds
    nothing to the trace but callback invocations on devices of the list
    that have a callback: it calls no device that is not registered, and
    it makes no BIOS call and prints nothing. *)
Theorem pm_send_all_calls_listed rqst data devs tr :
  exists new,
    (pm_send_all W rqst data devs tr).2 = new ++ tr /\
    Forall (calls_one_of devs) new.
Proof.
  rewrite pm_send_all_as_where.
  destruct (pm_send_all_where_calls W (fun _ => false) rqst data devs [] tr)
    as (new & Hn & Hf).
  exists new. split; [ done | ]. by rewrite reverse_nil, app_nil_l in Hf.
Qed.

(** X5.  On a list whose devices all have the type asked for,
    [pm_send_all_type] and [pm_send_all_tweak] do what [pm_send_all]
    does. *)
Theorem pm_send_all_type_all ty rqst data devs tr :
  Forall (fun d => type d = ty) devs ->
  pm_send_all_type W ty rqst data devs tr = pm_send_all W rqst data devs tr /\
  pm_send_all_tweak W rqst data ty devs tr = pm_send_all W rqst data devs tr.
Proof.
  intros Hf.
  assert (H : pm_send_all_where W (fun dev => bool_decide (type dev ≠ ty)) rqst data [] devs tr
              = pm_send_all W rqst data devs tr).
  { apply pm_send_all_where_noskip. eapply Forall_impl; [ exact Hf | ].
    intros d Hd. cbn. apply bool_decide_false. intros H. by apply H. }
  by split.
Qed.


(** X7.  When no device of the list has the type and the id asked for,
    the id being compared as [unsigned long] (so that -1 asks for the
    device registered with id 0xffffffff), [pm_send_all_target] returns
    0, changes no device and calls no callback; on the empty list in
    particular. *)
Theorem pm_send_all_target_nobody ty i rqst data devs tr :
  Forall (fun d => type d <> ty \/ ulong (id d) <> ulong i) devs ->
  pm_send_all_target W ty i rqst data devs tr = (0, devs, tr).
Proof.
  intros Hf. unfold pm_send_all_target.
  rewrite pm_send_all_where_skipped; [ by rewrite reverse_nil, app_nil_l | ].
  eapply Forall_impl; [ exact Hf | ]. intros d Hd. cbn.
  apply orb_true_iff. destruct Hd as [Hd | Hd]; [ left | right ];
    by apply bool_decide_eq_true.
Qed.

Lemma pm_send_all_where_prefix skip rqst data pre : forall before rest tr,
  Forall (fun d => skip d = true) pre ->
  pm_send_all_where W skip rqst data before (pre ++ rest) tr
  = pm_send_all_where W skip rqst data (reverse pre ++ before) rest tr.
Proof.
  induction pre as [ | p pre IH ]; intros before rest tr Hf; [ done | ].
  apply Forall_cons in Hf as [Hp Hf]. cbn [app pm_send_all_where]. rewrite Hp.
  rewrite IH by done. by rewrite reverse_cons, <- app_assoc.
Qed.

(** X8.  The rollback of [pm_send_all_type] is not confined to the type
    asked for.  When the first device of that type refuses a
    [PM_SUSPEND], [pm_undo_all] runs over the devices in front of it,
    which all have another type and were passed over: each of them whose
    [state] differs from its [prev_state] is sent the compensating
    request. *)
Theorem pm_send_all_type_rollback ty data pre d post f tr :
  Forall (fun p => type p <> ty) pre -> type d = ty ->
  callback d = Some f -> state d <> data ->
  call_callback W f tr d PM_SUSPEND data <> 0 ->
  let u := pm_undo_all W (reverse pre) (EvCallback (entry d) PM_SUSPEND data :: tr) in
  pm_send_all_type W ty PM_SUSPEND data (pre ++ d :: post) tr
  = (call_callback W f tr d PM_SUSPEND data, reverse u.1 ++ d :: post, u.2).
Proof.
  intros Hpre Hty Hcb Hst Hno u. unfold pm_send_all_type.
  rewrite pm_send_all_where_prefix.
  2:{ eapply Forall_impl; [ exact Hpre | ]. intros p Hp. by apply bool_decide_eq_true. }
  cbn [pm_send_all_where]. rewrite app_nil_r.
  rewrite bool_decide_false by (intros H; by apply H).
  rewrite Hcb. unfold pm_send, invoke. rewrite Hcb.
  rewrite decide_True by done. rewrite decide_False by done.
  rewrite decide_True by done. rewrite decide_True by done.
  subst u. by destruct (pm_undo_all W (reverse pre) _).
Qed.

End pm_broadcast_properties.

(** ** Sample broadcasts *)

(** A suspend over five devices: two callbacks are invoked, in list
    order. *)
Lemma pm_send_all_order_witness :
  let devs := [sample_dev 0 (Some 0%nat) 0; sample_dev 1 None 0;
               sample_dev 2 (Some 0%nat) 3; sample_dev 3 (Some 0%nat) 0] in
  (pm_send_all sample_world PM_SUSPEND 3 devs []).1.1 = 0 /\
  (pm_send_all sample_world PM_SUSPEND 3 devs []).2
    = [EvCallback 3 PM_SUSPEND 3; EvCallback 0 PM_SUSPEND 3].
Proof.
  cbv zeta. split; [ reflexivity | ].
  rewrite (pm_send_all_order sample_world PM_SUSPEND 3
             [sample_dev 0 (Some 0%nat) 0; sample_dev 1 None 0;
              sample_dev 2 (Some 0%nat) 3; sample_dev 3 (Some 0%nat) 0] [] eq_refl).
  reflexivity.
Defined.

(** Two devices of type 0, the second of which refuses. *)
Lemma pm_send_all_type_all_witness :
  let devs := [sample_dev 0 (Some 0%nat) 0; sample_dev 1 (Some 1%nat) 0] in
  Forall (fun d => type d = 0) devs /\
  pm_send_all_type sample_world 0 PM_SUSPEND 3 devs []
    = pm_send_all sample_world PM_SUSPEND 3 devs [] /\
  pm_send_all_tweak sample_world PM_SUSPEND 3 0 devs []
    = pm_send_all sample_world PM_SUSPEND 3 devs [].
Proof.
  cbv zeta.
  assert (H : Forall (fun d => type d = 0)
                [sample_dev 0 (Some 0%nat) 0; sample_dev 1 (Some 1%nat) 0])
    by (repeat constructor).
  split; [ exact H | ].
  exact (pm_send_all_type_all sample_world 0 PM_SUSPEND 3 _ [] H).
Defined.


(** No device has type 1 and id 7. *)
Lemma pm_send_all_target_nobody_witness :
  Forall (fun d => type d <> 1 \/ ulong (id d) <> ulong 7) sample_typed_devs /\
  pm_send_all_target sample_world 1 7 PM_SUSPEND 3 sample_typed_devs []
    = (0, sample_typed_devs, []).
Proof.
  assert (H : Forall (fun d => type d <> 1 \/ ulong (id d) <> ulong 7)
                sample_typed_devs)
    by (repeat (constructor; [ right; by vm_compute | ]); constructor).
  split; [ exact H | ].
  exact (pm_send_all_target_nobody sample_world 1 7 PM_SUSPEND 3 sample_typed_devs [] H).
Defined.

(** The id -1 asks for the device registered with id 0xffffffff. *)
Lemma pm_send_all_target_unsigned :
  pm_send_all_target sample_world 1 (-1) PM_SUSPEND 3
    [Build_pm_dev 0 1 4294967295 (Some 0%nat) 0 0] []
  = (0, [Build_pm_dev 0 1 4294967295 (Some 0%nat) 3 0], [EvCallback 0 PM_SUSPEND 3]).
Proof. reflexivity. Qed.

(** A device of type 1, suspended earlier, stands in front of the only
    device of type 2, which refuses: the suspend of type 2 resumes the
    device of type 1. *)
Lemma pm_send_all_type_rollback_witness :
  let p := Build_pm_dev 0 1 0 (Some 0%nat) 3 0 in
  let d := Build_pm_dev 1 2 0 (Some 1%nat) 0 0 in
  pm_send_all_type sample_world 2 PM_SUSPEND 3 ([p] ++ d :: []) []
  = (-16, [Build_pm_dev 0 1 0 (Some 0%nat) 0 3; d],
     [EvCallback 0 PM_RESUME 0; EvCallback 1 PM_SUSPEND 3]).
Proof.
  cbv zeta.
  assert (H1 : Forall (fun p => type p <> 2) [Build_pm_dev 0 1 0 (Some 0%nat) 3 0])
    by (repeat constructor; cbn; lia).
  assert (H2 : state (Build_pm_dev 1 2 0 (Some 1%nat) 0 0) <> 3) by (cbn; lia).
  assert (H3 : call_callback sample_world 1 [] (Build_pm_dev 1 2 0 (Some 1%nat) 0 0)
                 PM_SUSPEND 3 <> 0) by (cbn; lia).
  rewrite (pm_send_all_type_rollback sample_world 2 3
             [Build_pm_dev 0 1 0 (Some 0%nat) 3 0]
             (Build_pm_dev 1 2 0 (Some 1%nat) 0 0) [] 1%nat [] H1 eq_refl eq_refl H2 H3).
  reflexivity.
Defined.

(** * Further properties of arch/i386/kernel/apm.c *)

Section reading.

Lemma queue_empty_contents a :
  queue_wf a -> queue_empty a = true <-> queue_contents a = [].
Proof.
  intros Hwf. rewrite (queue_empty_occupied a Hwf).
  pose proof (queue_occupied_bounds a) as Hb.
  pose proof (length_queue_contents a) as Hl. split.
  - intros H0. rewrite H0 in Hl. by apply length_zero_iff_nil.
  - intros Hn. rewrite Hn in Hl. cbn in Hl. lia.
Qed.

Lemma lookup_update_user_other filp a' st h :
  as_self a' = filp -> h <> filp ->
  lookup_user h (update_user filp (fun _ => a') st) = lookup_user h st.
Proof.
  intros Hself Hh.
  unfold lookup_user, update_user. cbn [set_user_list set_users user_list].
  induction (user_list st) as [ | x l IH ]; [ done | ].
  rewrite fmap_cons. cbn [find].
  destruct (bool_decide (as_self x = filp)) eqn:Hx.
  - apply bool_decide_eq_true in Hx.
    rewrite !bool_decide_eq_false_2 by congruence. apply IH.
  - destruct (bool_decide (as_self x = h)); [ done | apply IH ].
Qed.

Lemma do_read_spec filp buf a count nonblock st :
  lookup_user filp st = Some a -> queue_wf a ->
  sizeof_event <= count -> queue_contents a <> [] -> buf 0%nat = true ->
  let n := Z.to_nat (count `div` sizeof_event) in
  let g := writable buf 0 n in
  let evs := take g (queue_contents a) in
  let r := do_read filp buf count nonblock st in
  r.1 = ReadReturned (sizeof_event * Z.of_nat (length evs)) evs /\
  0 < sizeof_event * Z.of_nat (length evs) <= count /\
  (exists a',
      lookup_user filp r.2 = Some a' /\
      queue_contents a'
        = drop (if bool_decide (g < n)%nat then S g else n) (queue_contents a) /\
      as_suspends_read a' = as_suspends_read a + count_kind is_suspend_event evs /\
      as_standbys_read a' = as_standbys_read a + count_kind is_standby_event evs /\
      as_suspends_pending a' = as_suspends_pending a /\
      as_standbys_pending a' = as_standbys_pending a) /\
  (forall h, h <> filp -> lookup_user h r.2 = lookup_user h st) /\
  suspends_pending r.2 = suspends_pending st /\
  standbys_pending r.2 = standbys_pending st /\
  devs r.2 = devs st /\ log r.2 = log st.
Proof.
  intros Hl Hwf Hc Hne Hb0 n g evs r. subst r. unfold do_read. rewrite Hl.
  rewrite bool_decide_false by lia.
  assert (He : queue_empty a = false).
  { destruct (queue_empty a) eqn:He; [ | done ].
    by apply (queue_empty_contents a Hwf) in He. }
  rewrite He. fold n.
  assert (Hn : (1 <= n)%nat).
  { subst n. unfold sizeof_event in *.
    assert (1 <= count `div` 2) by (apply Z.div_le_lower_bound; lia). lia. }
  assert (Hg : (1 <= g <= n)%nat).
  { split; [ | apply writable_le ].
    apply (writable_ge buf 1 n 0 Hn). intros j Hj.
    assert (j = 0%nat) as -> by lia. done. }
  pose proof (do_read_loop_spec buf n 0 a Hwf) as Hs.
  destruct (do_read_loop buf 0 n a) as [[fault evs'] a'].
  cbv zeta in Hs. fold g in Hs.
  destruct Hs as (-> & Hq & -> & Hwf' & Hsr & Hyr & Hsp & Hyp & Hself & _).
  rewrite (bool_decide_eq_false_2 (0%nat = 0%nat /\ _)) by lia.
  fold evs. cbn [fst snd].
  assert (Hlen : (1 <= length evs <= n)%nat).
  { subst evs. rewrite length_take. destruct (queue_contents a); [ done | cbn; lia ]. }
  split; [ done | ]. split.
  { unfold sizeof_event in *. split; [ lia | ].
    assert (2 * (count `div` 2) <= count) by (apply Z.mul_div_le; lia). lia. }
  split.
  { exists a'. split; [ by apply (lookup_update_user filp (fun _ => a') st a) | ]. done. }
  split; [ intros h Hh | done ].
  destruct (lookup_user_Some _ _ _ Hl) as [_ Hfa].
  apply lookup_update_user_other; congruence.
Qed.

(** With a buffer that can be written where the events go, the read is
    not cut short. *)
Lemma writable_enough buf (n : nat) (l : list apm_event_t) :
  (forall k, (k < length (take n l))%nat -> buf k = true) ->
  take (writable buf 0 n) l = take n l /\
  drop (if bool_decide (writable buf 0 n < n)%nat then S (writable buf 0 n) else n) l
  = drop n l.
Proof.
  intros Hb. pose proof (writable_le buf n 0) as Hle.
  assert (Hge : (length (take n l) <= writable buf 0 n)%nat).
  { apply writable_ge; [ rewrite length_take; lia | ].
    intros j Hj. apply Hb. lia. }
  rewrite length_take in Hge.
  destruct (decide (n <= length l)%nat) as [Hn | Hn].
  - assert (writable buf 0 n = n) as -> by lia.
    by rewrite bool_decide_eq_false_2 by lia.
  - split; [ by rewrite !take_ge by lia | ].
    case_bool_decide; by rewrite !drop_ge by lia.
Qed.


(** X9.  [do_read] on a queue that is not empty, with a buffer whose
    first slot can be written, hands over the oldest events, in the order
    they were queued, as many as fit in [count] bytes and can be copied:
    it returns twice their number, which is positive and at most [count];
    the client's read counters go up by the suspend and standby events
    handed over.  The events left in the queue are the ones not handed
    over, less the one whose copy failed, if one did: that event is
    lost.  With a buffer that can be written where the events go, the
    read takes as many events as fit and loses none.  No other client,
    no counter of pending events, no device and nothing of the trace
    changes. *)
Theorem do_read_fifo filp buf a count nonblock st :
  lookup_user filp st = Some a -> queue_wf a ->
  sizeof_event <= count -> queue_contents a <> [] -> buf 0%nat = true ->
  let n := Z.to_nat (count `div` sizeof_event) in
  let g := writable buf 0 n in
  let evs := take g (queue_contents a) in
  let r := do_read filp buf count nonblock st in
  r.1 = ReadReturned (sizeof_event * Z.of_nat (length evs)) evs /\
  0 < sizeof_event * Z.of_nat (length evs) <= count /\
  (exists a',
      lookup_user filp r.2 = Some a' /\
      queue_contents a'
        = drop (if bool_decide (g < n)%nat then S g else n) (queue_contents a) /\
      as_suspends_read a' = as_suspends_read a + count_kind is_suspend_event evs /\
      as_standbys_read a' = as_standbys_read a + count_kind is_standby_event evs /\
      as_suspends_pending a' = as_suspends_pending a /\
      as_standbys_pending a' = as_standbys_pending a) /\
  ((forall k, (k < length (take n (queue_contents a)))%nat -> buf k = true) ->
   evs = take n (queue_contents a) /\
   drop (if bool_decide (g < n)%nat then S g else n) (queue_contents a)
   = drop n (queue_contents a)) /\
  (forall h, h <> filp -> lookup_user h r.2 = lookup_user h st) /\
  suspends_pending r.2 = suspends_pending st /\
  standbys_pending r.2 = standbys_pending st /\
  devs r.2 = devs st /\ log r.2 = log st.
Proof.
  intros Hl Hwf Hc Hne Hb0 n g evs r.
  destruct (do_read_spec filp buf a count nonblock st Hl Hwf Hc Hne Hb0)
    as (H1 & H2 & H3 & H4).
  split; [ exact H1 | ]. split; [ exact H2 | ]. split; [ exact H3 | ].
  split; [ | exact H4 ].
  intros Hb. by apply writable_enough.
Qed.

Lemma lookup_related (R : apm_user -> apm_user -> Prop) filp us us' a :
  Forall2 R us us' -> (forall x y, R x y -> as_self y = as_self x) ->
  find (fun a => bool_decide (as_self a = filp)) us = Some a ->
  exists a', find (fun a => bool_decide (as_self a = filp)) us' = Some a' /\ R a a'.
Proof.
  intros HF Hself. induction HF as [ | x y l l' Hxy _ IH ]; [ done | ].
  cbn [find]. rewrite (Hself x y Hxy).
  destruct (bool_decide (as_self x = filp)); [ | exact IH ].
  intros [= <-]. by exists y.
Qed.

(** X10.  The reads that hand over no event.  A bad file pointer gives
    [-EIO] (and a message), a buffer too small for one event [-EINVAL],
    an empty queue [-EAGAIN] to a non-blocking reader, while a blocking
    reader sleeps; nothing changes in these cases, whatever the buffer.
    A read that finds an event and cannot write the first slot of the
    buffer gives [-EFAULT], and it is not without effect: the oldest
    event has left the queue and is lost, and it is not counted as read;
    nothing else changes. *)
Theorem do_read_nothing filp buf count st :
  (lookup_user filp st = None ->
   forall nonblock,
     do_read filp buf count nonblock st
     = (ReadReturned (- EIO) [], printk MsgBadFilp st)) /\
  (forall a, lookup_user filp st = Some a ->
     (count < sizeof_event ->
      forall nonblock,
        do_read filp buf count nonblock st = (ReadReturned (- EINVAL) [], st)) /\
     (queue_wf a -> queue_contents a = [] -> sizeof_event <= count ->
      do_read filp buf count true st = (ReadReturned (- EAGAIN) [], st) /\
      do_read filp buf count false st = (ReadSleeping, st)) /\
     (queue_wf a -> queue_contents a <> [] -> sizeof_event <= count ->
      buf 0%nat = false ->
      forall nonblock,
        let r := do_read filp buf count nonblock st in
        r.1 = ReadReturned (- EFAULT) [] /\
        (exists a',
            lookup_user filp r.2 = Some a' /\
            queue_contents a' = drop 1 (queue_contents a) /\
            as_suspends_read a' = as_suspends_read a /\
            as_standbys_read a' = as_standbys_read a /\
            as_suspends_pending a' = as_suspends_pending a /\
            as_standbys_pending a' = as_standbys_pending a) /\
        (forall h, h <> filp -> lookup_user h r.2 = lookup_user h st) /\
        suspends_pending r.2 = suspends_pending st /\
        standbys_pending r.2 = standbys_pending st /\
        devs r.2 = devs st /\ log r.2 = log st)).
Proof.
  split; [ intros Hl nb; unfold do_read; by rewrite Hl | ].
  intros a Hl. split; [ | split ].
  - intros Hc nb. unfold do_read. rewrite Hl. by rewrite bool_decide_true.
  - intros Hwf He Hc. apply (queue_empty_contents a Hwf) in He.
    unfold do_read. rewrite Hl, He. by rewrite bool_decide_false by lia.
  - intros Hwf Hne Hc Hb0 nb r. subst r. unfold do_read. rewrite Hl.
    rewrite bool_decide_false by lia.
    assert (He : queue_empty a = false).
    { destruct (queue_empty a) eqn:He; [ | done ].
      by apply (queue_empty_contents a Hwf) in He. }
    rewrite He. set (n := Z.to_nat (count `div` sizeof_event)).
    assert (Hn : (1 <= n)%nat).
    { subst n. unfold sizeof_event in *.
      assert (1 <= count `div` 2) by (apply Z.div_le_lower_bound; lia). lia. }
    assert (Hg : writable buf 0 n = 0%nat).
    { destruct n as [ | n' ]; [ lia | ]. cbn [writable]. by rewrite Hb0. }
    pose proof (do_read_loop_spec buf n 0 a Hwf) as Hs.
    destruct (do_read_loop buf 0 n a) as [[fault evs'] a'].
    cbv zeta in Hs. rewrite Hg in Hs.
    destruct Hs as (-> & Hq & -> & Hwf' & Hsr & Hyr & Hsp & Hyp & Hself & _).
    rewrite bool_decide_eq_true_2 in Hq by lia.
    rewrite bool_decide_eq_true_2 by (repeat split; [ lia | done ]).
    rewrite take_0 in Hsr, Hyr. simpl in Hsr, Hyr.
    cbn [fst snd]. split; [ done | ]. split.
    { exists a'. split; [ by apply (lookup_update_user filp (fun _ => a') st a) | ].
      repeat split; try done; lia. }
    split; [ intros h Hh | done ].
    destruct (lookup_user_Some _ _ _ Hl) as [_ Hfa].
    apply lookup_update_user_other; congruence.
Qed.

(** X11.  [do_poll] changes nothing and agrees with [do_read]: for a
    client of the device it reports [POLLIN | POLLRDNORM] exactly when
    events wait in the client's queue, and 0 exactly when a non-blocking
    [do_read] would return [-EAGAIN]. *)
Theorem do_poll_readable filp buf a count st :
  lookup_user filp st = Some a -> queue_wf a -> sizeof_event <= count ->
  (do_poll filp st).2 = st /\
  ((do_poll filp st).1 = 0 <-> queue_contents a = []) /\
  ((do_poll filp st).1 = Z.lor POLLIN POLLRDNORM <-> queue_contents a <> []) /\
  ((do_poll filp st).1 = 0 <->
   do_read filp buf count true st = (ReadReturned (- EAGAIN) [], st)).
Proof.
  intros Hl Hwf Hc. unfold do_poll, do_read. rewrite Hl.
  rewrite bool_decide_false by lia.
  pose proof (queue_empty_contents a Hwf) as He.
  destruct (queue_empty a) eqn:Hq; cbn [negb fst snd].
  - assert (Hn : queue_contents a = []) by (by apply He).
    repeat split; try done; intros H; by rewrite Hn in H.
  - assert (Hn : queue_contents a <> []).
    { intros Hn. apply He in Hn. done. }
    destruct (do_read_loop buf 0 _ a) as [[fault evs] a'].
    assert (Hmask : Z.lor POLLIN POLLRDNORM <> 0) by (vm_compute; discriminate).
    split; [ done | ]. split; [ by split | ]. split; [ by split | ].
    split; [ done | ]. destruct fault; [ by intros [= ] | ].
    intros [= H _ _]. unfold sizeof_event, EAGAIN in H. lia.
Qed.

(** X12.  What [queue_event] queues is what [do_read] reads: after an
    event is queued, a client that got it (a reader other than the
    sender) reads, with room for a full queue in a buffer that can be
    written where the events go, the events that waited before, less the
    oldest if the queue was full, and then the new event. *)
Theorem queue_event_then_read event sender filp buf a count nonblock st :
  Forall queue_wf (user_list st) ->
  lookup_user filp st = Some a -> receives sender a = true ->
  sizeof_event * (APM_MAX_EVENTS - 1) <= count ->
  let evs := (if queue_full a then drop 1 (queue_contents a) else queue_contents a)
             ++ [event] in
  (forall k, (k < length evs)%nat -> buf k = true) ->
  (do_read filp buf count nonblock (queue_event event sender st)).1
  = ReadReturned (sizeof_event * Z.of_nat (length evs)) evs.
Proof.
  intros Hwf Hl Hrec Hc evs Hbuf.
  destruct (queue_event_queued event sender st Hwf) as (HF & _).
  destruct (lookup_related _ filp _ _ a HF) as (a' & Hl' & Ha'); [ | exact Hl | ].
  { intros x y. destruct (receives sender x); [ | by intros -> ].
    intros (_ & _ & _ & _ & Hs & _). exact Hs. }
  rewrite Hrec in Ha'. destruct Ha' as (Hwf' & Hq' & _). fold evs in Hq'.
  assert (Hne : queue_contents a' <> []).
  { rewrite Hq'. subst evs. intros H. by apply app_eq_nil in H as [_ H]. }
  assert (Hc2 : sizeof_event <= count) by (unfold sizeof_event, APM_MAX_EVENTS in *; lia).
  assert (Hb0 : buf 0%nat = true).
  { apply Hbuf. subst evs. rewrite length_app. cbn. lia. }
  destruct (do_read_spec filp buf a' count nonblock _ Hl' Hwf' Hc2 Hne Hb0) as (Hr & _).
  rewrite Hr, Hq'.
  assert (Hlen : (length evs <= Z.to_nat (count `div` sizeof_event))%nat).
  { rewrite <- Hq', length_queue_contents.
    pose proof (queue_occupied_bounds a') as Hb.
    unfold sizeof_event, APM_MAX_EVENTS in *.
    assert (19 <= count `div` 2) by (apply Z.div_le_lower_bound; lia). lia. }
  destruct (writable_enough buf (Z.to_nat (count `div` sizeof_event)) evs) as [-> _].
  { intros k Hk. apply Hbuf. rewrite length_take in Hk. lia. }
  by rewrite take_ge.
Qed.

End reading.

Section clients.
Variable W : World.

Lemma lookup_user_fresh st :
  apm_inv st -> lookup_user (brk st) st = None.
Proof.
  intros (_ & _ & _ & Hlt & _). unfold lookup_user.
  destruct (find _ (user_list st)) as [a | ] eqn:Hf; [ | done ].
  apply (lookup_user_Some (brk st) st a) in Hf as [Hin Hs].
  apply Hlt in Hin. lia.
Qed.

(** X13.  [do_open] in any state the device reaches from boot: the
    handle it returns was not in use; the new client has an empty queue,
    no pending and no read events, and the three flags it was opened
    with; every other client is found as before, and the pending
    counters, the devices and the trace are untouched. *)
Theorem do_open_fresh ops ds bounce version capable fmode_read fmode_write :
  let st := apm_run W ops (apm_boot ds bounce version) in
  let o := do_open true capable fmode_read fmode_write st in
  o.1 = (0, Some (brk st)) /\
  lookup_user (brk st) st = None /\
  (exists a,
      lookup_user (brk st) o.2 = Some a /\ queue_wf a /\ queue_contents a = [] /\
      as_suspends_pending a = 0 /\ as_standbys_pending a = 0 /\
      as_suspends_read a = 0 /\ as_standbys_read a = 0 /\
      as_suser a = capable /\ as_reader a = fmode_read /\ as_writer a = fmode_write) /\
  (forall h, h <> brk st -> lookup_user h o.2 = lookup_user h st) /\
  suspends_pending o.2 = suspends_pending st /\
  standbys_pending o.2 = standbys_pending st /\
  devs o.2 = devs st /\ log o.2 = log st.
Proof.
  intros st o.
  assert (Hinv : apm_inv st) by apply apm_inv_run, apm_inv_boot.
  subst o. unfold do_open. cbn [fst snd]. split; [ done | ].
  split; [ by apply lookup_user_fresh | ]. split.
  - eexists. unfold lookup_user. cbn [set_users user_list find as_self].
    rewrite bool_decide_true by done. split; [ reflexivity | ].
    split; [ by vm_compute | ]. by repeat split.
  - split; [ | done ]. intros h Hh. unfold lookup_user.
    cbn [set_users user_list find as_self].
    rewrite bool_decide_false by congruence. done.
Qed.

(** X14.  A client that is opened and released at once leaves no mark:
    the clients, the pending counters, the devices and the trace are as
    before, and neither [standby] nor [suspend] runs; only the address is
    used up. *)
Theorem do_open_release capable fmode_read fmode_write st :
  let o := do_open true capable fmode_read fmode_write st in
  do_release W (brk st) o.2 = (0, set_users (user_list st) (S (brk st)) st).
Proof.
  cbv zeta. unfold do_open. cbn [snd]. unfold do_release, lookup_user.
  cbn [set_users user_list find as_self].
  rewrite bool_decide_true by done.
  cbn [as_standbys_pending as_suspends_pending].
  rewrite !bool_decide_false by lia.
  unfold set_user_list. cbn [set_users user_list unlink as_self brk].
  rewrite bool_decide_true by done. done.
Qed.

(** X15.  [do_ioctl] turns down, with nothing changed, a client that was
    not opened by a privileged user or not for writing ([-EPERM]) and a
    command it does not know ([-EINVAL]); a bad file pointer gives
    [-EIO]. *)
Theorem do_ioctl_refuses filp st :
  (lookup_user filp st = None ->
   forall cmd, do_ioctl W filp cmd st = (IoctlReturned (- EIO), printk MsgBadFilp st)) /\
  (forall a, lookup_user filp st = Some a ->
     (privileged_writer a = false ->
      forall cmd, do_ioctl W filp cmd st = (IoctlReturned (- EPERM), st)) /\
     (privileged_writer a = true ->
      forall c, do_ioctl W filp (APM_IOC_OTHER c) st = (IoctlReturned (- EINVAL), st))).
Proof.
  split; [ intros Hl cmd; unfold do_ioctl; by rewrite Hl | ].
  intros a Hl. unfold privileged_writer, do_ioctl. rewrite Hl.
  split; intros Hp; destruct (as_suser a), (as_writer a); try done.
Qed.

End clients.

Section transitions.
Variable W : World.

Lemma suspend_out_result err st :
  (suspend_out err st).1 = err /\
  Forall (fun a => as_suspend_wait a = false /\ as_suspend_result a = err)
    (user_list (suspend_out err st).2) /\
  as_self <$> user_list (suspend_out err st).2 = as_self <$> user_list st /\
  ignore_normal_resume (suspend_out err st).2 = true.
Proof.
  unfold suspend_out. cbn. split; [ done | ]. split; [ | split; [ | done ] ].
  - apply Forall_fmap, Forall_true. intros a. done.
  - rewrite <- list_fmap_compose. by apply list_fmap_ext.
Qed.

Lemma queue_event_selves event sender st :
  Forall queue_wf (user_list st) ->
  as_self <$> user_list (queue_event event sender st) = as_self <$> user_list st.
Proof.
  intros Hwf. destruct (queue_event_queued event sender st Hwf) as (HF & _).
  by apply (queued_users event sender) in HF as (Hs & _).
Qed.

(** X16.  However [suspend] ends, it returns 0, [-EIO] or [-EBUSY], and
    it leaves every client awake ([suspend_wait] = 0) with that value in
    [suspend_result], and [ignore_normal_resume] set.  [-EBUSY] is the
    answer exactly when the suspend is vetoable and a device refused;
    otherwise the BIOS is asked, and the answer is 0 when it reports
    success or no error code, and [-EIO] when it reports an error.  The
    clients are the same as before. *)
Theorem suspend_wakes vetoable st :
  Forall queue_wf (user_list st) ->
  let r := suspend W vetoable st in
  let vetoed := bool_decide ((pm_send_all W PM_SUSPEND 3 (devs st) (log st)).1.1 ≠ 0) in
  (if vetoed && vetoable then r.1 = - EBUSY
   else exists tr,
       r.1 = (let '(failed, eax) := apm_bios_call_simple W tr APM_STATE_SUSPEND in
              if failed && negb (bool_decide (Z.land (Z.shiftr eax 8) 255 = APM_NO_ERROR))
                 && negb (bool_decide (Z.land (Z.shiftr eax 8) 255 = APM_SUCCESS))
              then - EIO else 0)) /\
  (r.1 = 0 \/ r.1 = - EIO \/ r.1 = - EBUSY) /\
  Forall (fun a => as_suspend_wait a = false /\ as_suspend_result a = r.1)
    (user_list r.2) /\
  as_self <$> user_list r.2 = as_self <$> user_list st /\
  ignore_normal_resume r.2 = true.
Proof.
  intros Hwf r vetoed. subst r vetoed. unfold suspend.
  destruct (pm_send_all W PM_SUSPEND 3 (devs st) (log st)) as [[status ds] tr].
  cbn [fst snd].
  destruct (bool_decide (status ≠ 0) && vetoable) eqn:Hv.
  - match goal with |- context [suspend_out ?e ?s] =>
      destruct (suspend_out_result e s) as (H1 & H2 & H3 & H4) end.
    rewrite H1. split; [ done | ]. split; [ auto | ]. split; [ done | ].
    split; [ | done ]. rewrite H3.
    cbn [printk set_log set_pm set_waiting_for_resume set_resume_flags user_list].
    destruct (bool_decide (256 < _)); [ | done ].
    destruct (set_power_state_log W APM_STATE_REJECT (set_pm ds tr st))
      as (_ & _ & Hu & _).
    unfold apm_set_power_state. by rewrite Hu.
  - set (st1 := if bool_decide (status ≠ 0) then _ else set_pm ds tr st).
    assert (Hu1 : user_list st1 = user_list st).
    { subst st1. by destruct (bool_decide (status ≠ 0)). }
    clearbody st1.
    pose proof (set_power_state_log W APM_STATE_SUSPEND st1) as (_ & _ & Hu2 & _).
    unfold apm_set_power_state, set_power_state in *.
    destruct (apm_bios_call_simple W (log st1) APM_STATE_SUSPEND) as [failed eax] eqn:Hb.
    set (st2 := set_log _ st1) in *.
    assert (Hu2' : user_list st2 = user_list st).
    { rewrite <- Hu1, <- Hu2. by destruct failed. }
    clearbody st2.
    set (e := Z.land (Z.shiftr eax 8) 255).
    assert (Hgen : forall err0 : Z,
      let err1 := if bool_decide (err0 = APM_NO_ERROR) then APM_SUCCESS else err0 in
      let st3 := if bool_decide (err1 ≠ APM_SUCCESS)
                 then printk (MsgSuspendError err1) st2 else st2 in
      let err := if bool_decide (err1 = APM_SUCCESS) then 0 else - EIO in
      let x := (let '(_, ds0, tr0) := pm_send_all W PM_RESUME 0 (devs st3) (log st3) in
                suspend_out err
                  (set_ignore_normal_resume true
                     (queue_event APM_NORMAL_RESUME None (set_pm ds0 tr0 st3)))) in
      x.1 = err /\
      Forall (fun a => as_suspend_wait a = false /\ as_suspend_result a = err)
        (user_list x.2) /\
      as_self <$> user_list x.2 = as_self <$> user_list st /\
      ignore_normal_resume x.2 = true).
    { intros err0 err1 st3 err x.
      assert (Hu3 : user_list st3 = user_list st).
      { subst st3. by destruct (bool_decide (err1 ≠ APM_SUCCESS)). }
      subst x. destruct (pm_send_all W PM_RESUME 0 (devs st3) (log st3)) as [[s' ds'] tr'].
      match goal with |- context [suspend_out ?e ?s] =>
        destruct (suspend_out_result e s) as (H1 & H2 & H3 & H4) end.
      split; [ done | ]. split; [ done | ]. split; [ | done ].
      rewrite H3. cbn [set_ignore_normal_resume set_resume_flags user_list].
      rewrite queue_event_selves; cbn; by rewrite Hu3. }
    destruct failed; cbn [fst snd andb negb].
    + destruct (Hgen e) as (H1 & H2 & H3 & H4). cbv zeta in *.
      fold e. rewrite H1. split; [ | split; [ | done ] ].
      * exists (log st1). rewrite Hb. fold e. cbn [andb].
        unfold APM_SUCCESS, APM_NO_ERROR in *.
        repeat case_bool_decide; cbn [andb negb]; try done; congruence.
      * repeat case_bool_decide; auto.
    + destruct (Hgen APM_SUCCESS) as (H1 & H2 & H3 & H4). cbv zeta in *.
      rewrite H1. split; [ | split; [ | done ] ].
      * exists (log st1). by rewrite Hb.
      * auto.
Qed.

End transitions.

Section polling.
Variable W : World.


(** X18.  An event that [check_events] has no case for, and
    [APM_UPDATE_TIME], reach nobody: no client is told, no counter
    moves, no device is asked, nothing is added to the trace, and the
    loop goes on to the next event. *)
Theorem check_event_unnamed jiffies event st :
  event = APM_UPDATE_TIME \/ (exists code, event = APM_EVENT code) ->
  let r := check_event W jiffies event st in
  r.1 = true /\
  devs r.2 = devs st /\ user_list r.2 = user_list st /\ log r.2 = log st /\
  suspends_pending r.2 = suspends_pending st /\
  standbys_pending r.2 = standbys_pending st /\
  waiting_for_resume r.2 = waiting_for_resume st /\
  ignore_normal_resume r.2 = false.
Proof.
  intros He r. subst r. unfold check_event.
  set (st0 := if ignore_bounce st && _ then _ else st).
  assert (H0 : devs st0 = devs st /\ user_list st0 = user_list st /\
               log st0 = log st /\ suspends_pending st0 = suspends_pending st /\
               standbys_pending st0 = standbys_pending st /\
               waiting_for_resume st0 = waiting_for_resume st).
  { subst st0. by destruct (_ && _). }
  clearbody st0.
  assert (Hne : bool_decide (event ≠ APM_NORMAL_RESUME) = true).
  { apply bool_decide_eq_true. by destruct He as [-> | [c ->]]. }
  rewrite Hne, andb_true_r.
  set (st1 := if ignore_normal_resume st0 then _ else st0).
  assert (H1 : devs st1 = devs st /\ user_list st1 = user_list st /\
               log st1 = log st /\ suspends_pending st1 = suspends_pending st /\
               standbys_pending st1 = standbys_pending st /\
               waiting_for_resume st1 = waiting_for_resume st /\
               ignore_normal_resume st1 = false).
  { destruct H0 as (? & ? & ? & ? & ? & ?). subst st1.
    destruct (ignore_normal_resume st0) eqn:Hi; cbn; rewrite ?Hi; by repeat split. }
  clearbody st1.
  destruct H1 as (? & ? & ? & ? & ? & ? & ?).
  destruct He as [-> | [c ->]]; cbn [fst snd]; by repeat split.
Qed.

(** X19.  In every state the device reaches from boot, each client's
    queue indices are within the array of 20 events, at most 19 events
    wait in a queue, no pending counter is negative, globally or in a
    client, a client served by [do_ioctl] has not read more suspend or
    standby events than it has pending, and the clients have distinct
    addresses, all handed out before. *)
Theorem reachable_bounds ops ds bounce version :
  let st := apm_run W ops (apm_boot ds bounce version) in
  0 <= suspends_pending st /\ 0 <= standbys_pending st /\
  NoDup (as_self <$> user_list st) /\
  Forall (fun a =>
            (as_self a < brk st)%nat /\
            0 <= as_event_head a < APM_MAX_EVENTS /\
            0 <= as_event_tail a < APM_MAX_EVENTS /\
            length (as_events a) = 20%nat /\
            (length (queue_contents a) <= 19)%nat /\
            0 <= as_suspends_pending a /\ 0 <= as_standbys_pending a /\
            (privileged_writer a = true ->
               0 <= as_suspends_read a <= as_suspends_pending a /\
               0 <= as_standbys_read a <= as_standbys_pending a))
    (user_list st).
Proof.
  intros st.
  assert (Hinv : apm_inv st) by apply apm_inv_run, apm_inv_boot.
  destruct Hinv as (Hs & Hy & Hnd & Hlt & Hok).
  assert (Hsum : 0 <= sum_suspends_pending (user_list st) /\
                 0 <= sum_standbys_pending (user_list st)).
  { clear -Hok. induction Hok as [ | a l (_ & Ha & Hb & _) _ [IH1 IH2] ]; [ done | ].
    unfold sum_suspends_pending, sum_standbys_pending in *. cbn [foldr]. lia. }
  split; [ lia | ]. split; [ lia | ]. split; [ done | ].
  apply Forall_forall. intros a Ha.
  rewrite Forall_forall in Hok. destruct (Hok a Ha) as ((Hh & Ht & Hlen) & Hp & Hq & Hr).
  split; [ by apply Hlt | ]. split; [ done | ]. split; [ done | ].
  split; [ done | ]. split.
  { rewrite length_queue_contents. pose proof (queue_occupied_bounds a).
    unfold APM_MAX_EVENTS in *. lia. }
  split; [ done | ]. split; [ done | ]. intros Hpw.
  destruct (Hr Hpw) as (H1 & H2 & H3 & H4).
  pose proof (count_kind_nonneg is_suspend_event (queue_contents a)).
  pose proof (count_kind_nonneg is_standby_event (queue_contents a)). lia.
Qed.

End polling.

Section leaving.
Variable W : World.

(** X20.  A client that leaves while it holds back a suspend and no
    standby: when it is the last one to hold the suspend back (the global
    counter is not above its own), [do_release] runs [suspend(1)] before
    the client is unlinked, so the devices are sent [PM_SUSPEND] and,
    unless one refuses, the BIOS is asked to suspend; when other clients
    still hold the suspend back, the counter is lowered by the client's
    share and the client is unlinked, and nothing else happens. *)
Theorem do_release_last_holdout filp a st :
  lookup_user filp st = Some a ->
  as_standbys_pending a <= 0 -> 0 < as_suspends_pending a ->
  let left := set_pending (suspends_pending st - as_suspends_pending a)
                (standbys_pending st) st in
  (suspends_pending st <= as_suspends_pending a ->
     do_release W filp st
       = (0, set_user_list (unlink filp (user_list (suspend W true left).2))
               (suspend W true left).2) /\
     forall ds tr,
       pm_send_all W PM_SUSPEND 3 (devs st) (log st) = (0, ds, tr) ->
       (EvSetPowerState APM_STATE_SUSPEND :: tr)
         `suffix_of` log (do_release W filp st).2) /\
  (as_suspends_pending a < suspends_pending st ->
     do_release W filp st = (0, set_user_list (unlink filp (user_list st)) left)).
Proof.
  intros Hl Hy Hs left.
  assert (Hr : do_release W filp st
               = (0, let st1 := if bool_decide (suspends_pending left ≤ 0)
                                then (suspend W true left).2 else left in
                     set_user_list (unlink filp (user_list st1)) st1)).
  { unfold do_release. rewrite Hl.
    rewrite (bool_decide_false (0 < as_standbys_pending a)) by lia.
    rewrite (bool_decide_true (0 < as_suspends_pending a)) by lia. done. }
  rewrite Hr. cbv zeta. cbn [suspends_pending left set_pending]. split.
  - intros Hle. rewrite bool_decide_true by lia. split; [ done | ].
    intros ds tr Hall. cbn [snd set_user_list set_users log].
    apply (suspend_asks_bios W true left 0 ds tr); [ exact Hall | by left ].
  - intros Hlt. by rewrite bool_decide_false by lia.
Qed.

End leaving.

(** ** Sample runs of the character device *)

Lemma sample_queued_client :
  exists a, lookup_user 0 sample_queued_state = Some a /\ queue_wf a /\
            queue_contents a = [APM_SYS_SUSPEND] /\
            as_suspends_pending a = 1 /\ as_standbys_pending a = 0 /\
            receives None a = true.
Proof.
  destruct (lookup_user 0 sample_queued_state) as [a | ] eqn:Hl;
    [ | vm_compute in Hl; discriminate Hl ].
  exists a. split; [ done | ]. vm_compute in Hl. injection Hl as <-.
  split; [ by vm_compute | ]. by vm_compute.
Defined.

(** The sample client reads the suspend event that waits for it. *)
Lemma do_read_fifo_witness :
  (do_read 0 valid_buf 2 true sample_queued_state).1
  = ReadReturned 2 [APM_SYS_SUSPEND].
Proof.
  destruct sample_queued_client as (a & Hl & Hwf & Hq & _).
  assert (Hc : sizeof_event <= 2) by (unfold sizeof_event; lia).
  assert (Hne : queue_contents a <> []) by (by rewrite Hq).
  destruct (do_read_fifo 0 valid_buf a 2 true sample_queued_state Hl Hwf Hc Hne
              eq_refl) as (Hr & _).
  rewrite Hr, Hq. reflexivity.
Defined.

(** The sample client reads into a buffer that cannot be written: it
    gets [-EFAULT], and the suspend event that waited is gone. *)
Lemma do_read_fault_sample :
  let r := do_read 0 (fun _ => false) 2 true sample_queued_state in
  r.1 = ReadReturned (- EFAULT) [] /\ (do_poll 0 r.2).1 = 0.
Proof. split; reflexivity. Qed.

(** Two events wait and only the first slot of the buffer can be
    written: the read is cut short after one event, and the second event
    is gone as well. *)
Lemma do_read_short_sample :
  let st := queue_event APM_LOW_BATTERY None sample_queued_state in
  let r := do_read 0 (fun k => bool_decide (k = 0%nat)) 4 true st in
  r.1 = ReadReturned 2 [APM_SYS_SUSPEND] /\ (do_poll 0 r.2).1 = 0.
Proof. split; reflexivity. Qed.

(** [do_poll] for the sample client, with one event waiting. *)
Lemma do_poll_readable_witness :
  (do_poll 0 sample_queued_state).1 = Z.lor POLLIN POLLRDNORM.
Proof.
  destruct sample_queued_client as (a & Hl & Hwf & Hq & _).
  assert (Hc : sizeof_event <= 2) by (unfold sizeof_event; lia).
  destruct (do_poll_readable 0 valid_buf a 2 sample_queued_state Hl Hwf Hc)
    as (_ & _ & Hp & _).
  apply Hp. by rewrite Hq.
Defined.

(** The BIOS reports a low battery after the suspend request: the sample
    client reads both, oldest first. *)
Lemma queue_event_then_read_witness :
  (do_read 0 valid_buf 38 true
     (queue_event APM_LOW_BATTERY None sample_queued_state)).1
  = ReadReturned 4 [APM_SYS_SUSPEND; APM_LOW_BATTERY].
Proof.
  destruct sample_queued_client as (a & Hl & Hwf & Hq & _ & _ & Hrec).
  assert (Hall : Forall queue_wf (user_list sample_queued_state))
    by (apply (bool_decide_unpack _); vm_compute; exact I).
  assert (Hc : sizeof_event * (APM_MAX_EVENTS - 1) <= 38)
    by (unfold sizeof_event, APM_MAX_EVENTS; lia).
  rewrite (queue_event_then_read APM_LOW_BATTERY None 0 valid_buf a 38 true
             sample_queued_state Hall Hl Hrec Hc (fun _ _ => eq_refl)).
  rewrite queue_full_length, Hq. reflexivity.
Defined.

(** A vetoable suspend of the sample machine: no device refuses and the
    BIOS succeeds. *)
Lemma suspend_wakes_witness :
  (suspend sample_world true sample_reader_state).1 = 0 /\
  Forall (fun a => as_suspend_wait a = false /\ as_suspend_result a = 0)
    (user_list (suspend sample_world true sample_reader_state).2).
Proof.
  assert (Hall : Forall queue_wf (user_list sample_reader_state))
    by (apply (bool_decide_unpack _); vm_compute; exact I).
  destruct (suspend_wakes sample_world true sample_reader_state Hall)
    as (_ & _ & Hf & _).
  assert (Hr : (suspend sample_world true sample_reader_state).1 = 0) by reflexivity.
  split; [ exact Hr | ]. by rewrite Hr in Hf.
Defined.


(** [APM_UPDATE_TIME] on the sample machine. *)
Lemma check_event_unnamed_witness :
  let r := check_event sample_world 0 APM_UPDATE_TIME sample_queued_state in
  r.1 = true /\ user_list r.2 = user_list sample_queued_state /\
  log r.2 = log sample_queued_state.
Proof.
  cbv zeta.
  destruct (check_event_unnamed sample_world 0 APM_UPDATE_TIME sample_queued_state
              (or_introl eq_refl)) as (H1 & _ & H2 & H3 & _).
  by split.
Defined.

(** The sample client leaves while it alone holds the suspend back: the
    BIOS is asked to suspend. *)
Lemma do_release_last_holdout_witness :
  bios_calls (log (do_release sample_world 0 sample_queued_state).2)
  = [APM_STATE_SUSPEND].
Proof.
  destruct sample_queued_client as (a & Hl & _ & _ & Hs & Hy & _).
  assert (H1 : as_standbys_pending a <= 0) by lia.
  assert (H2 : 0 < as_suspends_pending a) by lia.
  assert (H3 : suspends_pending sample_queued_state <= as_suspends_pending a)
    by (rewrite Hs; vm_compute; discriminate).
  destruct (do_release_last_holdout sample_world 0 a sample_queued_state Hl H1 H2)
    as [Hlast _].
  destruct (Hlast H3) as [Hr _]. rewrite Hr. reflexivity.
Defined.

(** * The BIOS calls of the APM thread *)

Section bits.

Lemma land_255 x : Z.land x 255 = x `mod` 256.
Proof. change 255 with (Z.ones 8). by rewrite Z.land_ones by lia. Qed.

Lemma land_32767 x : Z.land x 32767 = x `mod` 32768.
Proof. change 32767 with (Z.ones 15). by rewrite Z.land_ones by lia. Qed.

Lemma land_65535 x : Z.land x 65535 = x `mod` 65536.
Proof. change 65535 with (Z.ones 16). by rewrite Z.land_ones by lia. Qed.

Lemma error_code_bounds eax : 0 <= error_code eax <= 255.
Proof.
  unfold error_code. rewrite land_255.
  pose proof (Z.mod_pos_bound (Z.shiftr eax 8) 256). lia.
Qed.

Lemma u_short_bounds x : 0 <= u_short x <= 65535.
Proof.
  unfold u_short. rewrite land_65535.
  pose proof (Z.mod_pos_bound x 65536). lia.
Qed.

(** Testing one flag bit with a mask. *)
Lemma land_pow2_testbit x k :
  0 <= k -> Z.land x (2 ^ k) ≠ 0 <-> Z.testbit x k = true.
Proof.
  intros Hk. split.
  - intros Hne. destruct (Z.testbit x k) eqn:Hb; [ done | ]. exfalso. apply Hne.
    apply Z.bits_inj'. intros n Hn. rewrite Z.land_spec, Z.bits_0.
    rewrite Z.pow2_bits_eqb by done.
    destruct (Z.eqb_spec k n) as [<- | ]; [ by rewrite Hb | by rewrite andb_false_r ].
  - intros Hb Hz.
    assert (H : Z.testbit (Z.land x (2 ^ k)) k = true).
    { rewrite Z.land_spec, Hb, Z.pow2_bits_eqb by done. by rewrite Z.eqb_refl. }
    rewrite Hz, Z.bits_0 in H. done.
Qed.

(** Clearing and setting one flag bit. *)
Lemma clear_bit_testbit x k n :
  0 <= k ->
  Z.testbit (Z.land x (Z.lnot (2 ^ k))) n
  = if bool_decide (n = k) then false else Z.testbit x n.
Proof.
  intros Hk. destruct (Z_lt_le_dec n 0) as [Hn | Hn].
  - rewrite !Z.testbit_neg_r by done. by case_bool_decide.
  - rewrite Z.land_spec, Z.lnot_spec, Z.pow2_bits_eqb by done.
    case_bool_decide as He.
    + subst n. by rewrite Z.eqb_refl, andb_false_r.
    + destruct (Z.eqb_spec k n); [ congruence | by rewrite andb_true_r ].
Qed.

Lemma set_bit_testbit x k n :
  0 <= k ->
  Z.testbit (Z.lor x (2 ^ k)) n
  = if bool_decide (n = k) then true else Z.testbit x n.
Proof.
  intros Hk. destruct (Z_lt_le_dec n 0) as [Hn | Hn].
  - rewrite !Z.testbit_neg_r by done. case_bool_decide; [ lia | done ].
  - rewrite Z.lor_spec, Z.pow2_bits_eqb by done.
    case_bool_decide as He.
    + subst n. by rewrite Z.eqb_refl, orb_true_r.
    + destruct (Z.eqb_spec k n); [ congruence | by rewrite orb_false_r ].
Qed.

Lemma lor_bound n a b :
  0 <= a < 2 ^ n -> 0 <= b < 2 ^ n -> 0 <= Z.lor a b < 2 ^ n.
Proof.
  intros Ha Hb.
  assert (Hnn : 0 <= Z.lor a b) by (apply Z.lor_nonneg; lia).
  split; [ done | ].
  destruct (decide (Z.lor a b = 0)) as [-> | Hne]; [ lia | ].
  assert (Hn : 0 < n).
  { destruct (Z_lt_le_dec 0 n) as [ | Hle ]; [ done | ].
    assert (2 ^ n <= 1).
    { destruct (decide (n = 0)) as [-> | ]; [ done | ].
      rewrite Z.pow_neg_r by lia. lia. }
    assert (a = 0) by lia. assert (b = 0) by lia. subst. done. }
  apply Z.log2_lt_pow2; [ lia | ].
  rewrite Z.log2_lor by lia.
  assert (Z.log2 a < n).
  { destruct (decide (a = 0)) as [-> | ]; [ done | apply Z.log2_lt_pow2; lia ]. }
  assert (Z.log2 b < n).
  { destruct (decide (b = 0)) as [-> | ]; [ done | apply Z.log2_lt_pow2; lia ]. }
  lia.
Qed.

Lemma swab16_bounds x : 0 <= swab16 x <= 65535.
Proof.
  unfold swab16. rewrite !land_255, Z.shiftl_mul_pow2, Z.shiftr_div_pow2 by lia.
  change (2 ^ 8) with 256.
  pose proof (Z.mod_pos_bound x 256). pose proof (Z.mod_pos_bound (x `div` 256) 256).
  pose proof (lor_bound 16 (x `mod` 256 * 256) ((x `div` 256) `mod` 256)). lia.
Qed.

End bits.

Section bios_flags_properties.
Variable bios : apm_bios.

Lemma flag_disabled x : Z.land x APM_BIOS_DISABLED ≠ 0 <-> Z.testbit x 3 = true.
Proof. apply (land_pow2_testbit x 3). lia. Qed.

Lemma flag_disengaged x : Z.land x APM_BIOS_DISENGAGED ≠ 0 <-> Z.testbit x 4 = true.
Proof. apply (land_pow2_testbit x 4). lia. Qed.

Lemma apm_enable_power_management_spec enable info :
  reports_errors bios ->
  let r := apm_enable_power_management bios enable info in
  (r.1 <> APM_SUCCESS -> r.2 = info) /\
  (r.1 = APM_SUCCESS ->
     same_but_flags info r.2 /\
     forall n, Z.testbit (bios_flags r.2) n
               = if bool_decide (n = 3) then bool_decide (enable = 0)
                 else Z.testbit (bios_flags info) n) /\
  (enable = 0 -> Z.testbit (bios_flags info) 4 = true -> r = (APM_NOT_ENGAGED, info)).
Proof.
  intros Hb r. subst r. unfold apm_enable_power_management.
  destruct (bool_decide (enable = 0)
            && bool_decide (Z.land (bios_flags info) APM_BIOS_DISENGAGED ≠ 0)) eqn:Href.
  { cbn. split; [ done | ]. split; [ intros H; discriminate H | done ]. }
  pose proof (Hb APM_FUNC_ENABLE_PM (APM_DEVICE_BALL info) enable) as Hc.
  destruct (reg_error (bios APM_FUNC_ENABLE_PM (APM_DEVICE_BALL info) enable)).
  { cbn [fst snd]. split; [ done | ]. split.
    - intros H. exfalso. by apply Hc.
    - intros -> Ht. apply flag_disengaged in Ht.
      rewrite bool_decide_true in Href by done.
      rewrite bool_decide_true in Href by done. done. }
  cbn [fst snd]. split; [ done | ]. split.
  - intros _. split; [ done | ]. intros n. cbn [set_bios_flags bios_flags].
    destruct (decide (enable = 0)) as [He | He].
    + rewrite (bool_decide_false (enable ≠ 0)) by (intros H; by apply H).
      rewrite (bool_decide_true (enable = 0)) by done.
      apply (set_bit_testbit (bios_flags info) 3 n). lia.
    + rewrite (bool_decide_true (enable ≠ 0)) by done.
      rewrite (bool_decide_false (enable = 0)) by done.
      apply (clear_bit_testbit (bios_flags info) 3 n). lia.
  - intros -> Ht. apply flag_disengaged in Ht.
    rewrite bool_decide_true in Href by done.
    rewrite bool_decide_true in Href by done. done.
Qed.

Lemma apm_engage_power_management_spec device enable info :
  reports_errors bios ->
  let r := apm_engage_power_management bios device enable info in
  (r.1 <> APM_SUCCESS -> r.2 = info) /\
  (r.1 = APM_SUCCESS ->
     same_but_flags info r.2 /\
     forall n, Z.testbit (bios_flags r.2) n
               = if bool_decide (device = APM_DEVICE_ALL /\ n = 4)
                 then bool_decide (enable = 0)
                 else Z.testbit (bios_flags info) n) /\
  (enable = 0 -> device = APM_DEVICE_ALL -> Z.testbit (bios_flags info) 3 = true ->
   r = (APM_DISABLED, info)).
Proof.
  intros Hb r. subst r. unfold apm_engage_power_management.
  destruct (bool_decide (enable = 0) && bool_decide (device = APM_DEVICE_ALL)
            && bool_decide (Z.land (bios_flags info) APM_BIOS_DISABLED ≠ 0)) eqn:Href.
  { cbn. split; [ done | ]. split; [ intros H; discriminate H | done ]. }
  assert (Hnot : enable = 0 -> device = APM_DEVICE_ALL ->
                 Z.testbit (bios_flags info) 3 = true -> False).
  { intros -> -> Ht. apply flag_disabled in Ht.
    rewrite !bool_decide_true in Href by done. done. }
  pose proof (Hb APM_FUNC_ENGAGE_PM device enable) as Hc.
  destruct (reg_error (bios APM_FUNC_ENGAGE_PM device enable)).
  { cbn [fst snd]. split; [ done | ]. split.
    - intros H. exfalso. by apply Hc.
    - intros H1 H2 H3. by destruct (Hnot H1 H2 H3). }
  cbn [fst snd]. split; [ done | ]. split.
  - intros _. destruct (decide (device = APM_DEVICE_ALL)) as [Hd | Hd];
      [ rewrite (bool_decide_true (device = APM_DEVICE_ALL)) by done
      | rewrite (bool_decide_false (device = APM_DEVICE_ALL)) by done ].
    + split; [ done | ]. intros n. cbn [set_bios_flags bios_flags].
      assert (Hbit : Z.testbit
                (if bool_decide (enable ≠ 0)
                 then Z.land (bios_flags info) (Z.lnot APM_BIOS_DISENGAGED)
                 else Z.lor (bios_flags info) APM_BIOS_DISENGAGED) n
              = if bool_decide (n = 4) then bool_decide (enable = 0)
                else Z.testbit (bios_flags info) n).
      { destruct (decide (enable = 0)) as [He | He].
        - rewrite (bool_decide_false (enable ≠ 0)) by (intros H; by apply H).
          rewrite (bool_decide_true (enable = 0)) by done.
          apply (set_bit_testbit (bios_flags info) 4 n). lia.
        - rewrite (bool_decide_true (enable ≠ 0)) by done.
          rewrite (bool_decide_false (enable = 0)) by done.
          apply (clear_bit_testbit (bios_flags info) 4 n). lia. }
      rewrite Hbit. destruct (decide (n = 4)) as [-> | Hn].
      * by rewrite (bool_decide_true (device = APM_DEVICE_ALL /\ 4 = 4)).
      * rewrite (bool_decide_false (n = 4)) by done.
        by rewrite (bool_decide_false (device = APM_DEVICE_ALL /\ n = 4)) by (by intros [_ ?]).
    + split; [ done | ]. intros n.
      by rewrite bool_decide_false by (by intros [? _]).
  - intros H1 H2 H3. by destruct (Hnot H1 H2 H3).
Qed.

(** X21.  [apm_enable_power_management] and
    [apm_engage_power_management], with a BIOS that gives an error code
    with every error: a call that does not return [APM_SUCCESS] leaves
    [apm_info] as it was; one that does sets bit 3 of the flags
    ([APM_BIOS_DISABLED]), respectively bit 4 ([APM_BIOS_DISENGAGED], for
    [APM_DEVICE_ALL] only), exactly when [enable] is 0, clears it
    otherwise, and changes no other bit.  Disabling a BIOS that is
    disengaged is refused with [APM_NOT_ENGAGED], disengaging one that is
    disabled with [APM_DISABLED]. *)
Theorem apm_pm_flags device enable info :
  reports_errors bios ->
  let r := apm_enable_power_management bios enable info in
  let g := apm_engage_power_management bios device enable info in
  ((r.1 <> APM_SUCCESS -> r.2 = info) /\
   (r.1 = APM_SUCCESS ->
      same_but_flags info r.2 /\
      forall n, Z.testbit (bios_flags r.2) n
                = if bool_decide (n = 3) then bool_decide (enable = 0)
                  else Z.testbit (bios_flags info) n) /\
   (enable = 0 -> Z.testbit (bios_flags info) 4 = true -> r = (APM_NOT_ENGAGED, info))) /\
  ((g.1 <> APM_SUCCESS -> g.2 = info) /\
   (g.1 = APM_SUCCESS ->
      same_but_flags info g.2 /\
      forall n, Z.testbit (bios_flags g.2) n
                = if bool_decide (device = APM_DEVICE_ALL /\ n = 4)
                  then bool_decide (enable = 0)
                  else Z.testbit (bios_flags info) n) /\
   (enable = 0 -> device = APM_DEVICE_ALL -> Z.testbit (bios_flags info) 3 = true ->
    g = (APM_DISABLED, info))).
Proof.
  intros Hb. split.
  - by apply apm_enable_power_management_spec.
  - by apply apm_engage_power_management_spec.
Qed.

End bios_flags_properties.

Section connecting.
Variable bios : apm_bios.

(** X22.  The setup of the APM thread, with a BIOS that gives an error
    code with every error.  When [apm] gets past it (it does not return
    -1): power management is enabled (bit 3 of the flags is clear) if the
    kernel is built to enable it, and engaged (bit 4 is clear) if the
    connection is above APM 1.0; no other flag bit has changed.  A
    connection version set before is kept.  Otherwise it is the BIOS
    version when that is at most 1.0; and for a later BIOS, which is
    offered its own version but no more than 1.2, it is 1.0 when the BIOS
    refuses the call and else the version the BIOS returns. *)
Theorem apm_connect_spec do_enable info info' errs :
  reports_errors bios ->
  apm_connect bios do_enable info = (Some info', errs) ->
  (do_enable = true -> Z.testbit (bios_flags info') 3 = false) /\
  (256 < info_connection_version info' -> Z.testbit (bios_flags info') 4 = false) /\
  (forall n, n <> 3 -> n <> 4 ->
     Z.testbit (bios_flags info') n = Z.testbit (bios_flags info) n) /\
  bios_version info' = bios_version info /\
  info_connection_version info'
  = (if bool_decide (info_connection_version info = 0) then
       if bool_decide (256 < bios_version info) then
         let r := bios APM_FUNC_VERSION 0 (Z.min (bios_version info) 258) in
         if reg_error r then 256 else u_short (reg_eax r)
       else bios_version info
     else info_connection_version info).
Proof.
  intros Hb. unfold apm_connect.
  set (s1 := if bool_decide (info_connection_version info = 0) then _ else _).
  assert (H1 : bios_flags s1.1 = bios_flags info /\
               bios_version s1.1 = bios_version info /\
               info_connection_version s1.1
               = (if bool_decide (info_connection_version info = 0) then
                    if bool_decide (256 < bios_version info) then
                      let r := bios APM_FUNC_VERSION 0 (Z.min (bios_version info) 258) in
                      if reg_error r then 256 else u_short (reg_eax r)
                    else bios_version info
                  else info_connection_version info)).
  { subst s1. destruct (bool_decide (info_connection_version info = 0)); [ | done ].
    cbn [set_info_connection_version info_connection_version].
    destruct (bool_decide (256 < bios_version info)); [ | done ].
    assert (Hmin : info_connection_version
                     (if bool_decide (258 < bios_version info)
                      then set_info_connection_version 258
                             (set_info_connection_version (bios_version info) info)
                      else set_info_connection_version (bios_version info) info)
                   = Z.min (bios_version info) 258).
    { case_bool_decide; cbn; lia. }
    unfold apm_driver_version. rewrite Hmin.
    pose proof (Hb APM_FUNC_VERSION 0 (Z.min (bios_version info) 258)) as Hc.
    destruct (reg_error (bios APM_FUNC_VERSION 0 (Z.min (bios_version info) 258))).
    - rewrite bool_decide_true by (by apply Hc).
      cbn. by destruct (bool_decide (258 < bios_version info)).
    - rewrite bool_decide_false by (intros H; by apply H).
      cbn. by destruct (bool_decide (258 < bios_version info)). }
  destruct s1 as [info1 errs1]. cbn [fst] in H1. destruct H1 as (Hf1 & Hv1 & Hc1).
  set (s2 := if do_enable && _ then _ else inl info1).
  assert (H2 : match s2 with
               | inr _ => True
               | inl info2 =>
                   same_but_flags info1 info2 /\
                   (do_enable = true -> Z.testbit (bios_flags info2) 3 = false) /\
                   (forall n, n <> 3 ->
                      Z.testbit (bios_flags info2) n = Z.testbit (bios_flags info1) n)
               end).
  { subst s2.
    destruct (do_enable && bool_decide (Z.land (bios_flags info1) APM_BIOS_DISABLED ≠ 0))
      eqn:Hcond.
    - destruct (apm_enable_power_management_spec bios 1 info1 Hb) as (_ & Hok & _).
      destruct (apm_enable_power_management bios 1 info1) as [error info2].
      cbn [fst snd] in Hok.
      destruct (decide (error = 0)) as [He | He];
        [ rewrite (bool_decide_false (error ≠ 0)) by (intros H; by apply H)
        | by rewrite (bool_decide_true (error ≠ 0)) ].
      destruct (Hok He) as (Hsame & Hbits).
      split; [ done | ]. split.
      + intros _. rewrite Hbits. by rewrite bool_decide_true.
      + intros n Hn. rewrite Hbits. by rewrite bool_decide_false.
    - split; [ done | ]. split; [ | done ]. intros ->. cbn in Hcond.
      apply bool_decide_eq_false in Hcond.
      destruct (Z.testbit (bios_flags info1) 3) eqn:Ht; [ | done ].
      exfalso. apply Hcond. by apply flag_disabled. }
  destruct s2 as [info2 | errs2]; [ | by intros [=] ].
  destruct H2 as ((Hbv2 & Hcv2 & _) & Hen2 & Hbits2).
  destruct (bool_decide (Z.land (bios_flags info2) APM_BIOS_DISENGAGED ≠ 0)
            && bool_decide (256 < info_connection_version info2)) eqn:Hcond.
  - destruct (apm_engage_power_management_spec bios APM_DEVICE_ALL 1 info2 Hb)
      as (_ & Hok & _).
    destruct (apm_engage_power_management bios APM_DEVICE_ALL 1 info2) as [error info3].
    cbn [fst snd] in Hok.
    destruct (decide (error = 0)) as [He | He];
      [ rewrite (bool_decide_false (error ≠ 0)) by (intros H; by apply H)
      | rewrite (bool_decide_true (error ≠ 0)) by done; by intros [=] ].
    destruct (Hok He) as ((Hbv3 & Hcv3 & _) & Hbits).
    intros [= <- <-]. split; [ | split; [ | split; [ | split ] ] ].
    + intros Hd. rewrite Hbits.
      rewrite bool_decide_false by (intros [_ ?]; lia). by apply Hen2.
    + intros _. rewrite Hbits. by rewrite bool_decide_true.
    + intros n H3 H4. rewrite Hbits.
      rewrite bool_decide_false by (by intros [_ ?]).
      rewrite Hbits2 by done. by rewrite Hf1.
    + congruence.
    + congruence.
  - intros [= <- <-]. split; [ | split; [ | split; [ | split ] ] ].
    + done.
    + intros Hgt. apply andb_false_iff in Hcond as [Hcond | Hcond].
      * apply bool_decide_eq_false in Hcond.
        destruct (Z.testbit (bios_flags info2) 4) eqn:Ht; [ | done ].
        exfalso. apply Hcond. by apply flag_disengaged.
      * apply bool_decide_eq_false in Hcond. lia.
    + intros n H3 H4. rewrite Hbits2 by done. by rewrite Hf1.
    + congruence.
    + congruence.
Qed.

(** X23.  [apm_exit], with a BIOS that gives an error code with every
    error, on a connection above APM 1.0: when it ends without an error
    message, power management is disengaged (bit 4 of the flags is set);
    no other flag bit ever changes; and a BIOS found disabled is not asked
    at all: the error reported is [APM_DISABLED] and the flags stay as
    they are.  On an APM 1.0 connection nothing is done. *)
Theorem apm_exit_disengages info :
  reports_errors bios ->
  let r := apm_exit bios info in
  (256 < info_connection_version info -> r.2 = [] ->
     Z.testbit (bios_flags r.1) 4 = true) /\
  (forall n, n <> 4 -> Z.testbit (bios_flags r.1) n = Z.testbit (bios_flags info) n) /\
  same_but_flags info r.1 /\
  (256 < info_connection_version info ->
   Z.testbit (bios_flags info) 4 = false -> Z.testbit (bios_flags info) 3 = true ->
     r = (info, [(AtDisengagePM, APM_DISABLED)])) /\
  (info_connection_version info <= 256 -> r = (info, [])).
Proof.
  intros Hb r. subst r. unfold apm_exit.
  destruct (bool_decide (Z.land (bios_flags info) APM_BIOS_DISENGAGED = 0)
            && bool_decide (256 < info_connection_version info)) eqn:Hcond.
  - apply andb_true_iff in Hcond as [Hc1 Hc2].
    apply bool_decide_eq_true in Hc1, Hc2.
    destruct (apm_engage_power_management_spec bios APM_DEVICE_ALL 0 info Hb)
      as (Hfail & Hok & Href).
    destruct (apm_engage_power_management bios APM_DEVICE_ALL 0 info)
      as [error info'] eqn:Heng.
    cbn [fst snd] in *. split; [ | split; [ | split; [ | split ] ] ].
    + intros _.
      destruct (decide (error = 0)) as [He | He];
        [ rewrite (bool_decide_false (error ≠ 0)) by (intros H; by apply H)
        | by rewrite (bool_decide_true (error ≠ 0)) ].
      intros _. destruct (Hok He) as (_ & Hbits).
      rewrite Hbits. by rewrite !bool_decide_true.
    + intros n Hn. destruct (decide (error = APM_SUCCESS)) as [He | He].
      * destruct (Hok He) as (_ & Hbits). rewrite Hbits.
        by rewrite bool_decide_false by (by intros [_ ?]).
      * by rewrite (Hfail He).
    + destruct (decide (error = APM_SUCCESS)) as [He | He].
      * by destruct (Hok He).
      * by rewrite (Hfail He).
    + intros _ _ H3. injection (Href eq_refl eq_refl H3) as -> ->. done.
    + lia.
  - split; [ | split; [ done | split; [ done | split ] ] ].
    + intros Hgt _. apply andb_false_iff in Hcond as [Hcond | Hcond].
      * apply bool_decide_eq_false in Hcond.
        destruct (Z.testbit (bios_flags info) 4) eqn:Ht; [ done | ].
        exfalso. apply Hcond. destruct (decide (Z.land (bios_flags info) APM_BIOS_DISENGAGED = 0))
          as [H0 | H0]; [ done | ]. apply flag_disengaged in H0. congruence.
      * apply bool_decide_eq_false in Hcond. lia.
    + intros Hgt H4 H3. exfalso.
      apply andb_false_iff in Hcond as [Hcond | Hcond];
        apply bool_decide_eq_false in Hcond; [ | lia ].
      apply Hcond. destruct (decide (Z.land (bios_flags info) APM_BIOS_DISENGAGED = 0))
        as [H0 | H0]; [ done | ]. apply flag_disengaged in H0. congruence.
    + done.
Qed.

End connecting.

Section power_status.
Variable bios : apm_bios.

Lemma apm_get_power_status_cases info :
  (apm_get_power_status bios info).1 <> 0
  \/ (exists bx cx dx,
        apm_get_power_status bios info = (0, Some (bx, cx, dx)) /\
        get_power_status_broken info = false /\
        0 <= dx <= 65535 /\
        (get_power_status_swabinminutes info = true -> Z.testbit dx 15 = true))
  \/ (apm_get_power_status bios info = (0, None) /\
      get_power_status_broken info = false /\ ~ reports_errors bios).
Proof.
  unfold apm_get_power_status.
  destruct (get_power_status_broken info); [ by left | ].
  destruct (reg_error (bios APM_FUNC_GET_STATUS APM_DEVICE_ALL 0)) eqn:Herr.
  - destruct (decide (error_code (reg_eax (bios APM_FUNC_GET_STATUS APM_DEVICE_ALL 0)) = 0))
      as [He | Hne]; [ | by left ].
    right; right. rewrite He. split; [ done | ]. split; [ done | ].
    intros Hrep. by apply (Hrep _ _ _ Herr).
  - right. left. do 3 eexists. split; [ reflexivity | ]. split; [ done | ].
    destruct (get_power_status_swabinminutes info).
    + split; [ | intros _; rewrite (set_bit_testbit _ 15 15) by lia;
                 by rewrite bool_decide_true ].
      pose proof (swab16_bounds (u_short (reg_edx (bios APM_FUNC_GET_STATUS APM_DEVICE_ALL 0)))).
      pose proof (lor_bound 16
                    (swab16 (u_short (reg_edx (bios APM_FUNC_GET_STATUS APM_DEVICE_ALL 0))))
                    32768). lia.
    + split; [ apply u_short_bounds | done ].
Qed.

(** X24.  What [apm_get_info] reports, whatever the BIOS answers: the AC
    line status, the battery status and the battery flag are bytes; the
    percentage is -1 (unknown) or a number up to 254; the remaining time
    is -1 with the unit unknown, or a number up to 32767 with the unit
    minutes or seconds.  On an APM 1.0 connection the battery flag and
    the time are unknown.  With more than one CPU, or a BIOS whose "get
    power status" is marked broken, everything is unknown.  For a BIOS
    marked as giving the time byte-swapped, a time that is known is in
    minutes, provided the BIOS gives an error code with every error: a
    BIOS that sets the carry flag with error code 0 makes [apm_get_info]
    report what its uninitialised variables hold. *)
Theorem apm_get_info_bounds smp_num_cpus junk info :
  let p := apm_get_info bios smp_num_cpus junk info in
  0 <= ac_line_status p <= 255 /\ 0 <= battery_status p <= 255 /\
  0 <= battery_flag p <= 255 /\
  (percentage p = -1 \/ 0 <= percentage p <= 254) /\
  (time_units p = -1 /\ units p = UnitUnknown
   \/ 0 <= time_units p <= 32767 /\ units p <> UnitUnknown) /\
  (info_connection_version info <= 256 ->
     battery_flag p = 255 /\ time_units p = -1) /\
  (smp_num_cpus <> 1 \/ get_power_status_broken info = true ->
     p = Build_apm_power_info 255 255 255 (-1) (-1) UnitUnknown) /\
  (reports_errors bios ->
   get_power_status_swabinminutes info = true -> units p <> UnitSec).
Proof.
  intros p. subst p. unfold apm_get_info.
  assert (Hunk : forall q, q = Build_apm_power_info 255 255 255 (-1) (-1) UnitUnknown ->
            0 <= ac_line_status q <= 255 /\ 0 <= battery_status q <= 255 /\
            0 <= battery_flag q <= 255 /\
            (percentage q = -1 \/ 0 <= percentage q <= 254) /\
            (time_units q = -1 /\ units q = UnitUnknown
             \/ 0 <= time_units q <= 32767 /\ units q <> UnitUnknown) /\
            (info_connection_version info <= 256 ->
               battery_flag q = 255 /\ time_units q = -1) /\
            (smp_num_cpus <> 1 \/ get_power_status_broken info = true ->
               q = Build_apm_power_info 255 255 255 (-1) (-1) UnitUnknown) /\
            (reports_errors bios ->
             get_power_status_swabinminutes info = true -> units q <> UnitSec)).
  { intros q ->. cbn. repeat split; auto; lia. }
  case_bool_decide as Hsmp; [ | by apply Hunk ].
  assert (Hval : forall bx cx dx,
            get_power_status_broken info = false -> 0 <= dx <= 65535 ->
            (reports_errors bios -> get_power_status_swabinminutes info = true ->
             Z.testbit dx 15 = true) ->
            let q :=
              if bool_decide (256 < info_connection_version info) then
                if bool_decide (dx ≠ 65535) then
                  Build_apm_power_info (Z.land (Z.shiftr bx 8) 255) (Z.land bx 255)
                    (Z.land (Z.shiftr cx 8) 255)
                    (if bool_decide (Z.land cx 255 ≠ 255) then Z.land cx 255 else -1)
                    (Z.land dx 32767)
                    (if bool_decide (Z.land dx 32768 ≠ 0) then UnitMin else UnitSec)
                else
                  Build_apm_power_info (Z.land (Z.shiftr bx 8) 255) (Z.land bx 255)
                    (Z.land (Z.shiftr cx 8) 255)
                    (if bool_decide (Z.land cx 255 ≠ 255) then Z.land cx 255 else -1)
                    (-1) UnitUnknown
              else
                Build_apm_power_info (Z.land (Z.shiftr bx 8) 255) (Z.land bx 255) 255
                  (if bool_decide (Z.land cx 255 ≠ 255) then Z.land cx 255 else -1)
                  (-1) UnitUnknown in
            0 <= ac_line_status q <= 255 /\ 0 <= battery_status q <= 255 /\
            0 <= battery_flag q <= 255 /\
            (percentage q = -1 \/ 0 <= percentage q <= 254) /\
            (time_units q = -1 /\ units q = UnitUnknown
             \/ 0 <= time_units q <= 32767 /\ units q <> UnitUnknown) /\
            (info_connection_version info <= 256 ->
               battery_flag q = 255 /\ time_units q = -1) /\
            (smp_num_cpus <> 1 \/ get_power_status_broken info = true ->
               q = Build_apm_power_info 255 255 255 (-1) (-1) UnitUnknown) /\
            (reports_errors bios ->
             get_power_status_swabinminutes info = true -> units q <> UnitSec)).
  { intros bx cx dx Hbr Hdx Hsw. cbv zeta.
    assert (Hb1 : forall x, 0 <= Z.land x 255 <= 255).
    { intros x. rewrite land_255. pose proof (Z.mod_pos_bound x 256). lia. }
    assert (Hpct : let pct := if bool_decide (Z.land cx 255 ≠ 255)
                              then Z.land cx 255 else -1 in
                   pct = -1 \/ 0 <= pct <= 254).
    { cbv zeta. case_bool_decide; [ right; pose proof (Hb1 cx); lia | by left ]. }
    assert (Hnot : ~ (smp_num_cpus <> 1 \/ get_power_status_broken info = true)).
    { intros [? | ?]; [ done | congruence ]. }
    destruct (bool_decide (256 < info_connection_version info)) eqn:Hcv.
    + apply bool_decide_eq_true in Hcv.
      destruct (bool_decide (dx ≠ 65535)) eqn:Hd; cbn.
      * repeat split; try apply Hb1; try done; try lia.
        -- right. split.
           ++ rewrite land_32767. pose proof (Z.mod_pos_bound dx 32768). lia.
           ++ by destruct (bool_decide (Z.land dx 32768 ≠ 0)).
        -- intros Hrep Hs. specialize (Hsw Hrep Hs).
           rewrite bool_decide_true; [ done | ].
           by apply (land_pow2_testbit dx 15).
      * repeat split; try apply Hb1; try done; try lia. by left.
    + apply bool_decide_eq_false in Hcv. cbn.
      repeat split; try apply Hb1; try done; try lia. by left. }
  destruct (apm_get_power_status_cases info)
    as [Hne | [(bx & cx & dx & -> & Hbr & Hdx & Hsw) | (-> & Hbr & Hrep)]].
  - destruct (apm_get_power_status bios info) as [e o]. cbn [fst] in Hne.
    rewrite bool_decide_false by done. by apply Hunk.
  - rewrite bool_decide_true by done. cbn [default].
    apply Hval; [ done | done | by intros _ ].
  - rewrite bool_decide_true by done. cbn [default].
    apply Hval; [ done | apply u_short_bounds | by intros ? ].
Qed.

(** X25.  [apm_console_blank] asks the BIOS to put the first display
    into standby (to make it ready, when [blank] is 0), then all
    displays, then the second display, and stops at the first of the
    three the BIOS accepts, with success or with no error code.  It
    returns 1 exactly when one of the three was accepted, and no error is
    reported then; when all three are refused it returns 0 and reports
    the error of the last. *)
Theorem apm_console_blank_tries blank :
  let r := apm_console_blank bios blank in
  let state := if bool_decide (blank ≠ 0) then 1 else 0 in
  let accepted what :=
    set_power_state_of bios what state = APM_SUCCESS
    \/ set_power_state_of bios what state = APM_NO_ERROR in
  exists before last rest,
    r.1.2 = before ++ [last] /\ [256; 511; 257] = before ++ last :: rest /\
    Forall (fun what => ~ accepted what) before /\
    (accepted last -> r.1.1 = 1 /\ r.2 = None) /\
    (~ accepted last ->
       rest = [] /\ r.1.1 = 0 /\
       r.2 = Some (AtSetDisplay, set_power_state_of bios last state)).
Proof.
  intros r state accepted. subst r. unfold apm_console_blank. fold state.
  assert (Hok : forall what,
            bool_decide (set_power_state_of bios what state = APM_SUCCESS)
            || bool_decide (set_power_state_of bios what state = APM_NO_ERROR) = true
            <-> accepted what).
  { intros what. subst accepted. cbv beta.
    rewrite orb_true_iff, !bool_decide_eq_true. done. }
  assert (Hno : forall what,
            bool_decide (set_power_state_of bios what state = APM_SUCCESS)
            || bool_decide (set_power_state_of bios what state = APM_NO_ERROR) = false
            -> ~ accepted what).
  { intros what Hf Ha. apply Hok in Ha. congruence. }
  destruct (bool_decide (set_power_state_of bios 256 state = APM_SUCCESS)
            || bool_decide (set_power_state_of bios 256 state = APM_NO_ERROR)) eqn:H1;
    cbn [negb].
  - rewrite H1. exists [], 256, [511; 257]. cbn [fst snd].
    split; [ done | ]. split; [ done | ]. split; [ done | ]. split; [ done | ].
    intros Hn. exfalso. apply Hn. by apply Hok.
  - destruct (bool_decide (set_power_state_of bios 511 state = APM_SUCCESS)
              || bool_decide (set_power_state_of bios 511 state = APM_NO_ERROR)) eqn:H2;
      cbn [negb].
    + rewrite H2. exists [256], 511, [257]. cbn [fst snd].
      split; [ done | ]. split; [ done | ].
      split; [ constructor; [ by apply Hno | done ] | ]. split; [ done | ].
      intros Hn. exfalso. apply Hn. by apply Hok.
    + exists [256; 511], 257, [].
      destruct (bool_decide (set_power_state_of bios 257 state = APM_SUCCESS)
                || bool_decide (set_power_state_of bios 257 state = APM_NO_ERROR)) eqn:H3;
        cbn [fst snd].
      * split; [ done | ]. split; [ done | ].
        split; [ repeat constructor; by apply Hno | ].
        split; [ done | ]. intros Hn. exfalso. apply Hn. by apply Hok.
      * split; [ done | ]. split; [ done | ].
        split; [ repeat constructor; by apply Hno | ].
        split; [ | done ]. intros Ha. by apply Hno in H3.
Qed.

End power_status.

(** ** Sample BIOSes *)

Lemma picky_bios_reports_errors : reports_errors picky_bios.
Proof. intros [] ebx ecx; cbn; intros H; try discriminate H. by vm_compute. Qed.

Lemma accepting_bios_reports_errors : reports_errors accepting_bios.
Proof. intros func ebx ecx. cbn. discriminate. Qed.

(** A BIOS that sets the carry flag with error code 0, on a machine
    marked as giving the time in minutes: [apm_get_info] reports what its
    uninitialised variables hold, here a time in seconds. *)
Lemma apm_get_info_uninitialised :
  apm_get_info (fun _ _ _ => Build_apm_regs true 0 0 0 0) 1 (258, 80, 30)
    (Build_apm_info_t 258 27 258 false true)
  = Build_apm_power_info 1 2 0 80 30 UnitSec.
Proof. reflexivity. Qed.

(** Enabling and engaging power management on the sample machine. *)
Lemma apm_pm_flags_witness :
  apm_enable_power_management accepting_bios 1 sample_info
    = (APM_SUCCESS, set_bios_flags 19 sample_info) /\
  apm_engage_power_management accepting_bios APM_DEVICE_ALL 1 sample_info
    = (APM_SUCCESS, set_bios_flags 11 sample_info) /\
  (forall n, Z.testbit 19 n = if bool_decide (n = 3) then bool_decide (1 = 0)
                              else Z.testbit 27 n).
Proof.
  split; [ reflexivity | ]. split; [ reflexivity | ].
  destruct (apm_pm_flags accepting_bios APM_DEVICE_ALL 1 sample_info
              accepting_bios_reports_errors) as ((_ & H & _) & _).
  exact (proj2 (H eq_refl)).
Defined.

(** The thread connects to a BIOS that refuses the version call: the
    connection falls back to APM 1.0, power management is enabled and,
    this being APM 1.0, not engaged. *)
Lemma apm_connect_spec_witness :
  apm_connect picky_bios true sample_info
    = (Some (Build_apm_info_t 258 19 256 false false), [(AtDriverVersion, 12)]) /\
  Z.testbit 19 3 = false /\
  info_connection_version (Build_apm_info_t 258 19 256 false false) = 256.
Proof.
  assert (H : apm_connect picky_bios true sample_info
              = (Some (Build_apm_info_t 258 19 256 false false), [(AtDriverVersion, 12)]))
    by reflexivity.
  split; [ exact H | ].
  destruct (apm_connect_spec picky_bios true sample_info _ _
              picky_bios_reports_errors H) as (H3 & _ & _ & _ & Hv).
  split; [ by apply H3 | exact Hv ].
Defined.

(** The module is unloaded on an engaged APM 1.2 connection. *)
Lemma apm_exit_disengages_witness :
  let info := Build_apm_info_t 258 3 258 false false in
  apm_exit accepting_bios info = (set_bios_flags 19 info, []) /\
  Z.testbit (bios_flags (apm_exit accepting_bios info).1) 4 = true.
Proof.
  cbv zeta. split; [ reflexivity | ].
  destruct (apm_exit_disengages accepting_bios (Build_apm_info_t 258 3 258 false false)
              accepting_bios_reports_errors) as (H & _).
  apply H; [ cbn; lia | reflexivity ].
Defined.

(** * The APM thread *)

Section thread.
Variable W : World.

Lemma get_event_event r junk notified :
  gives_event r -> get_event r junk notified = (u_short (reg_ebx r), notified, None).
Proof. intros [He Hc]. unfold get_event, apm_get_event. by rewrite He. Qed.

Lemma get_event_nothing r junk notified :
  gives_nothing r ->
  exists err,
    get_event r junk notified
    = (0, if reg_error r && bool_decide (error_code (reg_eax r) ≠ APM_NO_EVENTS)
          then notified + 1 else notified, err) /\
    (err = None \/
     notified = 0 /\ error_code (reg_eax r) <> APM_NO_EVENTS /\
     err = Some (AtGetEvent, error_code (reg_eax r))).
Proof.
  intros [[He Hc] | [He Hc]]; unfold get_event, apm_get_event; rewrite He.
  - rewrite bool_decide_false by done. cbn [andb].
    destruct (bool_decide (error_code (reg_eax r) ≠ APM_NO_EVENTS)) eqn:Hn.
    + apply bool_decide_eq_true in Hn.
      eexists. split; [ reflexivity | ]. case_bool_decide; [ by right | by left ].
    + eexists. split; [ reflexivity | by left ].
  - cbn. rewrite Hc. eexists. split; [ reflexivity | by left ].
Qed.

(** X26.  [check_events] and [get_event] together: the events the BIOS
    gives are handled one after the other, as [check_events] handles a
    list of events, up to the first call of [get_event] that gives an
    error or event 0 (the rest is not asked for).  That call reports its
    error only if it is the first error [get_event] ever saw, and never
    when the BIOS just has no events pending. *)
Theorem check_events_polled_events good stop more junk ks :
  Forall (fun a => gives_event a.2) good -> gives_nothing stop.2 ->
  let ks' := check_events_polled W (good ++ stop :: more) junk ks in
  ks_apm ks'
  = check_events W ((fun a => (a.1, event_of_code (u_short (reg_ebx a.2)))) <$> good)
      (ks_apm ks) /\
  ks_pending_count ks' = ks_pending_count ks /\
  (ks_errors ks' = ks_errors ks
   \/ ks_notified ks = 0 /\ error_code (reg_eax stop.2) <> APM_NO_EVENTS /\
      ks_errors ks' = (AtGetEvent, error_code (reg_eax stop.2)) :: ks_errors ks).
Proof.
  intros Hgood Hstop. revert ks. induction Hgood as [ | [j r] good Hr _ IH ]; intros ks.
  - destruct stop as [j r]. cbn [app check_events_polled fmap list_fmap check_events snd] in *.
    destruct (get_event_nothing r junk (ks_notified ks) Hstop) as (err & -> & Herr).
    rewrite bool_decide_true by done. cbn.
    split; [ done | ]. split; [ done | ].
    destruct Herr as [-> | (Hn & Hne & ->)]; [ by left | by right ].
  - cbn [app check_events_polled fmap list_fmap check_events fst snd] in *.
    rewrite (get_event_event r junk (ks_notified ks) Hr).
    destruct Hr as [_ Hc]. rewrite bool_decide_false by done.
    cbn [option_list app ks_apm ks_pending_count ks_notified ks_errors].
    destruct (check_event W j (event_of_code (u_short (reg_ebx r))) (ks_apm ks))
      as [[] st1]; cbn [ks_apm ks_pending_count ks_notified ks_errors].
    + specialize (IH (Build_kapmd_state st1 (ks_pending_count ks) (ks_notified ks)
                        (ks_errors ks))).
      exact IH.
    + split; [ done | ]. split; [ done | by left ].
Qed.

Lemma get_event_books_polled answers junk : forall ks,
  get_event_books ks -> get_event_books (check_events_polled W answers junk ks).
Proof.
  induction answers as [ | [j r] rest IH ]; intros ks Hks; [ done | ].
  cbn [check_events_polled].
  destruct (get_event r junk (ks_notified ks)) as [[code notified] err] eqn:Hg.
  assert (H1 : get_event_books
                 (Build_kapmd_state (ks_apm ks) (ks_pending_count ks) notified
                    (option_list err ++ ks_errors ks))).
  { destruct Hks as [H0 Hc]. unfold get_event_books, get_event_errors in *.
    cbn [ks_notified ks_errors].
    unfold get_event in Hg. destruct (apm_get_event r) as [error event].
    case_bool_decide as He1.
    - injection Hg as _ <- <-. done.
    - case_bool_decide as He2.
      + injection Hg as _ <- <-. split; [ lia | ].
        rewrite (bool_decide_false (ks_notified ks + 1 = 0)) by lia.
        destruct (bool_decide (ks_notified ks = 0)) eqn:Hn.
        * lazymatch goal with
          | |- context [option_list (Some ?x) ++ ?l] =>
              change (option_list (Some x) ++ l) with (x :: l)
          end.
          rewrite filter_cons_True by done. cbn [length]. f_equal. exact Hc.
        * done.
      + injection Hg as _ <- <-. done. }
  case_bool_decide; [ done | ].
  destruct (check_event W j (event_of_code code) _) as [[] st1]; cbn; [ | done ].
  apply IH. done.
Qed.

Lemma get_event_books_handler answers junk ks :
  get_event_books ks -> get_event_books (apm_event_handler W answers junk ks).
Proof.
  intros [H0 Hc]. unfold apm_event_handler.
  set (x := if _ || _ then _ else _).
  assert (Hx : get_event_errors x.2 = get_event_errors (ks_errors ks)).
  { subst x. destruct (_ || _); [ | done ].
    destruct (bool_decide (256 < _)); [ | done ].
    destruct (bool_decide (ks_pending_count ks ≤ 0)); [ | done ].
    destruct (apm_set_power_state W APM_STATE_BUSY (ks_apm ks)) as [err st1].
    cbn [snd]. destruct (bool_decide (err ≠ 0)); [ | done ].
    unfold get_event_errors. by rewrite filter_cons_False by (cbn; congruence). }
  destruct x as [[st1 count] errs]. cbn [snd] in Hx.
  apply get_event_books_polled.
  split; [ done | ]. cbn [ks_errors ks_notified]. by rewrite Hx.
Qed.

(** X27.  However long the thread runs and whatever the BIOS answers,
    [get_event] reports an error at most once: the first error it sees
    that is not "no events pending".  Later errors are counted in
    [notified] and not reported.  (The counter is an [int]; the statement
    is for the runs in which it has not reached 2^31.) *)
Theorem get_event_reports_once rounds junk st :
  let ks := apm_mainloop W rounds junk (kapmd_boot st) in
  ks_notified ks < 2 ^ 31 ->
  0 <= ks_notified ks /\
  (get_event_errors (ks_errors ks) <= 1)%nat /\
  (get_event_errors (ks_errors ks) = 1%nat <-> 0 < ks_notified ks).
Proof.
  intros ks _. assert (Hks : get_event_books ks).
  { subst ks. unfold apm_mainloop.
    induction rounds as [ | answers rounds IH ] using rev_ind; [ by split | ].
    rewrite foldl_app. cbn [foldl]. by apply get_event_books_handler. }
  destruct Hks as [H0 Hc]. split; [ done | ]. rewrite Hc.
  case_bool_decide; split; try lia; split; try lia; done.
Qed.

Lemma check_events_polled_quiet j r more junk ks :
  gives_nothing r ->
  exists n e,
    check_events_polled W ((j, r) :: more) junk ks
    = Build_kapmd_state (ks_apm ks) (ks_pending_count ks) n e.
Proof.
  intros Hr. cbn [check_events_polled].
  destruct (get_event_nothing r junk (ks_notified ks) Hr) as (err & -> & _).
  rewrite (bool_decide_true (0 = 0)) by done. by do 2 eexists.
Qed.

Lemma fifth_round (k : nat) :
  ((S k / 5 = k / 5 + 1 /\ S k mod 5 = 0 /\ k mod 5 = 4)
   \/ (S k / 5 = k / 5 /\ S k mod 5 = k mod 5 + 1 /\ k mod 5 < 4))%nat.
Proof.
  pose proof (Nat.div_mod_eq k 5) as H1. pose proof (Nat.div_mod_eq (S k) 5) as H2.
  pose proof (Nat.mod_upper_bound k 5). pose proof (Nat.mod_upper_bound (S k) 5). lia.
Qed.

(** X28.  While a client holds back a suspend or a standby, on a
    connection above APM 1.0, the thread tells the BIOS that it is busy
    ([APM_STATE_BUSY]) in every fifth round, counted from its start, as
    long as the BIOS has no event for it; nothing else is said to the
    BIOS, no device is called, and no client and no counter changes. *)
Theorem apm_event_handler_busy rounds junk st :
  Forall quiet_round rounds ->
  0 < standbys_pending st \/ 0 < suspends_pending st ->
  256 < connection_version st ->
  let ks := apm_mainloop W rounds junk (kapmd_boot st) in
  bios_calls (log (ks_apm ks))
    = replicate (length rounds / 5) APM_STATE_BUSY ++ bios_calls (log st) /\
  ks_pending_count ks = 4 - Z.of_nat (length rounds mod 5) /\
  callbacks (log (ks_apm ks)) = callbacks (log st) /\
  devs (ks_apm ks) = devs st /\ user_list (ks_apm ks) = user_list st /\
  suspends_pending (ks_apm ks) = suspends_pending st /\
  standbys_pending (ks_apm ks) = standbys_pending st.
Proof.
  intros Hq Hp Hv ks. subst ks. unfold apm_mainloop.
  assert (Hgen : let ks := foldl (fun ks answers => apm_event_handler W answers junk ks)
                             (kapmd_boot st) rounds in
            bios_calls (log (ks_apm ks))
              = replicate (length rounds / 5) APM_STATE_BUSY ++ bios_calls (log st) /\
            ks_pending_count ks = 4 - Z.of_nat (length rounds mod 5) /\
            callbacks (log (ks_apm ks)) = callbacks (log st) /\
            devs (ks_apm ks) = devs st /\ user_list (ks_apm ks) = user_list st /\
            suspends_pending (ks_apm ks) = suspends_pending st /\
            standbys_pending (ks_apm ks) = standbys_pending st /\
            connection_version (ks_apm ks) = connection_version st).
  2:{ cbv zeta in Hgen. destruct Hgen as (? & ? & ? & ? & ? & ? & ? & _). done. }
  induction rounds as [ | answers rounds IH ] using rev_ind.
  { cbn. by repeat split. }
  apply Forall_app in Hq as [Hq Ha]. apply Forall_cons in Ha as [Ha _].
  specialize (IH Hq). cbv zeta in IH |- *.
  rewrite foldl_app, length_app. cbn [foldl length].
  replace (length rounds + 1)%nat with (S (length rounds)) by lia.
  set (ks := foldl _ (kapmd_boot st) rounds) in *.
  destruct IH as (Hb & Hc & Hcb & Hd & Hu & Hs & Hy & Hcv).
  destruct Ha as (j & r & more & -> & Hr).
  unfold apm_event_handler. rewrite Hs, Hy, Hcv.
  assert (Hpend : bool_decide (0 < standbys_pending st)
                  || bool_decide (0 < suspends_pending st) = true).
  { apply orb_true_iff. destruct Hp; [ left | right ]; by apply bool_decide_eq_true. }
  rewrite Hpend. rewrite (bool_decide_true (256 < connection_version st)) by done.
  destruct (fifth_round (length rounds)) as [(Hdiv & Hmod & Hk) | (Hdiv & Hmod & Hk)].
  - rewrite (bool_decide_true (ks_pending_count ks ≤ 0)) by lia.
    destruct (set_power_state_log W APM_STATE_BUSY (ks_apm ks))
      as (Hl & Hd1 & Hu1 & Hm1 & Hc1 & _).
    unfold apm_set_power_state.
    destruct (set_power_state W APM_STATE_BUSY (ks_apm ks)) as [err st1].
    cbn [snd] in *.
    match goal with |- context [check_events_polled W _ junk ?k] =>
      destruct (check_events_polled_quiet j r more junk k Hr) as (n & e & ->) end.
    cbn [ks_apm ks_pending_count]. rewrite Hl, Hdiv, Hmod.
    destruct Hc1 as (Hc1 & _ & Hc3 & Hc4). destruct Hm1 as (_ & _ & _ & _ & _ & _ & _ & Hm8).
    split.
    { change (bios_calls (EvSetPowerState APM_STATE_BUSY :: log (ks_apm ks)))
        with (APM_STATE_BUSY :: bios_calls (log (ks_apm ks))).
      rewrite Hb.
      replace (length rounds / 5 + 1)%nat with (S (length rounds / 5)) by lia. done. }
    split; [ done | ].
    split; [ change (callbacks (EvSetPowerState APM_STATE_BUSY :: log (ks_apm ks)))
               with (callbacks (log (ks_apm ks))); done | ].
    repeat split; congruence.
  - rewrite (bool_decide_false (ks_pending_count ks ≤ 0)) by lia.
    match goal with |- context [check_events_polled W _ junk ?k] =>
      destruct (check_events_polled_quiet j r more junk k Hr) as (n & e & ->) end.
    cbn [ks_apm ks_pending_count]. rewrite Hdiv, Hmod.
    split; [ done | ]. split; [ lia | ]. by repeat split.
Qed.

End thread.

(** ** Sample rounds of the thread *)

(** The BIOS gives [APM_SYS_SUSPEND] and then has no more events: the
    thread handles exactly that event. *)
Lemma check_events_polled_events_witness :
  let st := (do_open true true true true sample_boot).2 in
  (gives_event (event_answer 2) /\ gives_nothing no_events) /\
  ks_apm (check_events_polled sample_world [(0, event_answer 2); (1, no_events)] 0
            (kapmd_boot st))
  = check_events sample_world [(0, APM_SYS_SUSPEND)] st.
Proof.
  cbv zeta.
  assert (H1 : gives_event (event_answer 2)) by (split; [ done | by vm_compute ]).
  assert (H2 : gives_nothing no_events) by (left; split; [ done | by vm_compute ]).
  split; [ by split | ].
  exact (proj1 (check_events_polled_events sample_world [(0, event_answer 2)]
                  (1, no_events) [] 0
                  (kapmd_boot (do_open true true true true sample_boot).2)
                  ltac:(by constructor) H2)).
Defined.

(** Seven rounds without an event while the sample client holds back a
    suspend: the BIOS is told once that the system is busy. *)
Lemma apm_event_handler_busy_witness :
  let ks := apm_mainloop sample_world (replicate 7 [(0, no_events)]) 0
              (kapmd_boot sample_queued_state) in
  bios_calls (log (ks_apm ks)) = [APM_STATE_BUSY] /\ ks_pending_count ks = 2.
Proof.
  cbv zeta.
  assert (H1 : Forall quiet_round (replicate 7 [(0, no_events)])).
  { apply Forall_replicate. exists 0, no_events, [].
    split; [ done | ]. left. split; [ done | by vm_compute ]. }
  assert (H2 : 0 < standbys_pending sample_queued_state
               \/ 0 < suspends_pending sample_queued_state) by (right; by vm_compute).
  assert (H3 : 256 < connection_version sample_queued_state) by (by vm_compute).
  destruct (apm_event_handler_busy sample_world (replicate 7 [(0, no_events)]) 0
              sample_queued_state H1 H2 H3) as (Hb & Hc & _).
  split; [ rewrite Hb; reflexivity | rewrite Hc; reflexivity ].
Defined.

(** * The overflow message *)

Section overflow_once.
Variable W : World.

Lemma overflow_messages_app new tr :
  overflow_messages (new ++ tr)
  = (overflow_messages new + overflow_messages tr)%nat.
Proof. unfold overflow_messages. by rewrite filter_app, length_app. Qed.

Lemma overflow_messages_calls ds new :
  Forall (calls_one_of ds) new -> overflow_messages new = 0%nat.
Proof.
  unfold overflow_messages.
  induction 1 as [ | e new (d & r & x & -> & _) _ IH ]; [ done | ].
  rewrite filter_cons_False by done. exact IH.
Qed.

Lemma overflow_messages_other e tr :
  e <> EvPrintk MsgQueueOverflow ->
  overflow_messages (e :: tr) = overflow_messages tr.
Proof. intros He. unfold overflow_messages. by rewrite filter_cons_False. Qed.

Lemma overflow_books_same st st' :
  notified st' = notified st ->
  overflow_messages (log st') = overflow_messages (log st) ->
  overflow_books st -> overflow_books st'.
Proof. unfold overflow_books. by intros -> ->. Qed.

Lemma overflow_books_printk m st :
  m <> MsgQueueOverflow -> overflow_books st -> overflow_books (printk m st).
Proof.
  intros Hm. apply overflow_books_same; [ done | ].
  unfold printk. cbn [log set_log set_pm].
  apply overflow_messages_other. congruence.
Qed.

Lemma overflow_books_pm_send_all rqst data st :
  overflow_books st ->
  overflow_books (set_pm (pm_send_all W rqst data (devs st) (log st)).1.2
                    (pm_send_all W rqst data (devs st) (log st)).2 st).
Proof.
  apply overflow_books_same; [ done | ]. cbn [log set_pm].
  rewrite pm_send_all_as_where.
  destruct (pm_send_all_where_calls W (fun _ => false) rqst data (devs st) []
              (log st)) as (new & -> & HF).
  by rewrite overflow_messages_app, (overflow_messages_calls _ _ HF).
Qed.

Lemma overflow_books_set_power_state s st :
  overflow_books st -> overflow_books (set_power_state W s st).2.
Proof.
  destruct (set_power_state_log W s st) as (Hl & _ & _ & _ & _ & Hn).
  apply overflow_books_same; [ done | ]. rewrite Hl.
  by apply overflow_messages_other.
Qed.

Lemma overflow_books_first st :
  overflow_books st ->
  overflow_books
    (set_notified
       (notified (if bool_decide (notified st = 0)
                  then printk MsgQueueOverflow st else st) + 1)
       (if bool_decide (notified st = 0) then printk MsgQueueOverflow st else st)).
Proof.
  intros [H0 Hc]. unfold overflow_books.
  destruct (decide (notified st = 0)) as [En | En].
  - rewrite (bool_decide_true _ En) in *.
    cbn [notified log set_notified printk set_log set_pm].
    split; [ lia | ]. rewrite bool_decide_false by lia.
    unfold overflow_messages in *. rewrite filter_cons_True by done.
    cbn [length]. by rewrite Hc.
  - rewrite (bool_decide_false _ En) in *.
    cbn [notified log set_notified]. split; [ lia | ].
    by rewrite bool_decide_false by lia.
Qed.

Lemma overflow_books_queue_event_user event sender a st :
  overflow_books st -> overflow_books (queue_event_user event sender a st).2.
Proof.
  intros Hst. unfold queue_event_user.
  destruct (bool_decide (sender = Some (as_self a)) || negb (as_reader a));
    [ done | ].
  cbn [as_event_head as_event_tail as_events set_as_queue].
  pose proof (overflow_books_first st Hst) as Hfull.
  destruct (bool_decide (_ = as_event_tail a));
    cbn [as_suser as_writer set_as_queue];
    destruct (negb (as_suser a) || negb (as_writer a));
    try done; destruct event; done.
Qed.

Lemma overflow_books_queue_event_loop event sender users : forall st,
  overflow_books st ->
  overflow_books (queue_event_loop event sender users st).2.
Proof.
  induction users as [ | a users IH ]; intros st Hst; simpl; [ done | ].
  pose proof (overflow_books_queue_event_user event sender a st Hst) as H1.
  destruct (queue_event_user event sender a st) as [a1 st1].
  pose proof (IH st1 H1) as H2.
  by destruct (queue_event_loop event sender users st1) as [rest st2].
Qed.

Lemma overflow_books_queue_event event sender st :
  overflow_books st -> overflow_books (queue_event event sender st).
Proof.
  intros Hst. unfold queue_event.
  pose proof (overflow_books_queue_event_loop event sender (user_list st) st Hst)
    as H.
  by destruct (queue_event_loop event sender (user_list st) st) as [users st'].
Qed.

Lemma overflow_books_standby st :
  overflow_books st -> overflow_books (standby W st).
Proof.
  intros Hst. unfold standby, apm_set_power_state.
  pose proof (overflow_books_set_power_state APM_STATE_STANDBY st Hst) as H.
  destruct (set_power_state W APM_STATE_STANDBY st) as [err st1].
  destruct (_ && _); [ | done ]. by apply overflow_books_printk.
Qed.

Lemma overflow_books_suspend vetoable st :
  overflow_books st -> overflow_books (suspend W vetoable st).2.
Proof.
  intros Hst. unfold suspend, apm_set_power_state.
  pose proof (overflow_books_pm_send_all PM_SUSPEND 3 st Hst) as H1.
  destruct (pm_send_all W PM_SUSPEND 3 (devs st) (log st)) as [[status ds] tr].
  cbn [fst snd] in H1.
  destruct (bool_decide (status ≠ 0) && vetoable).
  - unfold suspend_out. cbn [snd].
    apply (overflow_books_printk MsgVetoed); [ done | ].
    destruct (bool_decide (256 < connection_version (set_pm ds tr st)));
      [ | done ].
    by apply overflow_books_set_power_state.
  - set (st1 := if bool_decide (status ≠ 0)
                then printk MsgVetoedAnyway (set_pm ds tr st) else set_pm ds tr st).
    assert (H2 : overflow_books st1).
    { subst st1. destruct (bool_decide (status ≠ 0)); [ | done ].
      by apply overflow_books_printk. }
    pose proof (overflow_books_set_power_state APM_STATE_SUSPEND st1 H2) as H3.
    destruct (set_power_state W APM_STATE_SUSPEND st1) as [err st2].
    cbn [snd] in H3.
    set (e := if bool_decide (err = APM_NO_ERROR) then APM_SUCCESS else err).
    set (st3 := if bool_decide (e ≠ APM_SUCCESS)
                then printk (MsgSuspendError e) st2 else st2).
    assert (H4 : overflow_books st3).
    { subst st3. destruct (bool_decide (e ≠ APM_SUCCESS)); [ | done ].
      by apply overflow_books_printk. }
    pose proof (overflow_books_pm_send_all PM_RESUME 0 st3 H4) as H5.
    destruct (pm_send_all W PM_RESUME 0 (devs st3) (log st3)) as [[s2 ds2] tr2].
    cbn [fst snd] in H5. unfold suspend_out. cbn [snd].
    by apply (overflow_books_queue_event APM_NORMAL_RESUME None) in H5.
Qed.

Lemma overflow_books_check_event jiffies event st :
  overflow_books st -> overflow_books (check_event W jiffies event st).2.
Proof.
  intros Hst. unfold check_event.
  set (st1 := if ignore_bounce st && _ then _ else st).
  assert (H1 : overflow_books st1) by (subst st1; by destruct (_ && _)).
  clearbody st1.
  set (st2 := if ignore_normal_resume st1 && _ then _ else st1).
  assert (H2 : overflow_books st2) by (subst st2; by destruct (_ && _)).
  clearbody st2.
  assert (Hrej : overflow_books
            (if bool_decide (256 < connection_version st2)
             then (apm_set_power_state W APM_STATE_REJECT st2).2 else st2)).
  { destruct (bool_decide _); [ | done ]. by apply overflow_books_set_power_state. }
  assert (Hsys : forall ev, overflow_books
            (if ignore_bounce st2
             then (true,
                   if bool_decide (256 < connection_version st2)
                   then (apm_set_power_state W APM_STATE_REJECT st2).2 else st2)
             else if waiting_for_resume st2 then (false, st2)
             else (true,
                   if bool_decide
                        (suspends_pending
                           (queue_event ev None (set_waiting_for_resume true st2)) ≤ 0)
                   then (suspend W true
                           (queue_event ev None (set_waiting_for_resume true st2))).2
                   else queue_event ev None (set_waiting_for_resume true st2))).2).
  { intros ev. destruct (ignore_bounce st2); [ done | ].
    destruct (waiting_for_resume st2); [ done | ]. cbn [snd].
    assert (Hq : overflow_books
                   (queue_event ev None (set_waiting_for_resume true st2)))
      by (by apply overflow_books_queue_event).
    set (q := queue_event ev None (set_waiting_for_resume true st2)) in *.
    destruct (bool_decide (suspends_pending q ≤ 0)); [ | done ].
    by apply overflow_books_suspend. }
  assert (Hsby : forall ev, overflow_books
            (if bool_decide (standbys_pending (queue_event ev None st2) ≤ 0)
             then standby W (queue_event ev None st2)
             else queue_event ev None st2)).
  { intros ev. pose proof (overflow_books_queue_event ev None st2 H2) as Hq.
    set (q := queue_event ev None st2) in *.
    destruct (bool_decide (standbys_pending q ≤ 0)); [ | done ].
    by apply overflow_books_standby. }
  assert (Hres : forall ev, overflow_books
            (set_ignore_normal_resume false
               (if bool_decide (ev ≠ APM_NORMAL_RESUME)
                   || negb (ignore_normal_resume
                              (set_bounce (ulong jiffies) true
                                 (set_waiting_for_resume false st2)))
                then
                  let '(_, ds, tr) :=
                    pm_send_all W PM_RESUME 0
                      (devs (set_bounce (ulong jiffies) true
                               (set_waiting_for_resume false st2)))
                      (log (set_bounce (ulong jiffies) true
                              (set_waiting_for_resume false st2))) in
                  queue_event ev None
                    (set_pm ds tr
                       (set_bounce (ulong jiffies) true
                          (set_waiting_for_resume false st2)))
                else set_bounce (ulong jiffies) true
                       (set_waiting_for_resume false st2)))).
  { intros ev.
    set (st3 := set_bounce (ulong jiffies) true (set_waiting_for_resume false st2)).
    assert (H3 : overflow_books st3) by done.
    destruct (bool_decide (ev ≠ APM_NORMAL_RESUME) || negb (ignore_normal_resume st3));
      [ | done ].
    pose proof (overflow_books_pm_send_all PM_RESUME 0 st3 H3) as H4.
    destruct (pm_send_all W PM_RESUME 0 (devs st3) (log st3)) as [[s ds] tr].
    cbn [fst snd] in H4.
    by apply (overflow_books_queue_event ev None) in H4. }
  destruct event; cbn [snd];
    first [ done | apply Hsys | apply Hsby | apply Hres
          | by apply overflow_books_queue_event
          | by apply overflow_books_suspend
          | destruct (CONFIG_APM_IGNORE_USER_SUSPEND W); [ exact Hrej | apply Hsys ] ].
Qed.

Lemma overflow_books_check_events reported : forall st,
  overflow_books st -> overflow_books (check_events W reported st).
Proof.
  induction reported as [ | [jiffies event] rest IH ]; intros st Hst; [ done | ].
  cbn [check_events].
  pose proof (overflow_books_check_event jiffies event st Hst) as H1.
  destruct (check_event W jiffies event st) as [[] st1]; [ by apply IH | done ].
Qed.

Lemma overflow_books_do_ioctl filp cmd st :
  overflow_books st -> overflow_books (do_ioctl W filp cmd st).2.
Proof.
  intros Hst. unfold do_ioctl.
  destruct (lookup_user filp st) as [a | ]; [ | by apply overflow_books_printk ].
  destruct (negb (as_suser a) || negb (as_writer a)); [ done | ].
  destruct cmd; [ | | done ].
  - set (st1 := if bool_decide (0 < as_standbys_read a) then _ else _).
    assert (H1 : overflow_books st1).
    { subst st1. destruct (bool_decide (0 < as_standbys_read a)); [ done | ].
      by apply overflow_books_queue_event. }
    clearbody st1. cbn [snd].
    destruct (bool_decide (standbys_pending st1 ≤ 0)); [ | done ].
    by apply overflow_books_standby.
  - set (st1 := if bool_decide (0 < as_suspends_read a) then _ else _).
    assert (H1 : overflow_books st1).
    { subst st1. destruct (bool_decide (0 < as_suspends_read a)); [ done | ].
      by apply overflow_books_queue_event. }
    clearbody st1.
    destruct (bool_decide (suspends_pending st1 ≤ 0)); [ | done ].
    pose proof (overflow_books_suspend true st1 H1) as H2.
    by destruct (suspend W true st1) as [err st2].
Qed.

Lemma overflow_books_do_release filp st :
  overflow_books st -> overflow_books (do_release W filp st).2.
Proof.
  intros Hst. unfold do_release.
  destruct (lookup_user filp st) as [a | ]; [ | by apply overflow_books_printk ].
  set (st1 := if bool_decide (0 < as_standbys_pending a) then _ else st).
  assert (H1 : overflow_books st1).
  { subst st1. destruct (bool_decide (0 < as_standbys_pending a)); [ | done ].
    set (s := set_pending _ _ st).
    assert (Hs : overflow_books s) by done. clearbody s.
    destruct (bool_decide (standbys_pending s ≤ 0)); [ | done ].
    by apply overflow_books_standby. }
  clearbody st1.
  set (st2 := if bool_decide (0 < as_suspends_pending a) then _ else st1).
  assert (H2 : overflow_books st2).
  { subst st2. destruct (bool_decide (0 < as_suspends_pending a)); [ | done ].
    set (s := set_pending _ _ st1).
    assert (Hs : overflow_books s) by done. clearbody s.
    destruct (bool_decide (suspends_pending s ≤ 0)); [ | done ].
    by apply overflow_books_suspend. }
  clearbody st2. done.
Qed.

Lemma overflow_books_do_read filp buf count nonblock st :
  overflow_books st -> overflow_books (do_read filp buf count nonblock st).2.
Proof.
  intros Hst. unfold do_read.
  destruct (lookup_user filp st) as [a | ]; [ | by apply overflow_books_printk ].
  destruct (bool_decide (count < sizeof_event)); [ done | ].
  destruct (queue_empty a); [ by destruct nonblock | ].
  by destruct (do_read_loop buf 0 _ a) as [[[] evs] a'].
Qed.

Lemma overflow_books_do_open ok capable fmode_read fmode_write st :
  overflow_books st ->
  overflow_books (do_open ok capable fmode_read fmode_write st).2.
Proof.
  intros Hst. unfold do_open.
  destruct ok; [ done | by apply overflow_books_printk ].
Qed.

Lemma overflow_books_run ops : forall st,
  overflow_books st -> overflow_books (apm_run W ops st).
Proof.
  unfold apm_run. induction ops as [ | op ops IH ]; intros st Hst; [ done | ].
  cbn [foldl]. apply IH. destruct op; cbn [apm_step].
  - by apply overflow_books_do_open.
  - by apply overflow_books_do_release.
  - by apply overflow_books_do_read.
  - by apply overflow_books_do_ioctl.
  - by apply overflow_books_check_events.
  - by apply overflow_books_queue_event.
  - done.
Qed.

(** X29.  "apm: an event queue overflowed" is printed once for the whole
    run of the driver, not once for each overflow or each client: in
    every state the device reaches from boot the message is in the
    trace exactly when an overflow has been counted, and never twice.
    (The counter is an [int]; the statement is for the runs in which it
    has not reached 2^31.) *)
Theorem queue_overflow_reported_once ops ds bounce version :
  let st := apm_run W ops (apm_boot ds bounce version) in
  notified st < 2 ^ 31 ->
  0 <= notified st /\
  (overflow_messages (log st) <= 1)%nat /\
  (overflow_messages (log st) = 1%nat <-> 0 < notified st).
Proof.
  intros st _.
  assert (Hb : overflow_books st).
  { apply overflow_books_run. by split. }
  destruct Hb as [H0 Hc]. split; [ done | ]. rewrite Hc.
  case_bool_decide; split; try lia; split; try lia; done.
Qed.

End overflow_once.

(** ** Sample runs with repeated errors *)

(** The sample client leaves 21 events unread: two overflows are
    counted, one message is printed. *)
Lemma queue_overflow_reported_once_witness :
  let st := apm_run sample_world
              [OpOpen true true true true;
               OpCheckEvents ((fun e => (0, e)) <$> sample_events)]
              (apm_boot [] 300 258) in
  notified st = 2 /\ overflow_messages (log st) = 1%nat.
Proof.
  cbv zeta. split; [ by vm_compute | ].
  apply (queue_overflow_reported_once sample_world
           [OpOpen true true true true;
            OpCheckEvents ((fun e => (0, e)) <$> sample_events)] [] 300 258);
    by vm_compute.
Defined.

(** The BIOS answers "unrecognized device ID" in two rounds: [get_event]
    counts both and reports the first. *)
Lemma get_event_reports_once_witness :
  let ks := apm_mainloop sample_world
              (replicate 2 [(0, Build_apm_regs true 2304 0 0 0)]) 0
              (kapmd_boot sample_boot) in
  ks_notified ks = 2 /\ get_event_errors (ks_errors ks) = 1%nat.
Proof.
  cbv zeta. split; [ by vm_compute | ].
  apply (get_event_reports_once sample_world
           (replicate 2 [(0, Build_apm_regs true 2304 0 0 0)]) 0 sample_boot);
    by vm_compute.
Defined.

(** * Unregistering a driver's devices *)

Section pm_unregister_broadcast.
Variable W : World.

(** X30.  After [pm_unregister_all] for a callback, in any state the
    registry reaches, a broadcast adds nothing to the trace but callback
    invocations, and none of them is on a device that was registered
    with that callback. *)
Theorem pm_unregister_all_silent ops f rqst data tr :
  let st := (pm_run ops).1 in
  let st' := pm_unregister_all (Some f) st in
  exists new,
    (pm_send_all W rqst data (pm_devs st') tr).2 = new ++ tr /\
    Forall (calls_one_of (pm_devs st')) new /\
    forall d rq x,
      d ∈ pm_devs st -> callback d = Some f -> EvCallback (entry d) rq x ∉ new.
Proof.
  intros st st'. rewrite pm_send_all_as_where.
  destruct (pm_send_all_where_calls W (fun _ => false) rqst data (pm_devs st') [] tr)
    as (new & Hn & Hf).
  rewrite reverse_nil, app_nil_l in Hf.
  exists new. split; [ done | ]. split; [ done | ].
  intros d rq x Hd Hcb Hin.
  apply (proj1 (Forall_forall _ _) Hf) in Hin
    as (d' & rq' & x' & [= He _ _] & Hd' & _).
  subst st'. cbn [pm_unregister_all pm_devs] in Hd'.
  apply list_elem_of_filter in Hd' as [Hcb' Hd'].
  assert (d = d') as ->; [ | congruence ].
  pose proof (pm_run_NoDup ops) as Hnd. fold st in Hnd.
  apply list_elem_of_lookup in Hd as [i Hi].
  apply list_elem_of_lookup in Hd' as [j Hj].
  assert (i = j) as ->.
  { eapply NoDup_lookup; [ exact Hnd | | ].
    - rewrite list_lookup_fmap, Hi. reflexivity.
    - rewrite list_lookup_fmap, Hj. simpl. by rewrite He. }
  congruence.
Qed.

End pm_unregister_broadcast.
